(** * smart-class-flow: the schema, triggers and row-level security policies
    of [supabase/migrations/20250930032716_*.sql], embedded as executable
    definitions, and the properties proved about them.

    Tables are lists of tuples; every column is nullable unless a NOT NULL
    constraint (a checked constraint, as in SQL) says otherwise.  A statement
    runs in an environment giving [auth.uid()], [NOW()], the value drawn by
    [gen_random_uuid()] and whether row security applies to the session. *)

From stdpp Require Import base option list strings gmap.
From Stdlib Require Import ZArith Lia.

Open Scope string_scope.
Open Scope list_scope.
Open Scope Z_scope.

(** ** SQL values *)

(** UUID, TEXT, INTEGER, TIME and TIMESTAMP WITH TIME ZONE values are
    represented by the number or string they denote; a nullable column of
    type [T] holds an [option T], [None] being NULL. *)
Definition uuid := N.
Bind Scope N_scope with uuid.
Definition text := string.
Definition integer := Z.
(** TIME: microseconds since midnight. *)
Definition time := Z.
(** TIMESTAMP WITH TIME ZONE: microseconds since the epoch. *)
Definition timestamptz := Z.

(** [CREATE TYPE user_role AS ENUM ('student', 'faculty', 'admin')] (line 5) *)
Inductive user_role := student | faculty | admin.

#[global] Instance user_role_eq_dec : EqDecision user_role.
Proof. solve_decision. Defined.

(** Three-valued logic: [None] is the unknown truth value. *)
Definition sql_eq {A} `{EqDecision A} (a b : option A) : option bool :=
  match a, b with
  | Some x, Some y => Some (bool_decide (x = y))
  | _, _ => None
  end.

Definition sql_gt (a b : option Z) : option bool :=
  match a, b with
  | Some x, Some y => Some (Z.ltb y x)
  | _, _ => None
  end.

Definition sql_and (a b : option bool) : option bool :=
  match a, b with
  | Some false, _ | _, Some false => Some false
  | Some true, Some true => Some true
  | _, _ => None
  end.

(** [a IN (v1, ..., vn)] for a list of non-null literals. *)
Definition sql_in {A} `{EqDecision A} (a : option A) (vs : list A) : option bool :=
  match a with
  | Some x => Some (bool_decide (x ∈ vs))
  | None => None
  end.

(** [COALESCE(a, b)] *)
Definition COALESCE {A} (a b : option A) : option A :=
  match a with
  | Some x => Some x
  | None => b
  end.

(** A WHERE clause, a USING or a WITH CHECK expression lets a row through
    only when it evaluates to true. *)
Definition is_true (b : option bool) : bool :=
  match b with
  | Some true => true
  | _ => false
  end.

(** A CHECK constraint is violated only when it evaluates to false. *)
Definition check_holds (b : option bool) : bool :=
  match b with
  | Some false => false
  | _ => true
  end.

(** ** JSON, as far as [raw_user_meta_data->>'name'] needs it *)

(** A member of a jsonb object: JSON null, a JSON string, or any other
    value (number, boolean, array, object) with the text the engine prints
    for it. *)
Inductive jvalue :=
| JNull
| JString (s : text)
| JOther (out : text).

Inductive jsonb :=
| JObject (members : gmap string jvalue)
| JNotObject.

(** [j ->> key]: the member as text; NULL when [j] is NULL or not an object,
    when the key is missing and when the member is JSON null. *)
Definition json_get_text (j : option jsonb) (key : string) : option text :=
  match j with
  | Some (JObject members) =>
      match members !! key with
      | Some (JString s) => Some s
      | Some (JOther out) => Some out
      | Some JNull | None => None
      end
  | Some JNotObject | None => None
  end.

(** ** Tuples of the six tables (CREATE TABLE, lines 8-71) *)

(** Modelled from the spec: the Identity table [auth.users] belongs to the
    authentication service and is not declared by the migration; its
    columns are the three that [handle_new_user] reads. *)
Module Users.
Record row := Row {
    id : option uuid;
    email : option text;
    raw_user_meta_data : option jsonb;
  }.
End Users.

Module Profiles.
Record row := Row {
    id : option uuid;
    user_id : option uuid;
    name : option text;
    email : option text;
    role : option user_role;
    department : option text;
    phone : option text;
    created_at : option timestamptz;
    updated_at : option timestamptz;
  }.
End Profiles.

Module Classrooms.
Record row := Row {
    id : option uuid;
    room_name : option text;
    capacity : option integer;
    equipment : option (list text);
    location : option text;
    availability_status : option bool;
    remarks : option text;
    created_at : option timestamptz;
    updated_at : option timestamptz;
  }.
End Classrooms.

Module Courses.
Record row := Row {
    id : option uuid;
    course_code : option text;
    course_name : option text;
    department : option text;
    credits : option integer;
    description : option text;
    created_at : option timestamptz;
    updated_at : option timestamptz;
  }.
End Courses.

Module Timetable.
Record row := Row {
    id : option uuid;
    course_id : option uuid;
    faculty_id : option uuid;
    room_id : option uuid;
    day_of_week : option text;
    start_time : option time;
    end_time : option time;
    semester : option text;
    academic_year : option text;
    created_at : option timestamptz;
    updated_at : option timestamptz;
  }.
End Timetable.

Module Feedback.
Record row := Row {
    id : option uuid;
    user_id : option uuid;
    title : option text;
    message : option text;
    status : option text;
    created_at : option timestamptz;
    updated_at : option timestamptz;
  }.
End Feedback.

(** The database: [auth.users] and the five tables of schema [public]. *)
Record db := Db {
  users : list Users.row;
  profiles : list Profiles.row;
  classrooms : list Classrooms.row;
  courses : list Courses.row;
  timetable : list Timetable.row;
  feedback : list Feedback.row;
}.

(** The state right after the CREATE TABLE statements. *)
Definition empty_db : db := Db [] [] [] [] [] [].

(** What a statement sees of its session and transaction. *)
Record env := Env {
  (** [auth.uid()]: the requesting identity, NULL when unauthenticated. *)
  auth_uid : option uuid;
  (** [NOW()]: the start time of the current transaction. *)
  NOW : timestamptz;
  (** the value [gen_random_uuid()] draws for this statement. *)
  gen_random_uuid : uuid;
  (** whether row-level security applies: false for the table owner (who
      runs the migration and its seed inserts) and for roles with the
      BYPASSRLS attribute. *)
  row_security : bool;
}.

(** ** Row-level security policies (CREATE POLICY, lines 80-139) *)

Inductive command := SELECT | INSERT | UPDATE | DELETE.

#[global] Instance command_eq_dec : EqDecision command.
Proof. solve_decision. Defined.

(** The command a policy is declared for: [FOR SELECT], ..., or [FOR ALL]. *)
Inductive policy_for := FOR (c : command) | FOR_ALL.

(** A policy expression, evaluated for a value of [auth.uid()], with
    [public.profiles] as its sub-select reads it, on one tuple. *)
Definition qual (R : Type) : Type :=
  option uuid -> list Profiles.row -> R -> option bool.

Record policy (R : Type) := Policy {
  polname : string;
  polcmd : policy_for;
  USING : option (qual R);
  WITH_CHECK : option (qual R);
}.
Arguments Policy {R} _ _ _ _.
Arguments polname {R} _.
Arguments polcmd {R} _.
Arguments USING {R} _.
Arguments WITH_CHECK {R} _.

(** [EXISTS (SELECT 1 FROM rows WHERE cond)] *)
Definition sql_exists {R} (rows : list R) (cond : R -> option bool) : option bool :=
  Some (existsb (fun r => is_true (cond r)) rows).

Definition profiles_policies : list (policy Profiles.row) :=
  [ Policy "Users can view all profiles" (FOR SELECT)
      (Some (fun _ _ _ => Some true)) None;
    Policy "Users can update their own profile" (FOR UPDATE)
      (Some (fun uid _ r => sql_eq uid (Profiles.user_id r))) None;
    Policy "Users can insert their own profile" (FOR INSERT)
      None (Some (fun uid _ r => sql_eq uid (Profiles.user_id r))) ].

Definition classrooms_policies : list (policy Classrooms.row) :=
  [ Policy "Anyone can view classrooms" (FOR SELECT)
      (Some (fun _ _ _ => Some true)) None;
    Policy "Admins can manage classrooms" FOR_ALL
      (Some (fun uid profs _ =>
         sql_exists profs (fun p =>
           sql_and (sql_eq (Profiles.user_id p) uid)
                   (sql_eq (Profiles.role p) (Some admin)))))
      None ].

Definition courses_policies : list (policy Courses.row) :=
  [ Policy "Anyone can view courses" (FOR SELECT)
      (Some (fun _ _ _ => Some true)) None;
    Policy "Admins can manage courses" FOR_ALL
      (Some (fun uid profs _ =>
         sql_exists profs (fun p =>
           sql_and (sql_eq (Profiles.user_id p) uid)
                   (sql_eq (Profiles.role p) (Some admin)))))
      None ].

Definition timetable_policies : list (policy Timetable.row) :=
  [ Policy "Anyone can view timetable" (FOR SELECT)
      (Some (fun _ _ _ => Some true)) None;
    Policy "Admins and faculty can manage timetable" FOR_ALL
      (Some (fun uid profs _ =>
         sql_exists profs (fun p =>
           sql_and (sql_eq (Profiles.user_id p) uid)
                   (sql_in (Profiles.role p) [admin; faculty]))))
      None ].

Definition feedback_policies : list (policy Feedback.row) :=
  [ Policy "Users can view their own feedback" (FOR SELECT)
      (Some (fun uid _ r => sql_eq uid (Feedback.user_id r))) None;
    Policy "Users can create feedback" (FOR INSERT)
      None (Some (fun uid _ r => sql_eq uid (Feedback.user_id r)));
    Policy "Admins can view all feedback" (FOR SELECT)
      (Some (fun uid profs _ =>
         sql_exists profs (fun p =>
           sql_and (sql_eq (Profiles.user_id p) uid)
                   (sql_eq (Profiles.role p) (Some admin)))))
      None ].

(** How the engine combines the (permissive) policies of a table with row
    security enabled: the policies declared for a command or FOR ALL apply
    to it, their expressions are joined by OR, and with no applicable
    expression the default is to deny. *)
Section PolicyLayer.
Context {R : Type}.
Variable pols : list (policy R).

Definition applies (c : command) (p : policy R) : bool :=
    match polcmd p with
    | FOR_ALL => true
    | FOR c' => bool_decide (c' = c)
    end.

Definition eval_qual (q : option (qual R))
      (uid : option uuid) (profs : list Profiles.row) (r : R) : bool :=
    match q with
    | Some f => is_true (f uid profs r)
    | None => false
    end.

  (** the USING expressions for command [c], on an existing tuple *)
Definition using_permits (c : command)
      (uid : option uuid) (profs : list Profiles.row) (r : R) : bool :=
    existsb (fun p => applies c p && eval_qual (USING p) uid profs r) pols.

  (** a policy without WITH CHECK has its USING expression checked on new
      tuples *)
Definition qual_for_wco (p : policy R) : option (qual R) :=
    match WITH_CHECK p with
    | Some f => Some f
    | None => USING p
    end.

  (** the WITH CHECK expressions for command [c], on a new tuple *)
Definition check_permits (c : command)
      (uid : option uuid) (profs : list Profiles.row) (r : R) : bool :=
    existsb (fun p => applies c p && eval_qual (qual_for_wco p) uid profs r) pols.
End PolicyLayer.

(** [public.profiles] as the sub-select of a policy of another table reads
    it: the sub-select runs as the requesting identity, under the SELECT
    policies of [profiles]. *)
Definition profiles_seen (e : env) (s : db) : list Profiles.row :=
  List.filter (fun p => using_permits profiles_policies SELECT (auth_uid e) [] p)
    (profiles s).

(** ** Constraints *)

(** The errors of the storage engine, each naming the column, constraint
    or table it is raised for. *)
Inductive sql_error :=
| not_null_violation (column : string)
| check_violation (constraint : string)
| unique_violation (constraint : string)
| foreign_key_violation (constraint : string)
| insufficient_privilege (table : string).

(** [NOT NULL] on a column *)
Definition not_null {A} (column : string) (v : option A) : option sql_error :=
  match v with
  | Some _ => None
  | None => Some (not_null_violation column)
  end.

(** [CHECK (expr)] *)
Definition check (constraint : string) (expr : option bool) : option sql_error :=
  if check_holds expr then None else Some (check_violation constraint).

(** [PRIMARY KEY] and [UNIQUE] on one column, against the other tuples of
    the table: NULL never conflicts. *)
Definition unique_on {R K} `{EqDecision K} (constraint : string)
    (col : R -> option K) (others : list R) (new : R) : option sql_error :=
  match col new with
  | Some k =>
      if bool_decide (Some k ∈ map col others)
      then Some (unique_violation constraint) else None
  | None => None
  end.

(** [REFERENCES parent(id)] on a column: a non-null value must be a key of
    the parent table. *)
Definition references (constraint : string) (v : option uuid)
    (parent_keys : list (option uuid)) : option sql_error :=
  match v with
  | Some k =>
      if bool_decide (Some k ∈ parent_keys) then None
      else Some (foreign_key_violation constraint)
  | None => None
  end.

(** [ON UPDATE NO ACTION] (the default) on the parent side: a key still
    referenced by a child tuple cannot change. *)
Definition still_referenced (constraint : string) (key : uuid)
    (child_refs : list (option uuid)) : option sql_error :=
  if bool_decide (Some key ∈ child_refs)
  then Some (foreign_key_violation constraint) else None.

(** The first constraint that fails, if any. *)
Fixpoint first_violation (cs : list (option sql_error)) : option sql_error :=
  match cs with
  | [] => None
  | Some err :: _ => Some err
  | None :: cs' => first_violation cs'
  end.

(** ** Trigger function [update_updated_at_column] (lines 162-189) *)

(** The function is declared once and attached to five tables; all it needs
    of a tuple is its [updated_at] column. *)
Class HasUpdatedAt (R : Type) := {
  get_updated_at : R -> option timestamptz;
  set_updated_at : option timestamptz -> R -> R;
}.

#[global] Instance profiles_updated_at : HasUpdatedAt Profiles.row := {|
  get_updated_at := Profiles.updated_at;
  set_updated_at v r :=
    Profiles.Row (Profiles.id r) (Profiles.user_id r) (Profiles.name r)
      (Profiles.email r) (Profiles.role r) (Profiles.department r)
      (Profiles.phone r) (Profiles.created_at r) v;
|}.

#[global] Instance classrooms_updated_at : HasUpdatedAt Classrooms.row := {|
  get_updated_at := Classrooms.updated_at;
  set_updated_at v r :=
    Classrooms.Row (Classrooms.id r) (Classrooms.room_name r)
      (Classrooms.capacity r) (Classrooms.equipment r) (Classrooms.location r)
      (Classrooms.availability_status r) (Classrooms.remarks r)
      (Classrooms.created_at r) v;
|}.

#[global] Instance courses_updated_at : HasUpdatedAt Courses.row := {|
  get_updated_at := Courses.updated_at;
  set_updated_at v r :=
    Courses.Row (Courses.id r) (Courses.course_code r) (Courses.course_name r)
      (Courses.department r) (Courses.credits r) (Courses.description r)
      (Courses.created_at r) v;
|}.

#[global] Instance timetable_updated_at : HasUpdatedAt Timetable.row := {|
  get_updated_at := Timetable.updated_at;
  set_updated_at v r :=
    Timetable.Row (Timetable.id r) (Timetable.course_id r)
      (Timetable.faculty_id r) (Timetable.room_id r) (Timetable.day_of_week r)
      (Timetable.start_time r) (Timetable.end_time r) (Timetable.semester r)
      (Timetable.academic_year r) (Timetable.created_at r) v;
|}.

#[global] Instance feedback_updated_at : HasUpdatedAt Feedback.row := {|
  get_updated_at := Feedback.updated_at;
  set_updated_at v r :=
    Feedback.Row (Feedback.id r) (Feedback.user_id r) (Feedback.title r)
      (Feedback.message r) (Feedback.status r) (Feedback.created_at r) v;
|}.

(** [NEW.updated_at = NOW(); RETURN NEW;] *)
Definition update_updated_at_column {R} `{HasUpdatedAt R} (e : env) (NEW : R) : R :=
  set_updated_at (Some (NOW e)) NEW.

(** ** The tables as the engine sees them *)

(** What CREATE TABLE, CREATE POLICY and CREATE TRIGGER declare for one
    table. *)
Record table (R : Type) := Table {
  relname : string;
  (** the primary key column *)
  relid : R -> option uuid;
  heap : db -> list R;
  store : list R -> db -> db;
  (** the tuple of column DEFAULTs; NULL where none is declared *)
  defaults : env -> R;
  (** BEFORE UPDATE ... FOR EACH ROW *)
  before_update : env -> R -> R;
  relpolicies : list (policy R);
  (** the NOT NULL constraints, then the CHECK constraints *)
  row_constraints : R -> list (option sql_error);
  (** PRIMARY KEY and UNIQUE, against the other tuples of the table *)
  unique_constraints : list R -> R -> list (option sql_error);
  (** REFERENCES on columns of this table *)
  foreign_keys : db -> R -> list (option sql_error);
  (** REFERENCES to this table, when a key changes (ON UPDATE NO ACTION) *)
  referenced : db -> uuid -> list (option sql_error);
  (** REFERENCES to this table, when a key is deleted (ON DELETE CASCADE) *)
  on_delete : uuid -> db -> db;
}.
Arguments relname {R} _.
Arguments relid {R} _ _.
Arguments heap {R} _ _.
Arguments store {R} _ _ _.
Arguments defaults {R} _ _.
Arguments before_update {R} _ _ _.
Arguments relpolicies {R} _.
Arguments row_constraints {R} _ _.
Arguments unique_constraints {R} _ _ _.
Arguments foreign_keys {R} _ _ _.
Arguments referenced {R} _ _ _.
Arguments on_delete {R} _ _ _.

Definition set_users (l : list Users.row) (s : db) : db :=
  Db l (profiles s) (classrooms s) (courses s) (timetable s) (feedback s).
Definition set_profiles (l : list Profiles.row) (s : db) : db :=
  Db (users s) l (classrooms s) (courses s) (timetable s) (feedback s).
Definition set_classrooms (l : list Classrooms.row) (s : db) : db :=
  Db (users s) (profiles s) l (courses s) (timetable s) (feedback s).
Definition set_courses (l : list Courses.row) (s : db) : db :=
  Db (users s) (profiles s) (classrooms s) l (timetable s) (feedback s).
Definition set_timetable (l : list Timetable.row) (s : db) : db :=
  Db (users s) (profiles s) (classrooms s) (courses s) l (feedback s).
Definition set_feedback (l : list Feedback.row) (s : db) : db :=
  Db (users s) (profiles s) (classrooms s) (courses s) (timetable s) l.

(** the tuples that do not hold [key] in column [col] *)
Definition without {R} (col : R -> option uuid) (key : uuid) (l : list R) : list R :=
  List.filter (fun r => negb (bool_decide (col r = Some key))) l.

(** ON DELETE CASCADE on [timetable.faculty_id], for each deleted profile *)
Definition cascade_profiles (gone : list Profiles.row)
    (entries : list Timetable.row) : list Timetable.row :=
  foldr (fun p acc =>
           match Profiles.id p with
           | Some k => without Timetable.faculty_id k acc
           | None => acc
           end) entries gone.

(** [auth.users]: primary key [id]; referenced by [profiles.user_id] and
    [feedback.user_id], both ON DELETE CASCADE, and a deleted profile takes
    the timetable entries of that faculty with it. *)
Definition users_on_delete (key : uuid) (s : db) : db :=
  let gone :=
    List.filter (fun p => bool_decide (Profiles.user_id p = Some key)) (profiles s) in
  Db (users s)
     (without Profiles.user_id key (profiles s))
     (classrooms s)
     (courses s)
     (cascade_profiles gone (timetable s))
     (without Feedback.user_id key (feedback s)).

Definition users_t : table Users.row := {|
  relname := "users";
  relid := Users.id;
  heap := users;
  store := set_users;
  defaults _ := Users.Row None None None;
  before_update _ r := r;
  relpolicies := [];
  row_constraints r := [ not_null "id" (Users.id r) ];
  unique_constraints others r := [ unique_on "users_pkey" Users.id others r ];
  foreign_keys _ _ := [];
  referenced s key :=
    [ still_referenced "profiles_user_id_fkey" key (map Profiles.user_id (profiles s));
      still_referenced "feedback_user_id_fkey" key (map Feedback.user_id (feedback s)) ];
  on_delete := users_on_delete;
|}.

Definition profiles_t : table Profiles.row := {|
  relname := "profiles";
  relid := Profiles.id;
  heap := profiles;
  store := set_profiles;
  defaults e :=
    Profiles.Row (Some (gen_random_uuid e)) None None None (Some student)
      None None (Some (NOW e)) (Some (NOW e));
  before_update := update_updated_at_column;
  relpolicies := profiles_policies;
  row_constraints r :=
    [ not_null "id" (Profiles.id r);
      not_null "user_id" (Profiles.user_id r);
      not_null "name" (Profiles.name r);
      not_null "email" (Profiles.email r);
      not_null "role" (Profiles.role r) ];
  unique_constraints others r :=
    [ unique_on "profiles_pkey" Profiles.id others r;
      unique_on "profiles_user_id_key" Profiles.user_id others r ];
  foreign_keys s r :=
    [ references "profiles_user_id_fkey" (Profiles.user_id r) (map Users.id (users s)) ];
  referenced s key :=
    [ still_referenced "timetable_faculty_id_fkey" key
        (map Timetable.faculty_id (timetable s)) ];
  on_delete key s :=
    set_timetable (without Timetable.faculty_id key (timetable s)) s;
|}.

Definition classrooms_t : table Classrooms.row := {|
  relname := "classrooms";
  relid := Classrooms.id;
  heap := classrooms;
  store := set_classrooms;
  defaults e :=
    Classrooms.Row (Some (gen_random_uuid e)) None None None None (Some true)
      None (Some (NOW e)) (Some (NOW e));
  before_update := update_updated_at_column;
  relpolicies := classrooms_policies;
  row_constraints r :=
    [ not_null "id" (Classrooms.id r);
      not_null "room_name" (Classrooms.room_name r);
      not_null "capacity" (Classrooms.capacity r);
      not_null "location" (Classrooms.location r);
      check "classrooms_capacity_check" (sql_gt (Classrooms.capacity r) (Some 0)) ];
  unique_constraints others r :=
    [ unique_on "classrooms_pkey" Classrooms.id others r;
      unique_on "classrooms_room_name_key" Classrooms.room_name others r ];
  foreign_keys _ _ := [];
  referenced s key :=
    [ still_referenced "timetable_room_id_fkey" key
        (map Timetable.room_id (timetable s)) ];
  on_delete key s :=
    set_timetable (without Timetable.room_id key (timetable s)) s;
|}.

Definition courses_t : table Courses.row := {|
  relname := "courses";
  relid := Courses.id;
  heap := courses;
  store := set_courses;
  defaults e :=
    Courses.Row (Some (gen_random_uuid e)) None None None (Some 3) None
      (Some (NOW e)) (Some (NOW e));
  before_update := update_updated_at_column;
  relpolicies := courses_policies;
  row_constraints r :=
    [ not_null "id" (Courses.id r);
      not_null "course_code" (Courses.course_code r);
      not_null "course_name" (Courses.course_name r);
      not_null "department" (Courses.department r);
      check "courses_credits_check" (sql_gt (Courses.credits r) (Some 0)) ];
  unique_constraints others r :=
    [ unique_on "courses_pkey" Courses.id others r;
      unique_on "courses_course_code_key" Courses.course_code others r ];
  foreign_keys _ _ := [];
  referenced s key :=
    [ still_referenced "timetable_course_id_fkey" key
        (map Timetable.course_id (timetable s)) ];
  on_delete key s :=
    set_timetable (without Timetable.course_id key (timetable s)) s;
|}.

Definition timetable_t : table Timetable.row := {|
  relname := "timetable";
  relid := Timetable.id;
  heap := timetable;
  store := set_timetable;
  defaults e :=
    Timetable.Row (Some (gen_random_uuid e)) None None None None None None
      None None (Some (NOW e)) (Some (NOW e));
  before_update := update_updated_at_column;
  relpolicies := timetable_policies;
  row_constraints r :=
    [ not_null "id" (Timetable.id r);
      not_null "course_id" (Timetable.course_id r);
      not_null "faculty_id" (Timetable.faculty_id r);
      not_null "room_id" (Timetable.room_id r);
      not_null "day_of_week" (Timetable.day_of_week r);
      not_null "start_time" (Timetable.start_time r);
      not_null "end_time" (Timetable.end_time r);
      not_null "semester" (Timetable.semester r);
      not_null "academic_year" (Timetable.academic_year r);
      check "timetable_day_of_week_check"
        (sql_in (Timetable.day_of_week r)
           ["Monday"; "Tuesday"; "Wednesday"; "Thursday"; "Friday";
            "Saturday"; "Sunday"]);
      check "valid_time_range"
        (sql_gt (Timetable.end_time r) (Timetable.start_time r)) ];
  unique_constraints others r :=
    [ unique_on "timetable_pkey" Timetable.id others r ];
  foreign_keys s r :=
    [ references "timetable_course_id_fkey" (Timetable.course_id r)
        (map Courses.id (courses s));
      references "timetable_faculty_id_fkey" (Timetable.faculty_id r)
        (map Profiles.id (profiles s));
      references "timetable_room_id_fkey" (Timetable.room_id r)
        (map Classrooms.id (classrooms s)) ];
  referenced _ _ := [];
  on_delete _ s := s;
|}.

Definition feedback_t : table Feedback.row := {|
  relname := "feedback";
  relid := Feedback.id;
  heap := feedback;
  store := set_feedback;
  defaults e :=
    Feedback.Row (Some (gen_random_uuid e)) None None None (Some "pending")
      (Some (NOW e)) (Some (NOW e));
  before_update := update_updated_at_column;
  relpolicies := feedback_policies;
  row_constraints r :=
    [ not_null "id" (Feedback.id r);
      not_null "user_id" (Feedback.user_id r);
      not_null "title" (Feedback.title r);
      not_null "message" (Feedback.message r);
      check "feedback_status_check"
        (sql_in (Feedback.status r) ["pending"; "reviewed"; "resolved"]) ];
  unique_constraints others r :=
    [ unique_on "feedback_pkey" Feedback.id others r ];
  foreign_keys s r :=
    [ references "feedback_user_id_fkey" (Feedback.user_id r) (map Users.id (users s)) ];
  referenced _ _ := [];
  on_delete _ s := s;
|}.

(** The five tables of schema [public], all with row security enabled. *)
Inductive relation : Type -> Type :=
| PROFILES : relation Profiles.row
| CLASSROOMS : relation Classrooms.row
| COURSES : relation Courses.row
| TIMETABLE : relation Timetable.row
| FEEDBACK : relation Feedback.row.

Definition table_of {R} (rel : relation R) : table R :=
  match rel with
  | PROFILES => profiles_t
  | CLASSROOMS => classrooms_t
  | COURSES => courses_t
  | TIMETABLE => timetable_t
  | FEEDBACK => feedback_t
  end.

(** ** Executing statements *)

(** A statement either completes, giving the next state and the number of
    tuples it affected, or is rejected with an error, in which case nothing
    of it is persisted. *)
Inductive outcome :=
| Done (s' : db) (count : nat)
| Rejected (err : sql_error).

Section Engine.
Context {R : Type}.
Variable T : table R.

(** Row security on an existing tuple, for a command that reads the table
    in its WHERE clause: the SELECT policies and the policies of the
    command itself. *)
Definition visible (c : command) (e : env) (s : db) (r : R) : bool :=
  negb (row_security e)
  || (using_permits (relpolicies T) SELECT (auth_uid e) (profiles_seen e s) r
      && using_permits (relpolicies T) c (auth_uid e) (profiles_seen e s) r).

(** Row security on the new tuple of an INSERT (without RETURNING). *)
Definition insert_allowed (e : env) (s : db) (new : R) : bool :=
  negb (row_security e)
  || check_permits (relpolicies T) INSERT (auth_uid e) (profiles_seen e s) new.

(** Row security on the new tuple of an UPDATE. *)
Definition update_allowed (e : env) (s : db) (new : R) : bool :=
  negb (row_security e)
  || (check_permits (relpolicies T) UPDATE (auth_uid e) (profiles_seen e s) new
      && using_permits (relpolicies T) SELECT (auth_uid e) (profiles_seen e s) new).

(** the tuple [WHERE id = target] selects, if the session may see it *)
Definition target_row (c : command) (e : env) (s : db) (target : uuid) : option R :=
  List.find (fun r => bool_decide (relid T r = Some target) && visible c e s r)
    (heap T s).

(** [INSERT INTO T (columns) VALUES (...)]: [set] overrides the listed
    columns of the tuple of defaults. *)
Definition exec_insert (e : env) (set : R -> R) (s : db) : outcome :=
  let new := set (defaults T e) in
  if insert_allowed e s new then
    match first_violation
            (row_constraints T new ++ unique_constraints T (heap T s) new
             ++ foreign_keys T s new) with
    | Some err => Rejected err
    | None => Done (store T (heap T s ++ [new]) s) 1
    end
  else Rejected (insufficient_privilege (relname T)).

(** [UPDATE T SET ... WHERE id = target]: [set] gives the new tuple from
    the old one; the BEFORE UPDATE trigger runs on it before any check. *)
Definition exec_update (e : env) (target : uuid) (set : R -> R) (s : db) : outcome :=
  match target_row UPDATE e s target with
  | None => Done s 0
  | Some old =>
      let new := before_update T e (set old) in
      if update_allowed e s new then
        match first_violation
                (row_constraints T new
                 ++ unique_constraints T (without (relid T) target (heap T s)) new
                 ++ foreign_keys T s new
                 ++ (if bool_decide (relid T new = Some target) then []
                     else referenced T s target)) with
        | Some err => Rejected err
        | None =>
            Done (store T
                    (map (fun r => if bool_decide (relid T r = Some target)
                                   then new else r) (heap T s)) s) 1
        end
      else Rejected (insufficient_privilege (relname T))
  end.

(** [DELETE FROM T WHERE id = target], with the cascades it sets off. *)
Definition exec_delete (e : env) (target : uuid) (s : db) : outcome :=
  match target_row DELETE e s target with
  | None => Done s 0
  | Some _ =>
      Done (on_delete T target (store T (without (relid T) target (heap T s)) s)) 1
  end.
End Engine.

(** ** Trigger function [handle_new_user] (lines 142-159) *)

(** SECURITY DEFINER: the body runs as the owner of the function, who owns
    the tables and is not subject to their row security. *)
Definition security_definer (e : env) : env :=
  Env (auth_uid e) (NOW e) (gen_random_uuid e) false.

(** [INSERT INTO public.profiles (user_id, name, email, role) VALUES
    (NEW.id, COALESCE(NEW.raw_user_meta_data->>'name', NEW.email),
     NEW.email, 'student')] *)
Definition handle_new_user (e : env) (NEW : Users.row) (s : db) : outcome :=
  exec_insert profiles_t (security_definer e)
    (fun d =>
       Profiles.Row (Profiles.id d)
         (Users.id NEW)
         (COALESCE (json_get_text (Users.raw_user_meta_data NEW) "name")
                   (Users.email NEW))
         (Users.email NEW)
         (Some student)
         (Profiles.department d) (Profiles.phone d)
         (Profiles.created_at d) (Profiles.updated_at d))
    s.

(** ** Statements *)

(** The statements of the model: single-tuple INSERT, and UPDATE and DELETE
    of the tuple with a given primary key, on the five public tables; and
    the creation and deletion of an identity by the authentication service,
    which is not subject to row security. *)
Inductive statement :=
| insert_into {R} (rel : relation R) (set : R -> R)
| update {R} (rel : relation R) (target : uuid) (set : R -> R)
| delete_from {R} (rel : relation R) (target : uuid)
| create_identity (NEW : Users.row)
| delete_identity (target : uuid).

(** [INSERT INTO auth.users], then [on_auth_user_created] AFTER INSERT FOR
    EACH ROW in the same transaction: when the trigger fails, so does the
    insert. *)
Definition exec_create_identity (e : env) (NEW : Users.row) (s : db) : outcome :=
  match exec_insert users_t (security_definer e) (fun _ => NEW) s with
  | Done s1 n =>
      match handle_new_user e NEW s1 with
      | Done s2 _ => Done s2 n
      | Rejected err => Rejected err
      end
  | Rejected err => Rejected err
  end.

Definition exec (e : env) (st : statement) (s : db) : outcome :=
  match st with
  | insert_into rel set => exec_insert (table_of rel) e set s
  | update rel target set => exec_update (table_of rel) e target set s
  | delete_from rel target => exec_delete (table_of rel) e target s
  | create_identity NEW => exec_create_identity e NEW s
  | delete_identity target => exec_delete users_t (security_definer e) target s
  end.

(** The state a statement leaves behind. *)
Definition run (e : env) (st : statement) (s : db) : db :=
  match exec e st s with
  | Done s' _ => s'
  | Rejected _ => s
  end.

(** The states the database can be in: those reached from the empty tables
    by statements that completed, in any session. *)
Inductive reachable : db -> Prop :=
| reachable_empty : reachable empty_db
| reachable_step s e st s' n :
    reachable s -> exec e st s = Done s' n -> reachable s'.

(** [SELECT * FROM T]: the tuples the session may see. *)
Definition select_from {R} (T : table R) (e : env) (s : db) : list R :=
  if row_security e
  then List.filter
         (using_permits (relpolicies T) SELECT (auth_uid e) (profiles_seen e s))
         (heap T s)
  else heap T s.

(** the requesting identity [uid] owns a profile with one of [roles] *)
Definition holds_role (uid : option uuid) (profs : list Profiles.row)
    (roles : list user_role) : Prop :=
  exists p u r, p ∈ profs /\ uid = Some u /\ Profiles.user_id p = Some u
                /\ Profiles.role p = Some r /\ r ∈ roles.


(** the tuples that hold [key] in column [col] *)
Definition having {R K} `{EqDecision K} (col : R -> option K) (key : K)
    (l : list R) : list R :=
  List.filter (fun r => bool_decide (col r = Some key)) l.

(** ** What the declared constraints promise of a state *)

(** the tuple satisfies the NOT NULL and CHECK constraints of [T] *)
Definition row_ok {R} (T : table R) (r : R) : Prop :=
  first_violation (row_constraints T r) = None.

Definition rows_ok {R} (T : table R) (s : db) : Prop :=
  Forall (row_ok T) (heap T s).

(** no two tuples of [T] share a primary key *)
Definition keys_ok {R} (T : table R) (s : db) : Prop :=
  NoDup (map (relid T) (heap T s)).

(** every non-null reference in [refs] is one of [keys] *)
Definition refs_ok (refs keys : list (option uuid)) : Prop :=
  forall k, Some k ∈ refs -> Some k ∈ keys.

(** The state satisfies every constraint the migration declares. *)
Record consistent (s : db) : Prop := Consistent {
  users_rows : rows_ok users_t s;
  profiles_rows : rows_ok profiles_t s;
  classrooms_rows : rows_ok classrooms_t s;
  courses_rows : rows_ok courses_t s;
  timetable_rows : rows_ok timetable_t s;
  feedback_rows : rows_ok feedback_t s;
  users_pkey : keys_ok users_t s;
  profiles_pkey : keys_ok profiles_t s;
  classrooms_pkey : keys_ok classrooms_t s;
  courses_pkey : keys_ok courses_t s;
  timetable_pkey : keys_ok timetable_t s;
  feedback_pkey : keys_ok feedback_t s;
  profiles_user_id_key : NoDup (map Profiles.user_id (profiles s));
  classrooms_room_name_key : NoDup (map Classrooms.room_name (classrooms s));
  courses_course_code_key : NoDup (map Courses.course_code (courses s));
  profiles_user_id_fkey :
    refs_ok (map Profiles.user_id (profiles s)) (map Users.id (users s));
  timetable_course_id_fkey :
    refs_ok (map Timetable.course_id (timetable s)) (map Courses.id (courses s));
  timetable_faculty_id_fkey :
    refs_ok (map Timetable.faculty_id (timetable s)) (map Profiles.id (profiles s));
  timetable_room_id_fkey :
    refs_ok (map Timetable.room_id (timetable s)) (map Classrooms.id (classrooms s));
  feedback_user_id_fkey :
    refs_ok (map Feedback.user_id (feedback s)) (map Users.id (users s));
}.

(** The six tables the schema is made of. *)
Inductive schema_table : forall R : Type, table R -> Prop :=
| schema_users : schema_table Users.row users_t
| schema_profiles : schema_table Profiles.row profiles_t
| schema_classrooms : schema_table Classrooms.row classrooms_t
| schema_courses : schema_table Courses.row courses_t
| schema_timetable : schema_table Timetable.row timetable_t
| schema_feedback : schema_table Feedback.row feedback_t.

(** ** Scripts, the seed data and a sample history *)

(** Statements run one after the other, each in its own session
    environment; a rejected statement leaves the state as it was. *)
Definition run_script (script : list (env * statement)) (s : db) : db :=
  foldl (fun acc '(e, st) => run e st acc) s script.

(** The session of the migration itself: the owner of the tables, no JWT. *)
Definition owner (now : timestamptz) (fresh : uuid) : env :=
  Env None now fresh false.

(** The session of a signed-in user, subject to row security. *)
Definition authenticated (uid : uuid) (now : timestamptz) (fresh : uuid) : env :=
  Env (Some uid) now fresh true.

(** [INSERT INTO public.classrooms (room_name, capacity, equipment,
    location, availability_status, remarks) VALUES (...)] *)
Definition classrooms_values (room_name : text) (capacity : integer)
    (equipment : list text) (location : text) (availability_status : bool)
    (remarks : text) (d : Classrooms.row) : Classrooms.row :=
  Classrooms.Row (Classrooms.id d) (Some room_name) (Some capacity)
    (Some equipment) (Some location) (Some availability_status) (Some remarks)
    (Classrooms.created_at d) (Classrooms.updated_at d).

(** [INSERT INTO public.courses (course_code, course_name, department,
    credits, description) VALUES (...)]; [credits] may be given as NULL. *)
Definition courses_values (course_code course_name department : text)
    (credits : option integer) (description : text) (d : Courses.row) : Courses.row :=
  Courses.Row (Courses.id d) (Some course_code) (Some course_name)
    (Some department) credits (Some description)
    (Courses.created_at d) (Courses.updated_at d).

(** [INSERT INTO public.courses (course_code, course_name, department)
    VALUES (...)]: the other columns are left to their defaults. *)
Definition courses_values_short (course_code course_name department : text)
    (d : Courses.row) : Courses.row :=
  Courses.Row (Courses.id d) (Some course_code) (Some course_name)
    (Some department) (Courses.credits d) (Courses.description d)
    (Courses.created_at d) (Courses.updated_at d).

(** The sample data at the end of the migration (lines 201-213), inserted
    at time [now]; the keys 1..5 and 11..15 stand for the UUIDs drawn. *)
Definition migration_seed (now : timestamptz) : list (env * statement) :=
  [ (owner now 1%N, insert_into CLASSROOMS
       (classrooms_values "Room A101" 50
          ["projector"; "whiteboard"; "air_conditioning"]
          "Building A, Floor 1" true "Standard classroom with modern amenities"));
    (owner now 2%N, insert_into CLASSROOMS
       (classrooms_values "Room B201" 30
          ["smart_board"; "audio_system"; "projector"]
          "Building B, Floor 2" true "Small seminar room"));
    (owner now 3%N, insert_into CLASSROOMS
       (classrooms_values "Lab C301" 25
          ["computers"; "projector"; "air_conditioning"]
          "Building C, Floor 3" true "Computer lab"));
    (owner now 4%N, insert_into CLASSROOMS
       (classrooms_values "Auditorium D001" 200
          ["sound_system"; "projector"; "stage"; "microphones"]
          "Building D, Ground Floor" true "Large auditorium for events"));
    (owner now 5%N, insert_into CLASSROOMS
       (classrooms_values "Room A102" 40 ["projector"; "whiteboard"]
          "Building A, Floor 1" false "Under maintenance"));
    (owner now 11%N, insert_into COURSES
       (courses_values "CS101" "Introduction to Computer Science"
          "Computer Science" (Some 3)
          "Basic concepts of computer science and programming"));
    (owner now 12%N, insert_into COURSES
       (courses_values "MATH201" "Calculus II" "Mathematics" (Some 4)
          "Advanced calculus concepts and applications"));
    (owner now 13%N, insert_into COURSES
       (courses_values "ENG101" "English Composition" "English" (Some 3)
          "Academic writing and communication skills"));
    (owner now 14%N, insert_into COURSES
       (courses_values "PHYS201" "Physics II" "Physics" (Some 4)
          "Electricity, magnetism, and waves"));
    (owner now 15%N, insert_into COURSES
       (courses_values "BIO101" "General Biology" "Biology" (Some 3)
          "Introduction to biological concepts")) ].

Definition seeded_db : db := run_script (migration_seed 1000) empty_db.

(** Column setters used by the sample statements. *)
Definition profiles_set_role (v : user_role) (r : Profiles.row) : Profiles.row :=
  Profiles.Row (Profiles.id r) (Profiles.user_id r) (Profiles.name r)
    (Profiles.email r) (Some v) (Profiles.department r) (Profiles.phone r)
    (Profiles.created_at r) (Profiles.updated_at r).

Definition classrooms_set_capacity (v : option integer) (r : Classrooms.row)
    : Classrooms.row :=
  Classrooms.Row (Classrooms.id r) (Classrooms.room_name r) v
    (Classrooms.equipment r) (Classrooms.location r)
    (Classrooms.availability_status r) (Classrooms.remarks r)
    (Classrooms.created_at r) (Classrooms.updated_at r).

Definition courses_set_credits (v : option integer) (r : Courses.row) : Courses.row :=
  Courses.Row (Courses.id r) (Courses.course_code r) (Courses.course_name r)
    (Courses.department r) v (Courses.description r)
    (Courses.created_at r) (Courses.updated_at r).

Definition feedback_set_message (v : option text) (r : Feedback.row) : Feedback.row :=
  Feedback.Row (Feedback.id r) (Feedback.user_id r) (Feedback.title r) v
    (Feedback.status r) (Feedback.created_at r) (Feedback.updated_at r).

Definition feedback_set_status (v : option text) (r : Feedback.row) : Feedback.row :=
  Feedback.Row (Feedback.id r) (Feedback.user_id r) (Feedback.title r)
    (Feedback.message r) v (Feedback.created_at r) (Feedback.updated_at r).

(** [INSERT INTO public.feedback (user_id, title, message) VALUES (...)] *)
Definition feedback_values (user_id : uuid) (title message : text)
    (d : Feedback.row) : Feedback.row :=
  Feedback.Row (Feedback.id d) (Some user_id) (Some title) (Some message)
    (Feedback.status d) (Feedback.created_at d) (Feedback.updated_at d).

(** [INSERT INTO public.timetable (course_id, faculty_id, room_id,
    day_of_week, start_time, end_time, semester, academic_year) VALUES (...)] *)
Definition timetable_values (course_id faculty_id room_id : uuid)
    (day_of_week : text) (start_time end_time : time)
    (semester academic_year : text) (d : Timetable.row) : Timetable.row :=
  Timetable.Row (Timetable.id d) (Some course_id) (Some faculty_id)
    (Some room_id) (Some day_of_week) (Some start_time) (Some end_time)
    (Some semester) (Some academic_year)
    (Timetable.created_at d) (Timetable.updated_at d).

(** a time of day, in microseconds since midnight *)
Definition o'clock (h : Z) : time := h * 3600 * 1000000.

(** The two identities of the sample history, as the authentication
    service creates them. *)
Definition dr_lee : Users.row :=
  Users.Row (Some 101%N) (Some "lee@example.edu")
    (Some (JObject {[ "name" := JString "Dr. Lee" ]})).

Definition kim : Users.row :=
  Users.Row (Some 102%N) (Some "kim@example.edu") None.

(** A sample history after the migration: two identities sign up, the
    first ("Dr. Lee", identity 101, profile 201) makes herself admin through
    the update policy of [profiles], schedules CS101 on Monday 9-10 in
    Room A101 and adds a course without credits and a room whose
    [updated_at] is supplied by hand; the second (identity 102) files a
    feedback note. *)
Definition sample_history : list (env * statement) :=
  [ (Env None 2000 201%N true,
     create_identity dr_lee);
    (Env None 2100 202%N true,
     create_identity kim);
    (authenticated 101 2200 0, update PROFILES 201 (profiles_set_role admin));
    (authenticated 101 2300 301,
     insert_into TIMETABLE
       (timetable_values 11 201 1 "Monday" (o'clock 9) (o'clock 10)
          "Fall" "2025-2026"));
    (authenticated 101 2400 16,
     insert_into COURSES
       (courses_values "SEM900" "Research Seminar" "Graduate School" None
          "Attendance only"));
    (authenticated 101 2500 6,
     insert_into CLASSROOMS
       (fun d => Classrooms.Row (Classrooms.id d) (Some "Room Z999") (Some 10)
                   None (Some "Annex") (Classrooms.availability_status d) None
                   (Classrooms.created_at d) (Some 9999999)));
    (authenticated 102 2600 401,
     insert_into FEEDBACK (feedback_values 102 "Projector" "The lamp is dim")) ].

Definition sample_db : db := run_script sample_history seeded_db.


(** ** What the policy layer decides for a session *)

(** No policy of the table lets the session run a command other than
    SELECT: neither on an existing tuple nor on a new one. *)
Definition policy_denies_writes {R} (rel : relation R) (e : env) (s : db) : Prop :=
  forall c r, c <> SELECT ->
    using_permits (relpolicies (table_of rel)) c (auth_uid e) (profiles_seen e s) r
    = false
    /\ check_permits (relpolicies (table_of rel)) c (auth_uid e) (profiles_seen e s) r
       = false.

(** What the session gets when it tries: an INSERT is rejected, an UPDATE
    and a DELETE find no tuple they may touch; the state stays as it is. *)
Definition writes_denied {R} (rel : relation R) (e : env) (s : db) : Prop :=
  (forall set,
     exec e (insert_into rel set) s
     = Rejected (insufficient_privilege (relname (table_of rel))))
  /\ (forall target set, exec e (update rel target set) s = Done s 0)
  /\ (forall target, exec e (delete_from rel target) s = Done s 0).

(** A SELECT returns the whole table. *)
Definition reads_open {R} (rel : relation R) (e : env) (s : db) : Prop :=
  select_from (table_of rel) e s = heap (table_of rel) s.

(** ** What the timestamp trigger may change *)

(** the [updated_at] column of a tuple of one of the five tables *)
Definition updated_at_of {R} (rel : relation R) : R -> option timestamptz :=
  match rel with
  | PROFILES => Profiles.updated_at
  | CLASSROOMS => Classrooms.updated_at
  | COURSES => Courses.updated_at
  | TIMETABLE => Timetable.updated_at
  | FEEDBACK => Feedback.updated_at
  end.

(** two tuples agree on every column other than [updated_at] *)
Definition same_but_updated_at {R} (rel : relation R) : R -> R -> Prop :=
  match rel in relation R return R -> R -> Prop with
  | PROFILES => fun r r' =>
      Profiles.id r = Profiles.id r'
      /\ Profiles.user_id r = Profiles.user_id r'
      /\ Profiles.name r = Profiles.name r'
      /\ Profiles.email r = Profiles.email r'
      /\ Profiles.role r = Profiles.role r'
      /\ Profiles.department r = Profiles.department r'
      /\ Profiles.phone r = Profiles.phone r'
      /\ Profiles.created_at r = Profiles.created_at r'
  | CLASSROOMS => fun r r' =>
      Classrooms.id r = Classrooms.id r'
      /\ Classrooms.room_name r = Classrooms.room_name r'
      /\ Classrooms.capacity r = Classrooms.capacity r'
      /\ Classrooms.equipment r = Classrooms.equipment r'
      /\ Classrooms.location r = Classrooms.location r'
      /\ Classrooms.availability_status r = Classrooms.availability_status r'
      /\ Classrooms.remarks r = Classrooms.remarks r'
      /\ Classrooms.created_at r = Classrooms.created_at r'
  | COURSES => fun r r' =>
      Courses.id r = Courses.id r'
      /\ Courses.course_code r = Courses.course_code r'
      /\ Courses.course_name r = Courses.course_name r'
      /\ Courses.department r = Courses.department r'
      /\ Courses.credits r = Courses.credits r'
      /\ Courses.description r = Courses.description r'
      /\ Courses.created_at r = Courses.created_at r'
  | TIMETABLE => fun r r' =>
      Timetable.id r = Timetable.id r'
      /\ Timetable.course_id r = Timetable.course_id r'
      /\ Timetable.faculty_id r = Timetable.faculty_id r'
      /\ Timetable.room_id r = Timetable.room_id r'
      /\ Timetable.day_of_week r = Timetable.day_of_week r'
      /\ Timetable.start_time r = Timetable.start_time r'
      /\ Timetable.end_time r = Timetable.end_time r'
      /\ Timetable.semester r = Timetable.semester r'
      /\ Timetable.academic_year r = Timetable.academic_year r'
      /\ Timetable.created_at r = Timetable.created_at r'
  | FEEDBACK => fun r r' =>
      Feedback.id r = Feedback.id r'
      /\ Feedback.user_id r = Feedback.user_id r'
      /\ Feedback.title r = Feedback.title r'
      /\ Feedback.message r = Feedback.message r'
      /\ Feedback.status r = Feedback.status r'
      /\ Feedback.created_at r = Feedback.created_at r'
  end.

(** ** Further column setters and the closed lists of the CHECK constraints *)

(** the days of [timetable_day_of_week_check] (line 52) *)
Definition week_days : list text :=
  ["Monday"; "Tuesday"; "Wednesday"; "Thursday"; "Friday"; "Saturday"; "Sunday"].

(** the values of [feedback_status_check] (line 68) *)
Definition feedback_statuses : list text := ["pending"; "reviewed"; "resolved"].

Definition profiles_set_user_id (v : option uuid) (r : Profiles.row) : Profiles.row :=
  Profiles.Row (Profiles.id r) v (Profiles.name r) (Profiles.email r)
    (Profiles.role r) (Profiles.department r) (Profiles.phone r)
    (Profiles.created_at r) (Profiles.updated_at r).

Definition courses_set_id (v : option uuid) (r : Courses.row) : Courses.row :=
  Courses.Row v (Courses.course_code r) (Courses.course_name r)
    (Courses.department r) (Courses.credits r) (Courses.description r)
    (Courses.created_at r) (Courses.updated_at r).

(** the requesting identity is the one a tuple names as its owner *)
Definition owns (uid owner : option uuid) : Prop :=
  exists u, uid = Some u /\ owner = Some u.

(** ** The tuple the sign-up trigger inserts *)

(** the VALUES of [handle_new_user] (lines 145-151), over the tuple of
    defaults of profiles *)
Definition new_profile_values (NEW : Users.row) (d : Profiles.row) : Profiles.row :=
  Profiles.Row (Profiles.id d)
    (Users.id NEW)
    (COALESCE (json_get_text (Users.raw_user_meta_data NEW) "name")
              (Users.email NEW))
    (Users.email NEW)
    (Some student)
    (Profiles.department d) (Profiles.phone d)
    (Profiles.created_at d) (Profiles.updated_at d).

(** ** What a statement leaves alone *)

(** [auth.users] and the public tables other than [rel] are the same in
    both states *)
Definition untouched_outside {R} (rel : relation R) (s s' : db) : Prop :=
  users s' = users s
  /\ match rel with
     | PROFILES =>
         classrooms s' = classrooms s /\ courses s' = courses s
         /\ timetable s' = timetable s /\ feedback s' = feedback s
     | CLASSROOMS =>
         profiles s' = profiles s /\ courses s' = courses s
         /\ timetable s' = timetable s /\ feedback s' = feedback s
     | COURSES =>
         profiles s' = profiles s /\ classrooms s' = classrooms s
         /\ timetable s' = timetable s /\ feedback s' = feedback s
     | TIMETABLE =>
         profiles s' = profiles s /\ classrooms s' = classrooms s
         /\ courses s' = courses s /\ feedback s' = feedback s
     | FEEDBACK =>
         profiles s' = profiles s /\ classrooms s' = classrooms s
         /\ courses s' = courses s /\ timetable s' = timetable s
     end.

(** the same, except that timetable entries may have gone (ON DELETE
    CASCADE) *)
Definition untouched_but_timetable {R} (rel : relation R) (s s' : db) : Prop :=
  users s' = users s
  /\ timetable s' `sublist_of` timetable s
  /\ match rel with
     | PROFILES =>
         classrooms s' = classrooms s /\ courses s' = courses s
         /\ feedback s' = feedback s
     | CLASSROOMS =>
         profiles s' = profiles s /\ courses s' = courses s
         /\ feedback s' = feedback s
     | COURSES =>
         profiles s' = profiles s /\ classrooms s' = classrooms s
         /\ feedback s' = feedback s
     | TIMETABLE =>
         profiles s' = profiles s /\ classrooms s' = classrooms s
         /\ courses s' = courses s /\ feedback s' = feedback s
     | FEEDBACK =>
         profiles s' = profiles s /\ classrooms s' = classrooms s
         /\ courses s' = courses s
     end.

(** ** The client: what [Dashboard.tsx] fetches and shows *)

(** The environment of a read request of a signed-in user: [auth.uid()] is
    the user of the session and row security applies; a SELECT uses neither
    [NOW()] nor a drawn UUID. *)
Definition session_of (session_user : uuid) : env :=
  authenticated session_user 0 0.

(** [.single()]: the row of a result that has exactly one row; an error
    (here [None]) for an empty result and for one with several rows. *)
Definition single {A} (rows : list A) : option A :=
  match rows with
  | [r] => Some r
  | _ => None
  end.

(** Lines 71-75: [supabase.from('profiles').select('*')
    .eq('user_id', session.user.id).single()]; on an error the page keeps
    [profile] at null. *)
Definition fetch_profile (session_user : uuid) (s : db) : option Profiles.row :=
  single (having Profiles.user_id session_user
            (select_from profiles_t (session_of session_user) s)).

(** The shape of a fetched timetable entry (interface [TimetableEntry],
    lines 33-49): four columns of the entry and, embedded through the three
    foreign keys, the course, the classroom and the faculty profile, each
    null when the join finds no visible tuple. *)
Module TimetableEntry.
Record course := Course {
  course_code : option text;
  course_name : option text;
}.
Record classroom := Classroom {
  room_name : option text;
  location : option text;
}.
Record profile := Profile {
  name : option text;
}.
Record entry := Entry {
  id : option uuid;
  day_of_week : option text;
  start_time : option time;
  end_time : option time;
  courses : option course;
  classrooms : option classroom;
  profiles : option profile;
}.
End TimetableEntry.

(** the tuple of a table whose key a reference names, as the session sees
    the table *)
Definition referenced_row {R} (T : table R) (e : env) (s : db)
    (ref : option uuid) : option R :=
  List.find (fun r => is_true (sql_eq (relid T r) ref)) (select_from T e s).

(** Lines 85-104: [supabase.from('timetable').select(`id, day_of_week,
    start_time, end_time, courses!timetable_course_id_fkey (course_code,
    course_name), classrooms!timetable_room_id_fkey (room_name, location),
    profiles!timetable_faculty_id_fkey (name)`).limit(10)].  The query has
    no ORDER BY; the entries come in the order of the table. *)
Definition fetch_timetable (e : env) (s : db) : list TimetableEntry.entry :=
  map (fun t =>
         TimetableEntry.Entry
           (Timetable.id t) (Timetable.day_of_week t)
           (Timetable.start_time t) (Timetable.end_time t)
           (match referenced_row courses_t e s (Timetable.course_id t) with
            | Some c => Some (TimetableEntry.Course (Courses.course_code c)
                                (Courses.course_name c))
            | None => None
            end)
           (match referenced_row classrooms_t e s (Timetable.room_id t) with
            | Some r => Some (TimetableEntry.Classroom (Classrooms.room_name r)
                                (Classrooms.location r))
            | None => None
            end)
           (match referenced_row profiles_t e s (Timetable.faculty_id t) with
            | Some p => Some (TimetableEntry.Profile (Profiles.name p))
            | None => None
            end))
      (take 10 (select_from timetable_t e s)).

(** Line 291: [timetable.slice(0, 3)], the entries the schedule panel
    lists; with none it says that no classes are scheduled (line 290). *)
Definition schedule_shown (fetched : list TimetableEntry.entry)
    : list TimetableEntry.entry :=
  take 3 fetched.

(** the label of a role, as the enum type prints it *)
Definition role_label (r : user_role) : text :=
  match r with
  | student => "student"
  | faculty => "faculty"
  | admin => "admin"
  end.

(** Lines 139-146: the [switch] of [getRoleColor], with its default. *)
Definition getRoleColor (role : string) : string :=
  if bool_decide (role = "admin") then "bg-destructive text-destructive-foreground"
  else if bool_decide (role = "faculty") then "bg-accent text-accent-foreground"
  else if bool_decide (role = "student") then "bg-primary text-primary-foreground"
  else "bg-secondary text-secondary-foreground".

(** Line 190: [getRoleColor(profile?.role || '')], for the profile the
    page holds, if any. *)
Definition badge_class (profile : option Profiles.row) : string :=
  getRoleColor
    (match profile with
     | Some p =>
         match Profiles.role p with
         | Some r => role_label r
         | None => ""
         end
     | None => ""
     end).

(** the entry of the sample history, as the dashboard receives it *)
Definition sample_schedule_entry : TimetableEntry.entry :=
  TimetableEntry.Entry (Some 301%N) (Some "Monday")
    (Some (o'clock 9)) (Some (o'clock 10))
    (Some (TimetableEntry.Course (Some "CS101")
             (Some "Introduction to Computer Science")))
    (Some (TimetableEntry.Classroom (Some "Room A101")
             (Some "Building A, Floor 1")))
    (Some (TimetableEntry.Profile (Some "Dr. Lee"))).

(** the statements of a script, each issued instead by a session under row
    security with the given [auth.uid()] *)
Definition under_row_security (uid : option uuid)
    (script : list (env * statement)) : list (env * statement) :=
  map (fun '(e, st) => (Env uid (NOW e) (gen_random_uuid e) true, st)) script.
(** ** The policy layer: basic facts *)

Lemma profiles_seen_all e s : profiles_seen e s = profiles s.
Proof.
  unfold profiles_seen. induction (profiles s) as [|p l IH]; [done|].
  simpl. f_equal. exact IH.
Qed.

Lemma exists_admin_true uid profs :
  is_true (sql_exists profs (fun p =>
      sql_and (sql_eq (Profiles.user_id p) uid)
              (sql_eq (Profiles.role p) (Some admin)))) = true
  <-> holds_role uid profs [admin].
Proof.
  unfold sql_exists, is_true, holds_role. split.
  - intros H. destruct (existsb _ _) eqn:Hex; [|done].
    apply existsb_exists in Hex as (p & Hin & Hp).
    apply list_elem_of_In in Hin.
    destruct (Profiles.user_id p) as [k|] eqn:Hk, uid as [u|],
      (Profiles.role p) as [r|] eqn:Hr; simpl in Hp; try done;
      repeat case_bool_decide; simplify_eq; try done.
    exists p, u, admin. rewrite Hk, Hr. set_solver.
  - intros (p & u & r & Hin & -> & Hk & Hr & Hadm).
    apply list_elem_of_singleton in Hadm as ->.
    replace (existsb _ profs) with true; [done|]. symmetry.
    apply existsb_exists. exists p. split; [by apply list_elem_of_In|].
    rewrite Hk, Hr. simpl. by rewrite !bool_decide_eq_true_2.
Qed.

Lemma exists_admin_or_faculty_true uid profs :
  is_true (sql_exists profs (fun p =>
      sql_and (sql_eq (Profiles.user_id p) uid)
              (sql_in (Profiles.role p) [admin; faculty]))) = true
  <-> holds_role uid profs [admin; faculty].
Proof.
  unfold sql_exists, is_true, holds_role. split.
  - intros H. destruct (existsb _ _) eqn:Hex; [|done].
    apply existsb_exists in Hex as (p & Hin & Hp).
    apply list_elem_of_In in Hin.
    destruct (Profiles.user_id p) as [k|] eqn:Hk, uid as [u|],
      (Profiles.role p) as [r|] eqn:Hr; simpl in Hp; try done;
      repeat case_bool_decide; simplify_eq; try done.
    exists p, u, r. by rewrite Hk, Hr.
  - intros (p & u & r & Hin & -> & Hk & Hr & Hrole).
    replace (existsb _ profs) with true; [done|]. symmetry.
    apply existsb_exists. exists p. split; [by apply list_elem_of_In|].
    rewrite Hk, Hr. simpl. by rewrite !bool_decide_eq_true_2.
Qed.

(** ** Constraint checks: what passing them means *)

Lemma first_violation_app cs1 cs2 :
  first_violation (cs1 ++ cs2) = None
  <-> first_violation cs1 = None /\ first_violation cs2 = None.
Proof.
  induction cs1 as [|[err|] cs1 IH]; simpl.
  - tauto.
  - split; [discriminate|]. intros [? _]. discriminate.
  - exact IH.
Qed.

Lemma first_violation_cons c cs :
  first_violation (c :: cs) = None <-> c = None /\ first_violation cs = None.
Proof.
  destruct c; simpl.
  - split; [discriminate|]. intros [? _]. discriminate.
  - tauto.
Qed.

Lemma not_null_passes {A} column (v : option A) :
  not_null column v = None <-> is_Some v.
Proof.
  destruct v; simpl; split; intros H; done.
Qed.

Lemma check_passes constraint expr :
  check constraint expr = None <-> expr <> Some false.
Proof.
  unfold check, check_holds. destruct expr as [[]|]; naive_solver.
Qed.

Lemma unique_on_passes {R K} `{EqDecision K} constraint (col : R -> option K) others new :
  unique_on constraint col others new = None
  <-> (forall k, col new = Some k -> Some k ∉ map col others).
Proof.
  unfold unique_on. destruct (col new) as [k|]; [|naive_solver].
  case_bool_decide; naive_solver.
Qed.

Lemma references_passes constraint v keys :
  references constraint v keys = None
  <-> (forall k, v = Some k -> Some k ∈ keys).
Proof.
  unfold references. destruct v as [k|]; [|naive_solver].
  case_bool_decide; naive_solver.
Qed.

Lemma still_referenced_passes constraint key refs :
  still_referenced constraint key refs = None <-> Some key ∉ refs.
Proof. unfold still_referenced. case_bool_decide; naive_solver. Qed.

(** ** Lists of tuples *)

Lemma list_filter_sublist {A} (f : A -> bool) l : List.filter f l `sublist_of` l.
Proof.
  induction l as [|x l IH]; simpl; [constructor|].
  destruct (f x); by constructor.
Qed.

Lemma elem_of_list_filter {A} (f : A -> bool) l x :
  x ∈ List.filter f l <-> x ∈ l /\ f x = true.
Proof. rewrite !list_elem_of_In. apply filter_In. Qed.

Lemma elem_of_without {R} (col : R -> option uuid) key l r :
  r ∈ without col key l <-> r ∈ l /\ col r <> Some key.
Proof.
  unfold without. rewrite elem_of_list_filter.
  rewrite negb_true_iff, bool_decide_eq_false. done.
Qed.

Lemma NoDup_map_sublist {A B} (f : A -> B) l' l :
  l' `sublist_of` l -> NoDup (map f l) -> NoDup (map f l').
Proof.
  intros Hsub Hnd. apply (sublist_NoDup (map f l') (map f l)); [exact Hnd|].
  change (f <$> l' `sublist_of` f <$> l). by apply fmap_sublist.
Qed.

Lemma without_absent {R} (col : R -> option uuid) key l :
  Some key ∉ map col l -> without col key l = l.
Proof.
  induction l as [|x l IH]; simpl; [done|]. intros Hnot.
  rewrite not_elem_of_cons in Hnot. destruct Hnot as [Hx Hl].
  unfold without in *. simpl. rewrite bool_decide_eq_false_2 by congruence.
  simpl. f_equal. by apply IH.
Qed.

(** With unique keys, the table splits around the tuple that holds [key]. *)
Lemma split_at_key {R} (col : R -> option uuid) key l old new :
  NoDup (map col l) -> old ∈ l -> col old = Some key ->
  exists l1 l2,
    l = l1 ++ old :: l2
    /\ without col key l = l1 ++ l2
    /\ map (fun r => if bool_decide (col r = Some key) then new else r) l
       = l1 ++ new :: l2.
Proof.
  intros Hnd Hin Hkey.
  apply list_elem_of_split in Hin as (l1 & l2 & ->).
  exists l1, l2. split; [done|].
  rewrite map_app in Hnd. simpl in Hnd.
  apply NoDup_app in Hnd as (Hnd1 & Hdisj & Hnd2).
  apply NoDup_cons in Hnd2 as [Hnot2 _].
  assert (Hnot1 : Some key ∉ map col l1).
  { intros Hin1. apply (Hdisj _ Hin1). rewrite Hkey. left. }
  rewrite Hkey in Hnot2.
  split.
  - unfold without. rewrite List.filter_app. simpl.
    rewrite bool_decide_eq_true_2 by done. simpl.
    fold (without col key l1) (without col key l2).
    by rewrite !without_absent.
  - rewrite map_app. simpl. rewrite bool_decide_eq_true_2 by done.
    f_equal; [|f_equal].
    + rewrite <- (map_id l1) at 2. apply map_ext_in. intros r Hr.
      rewrite bool_decide_eq_false_2; [done|]. intros Heq.
      apply Hnot1. rewrite <- Heq. apply list_elem_of_In in Hr.
      by apply (list_elem_of_fmap_2 col).
    + rewrite <- (map_id l2) at 2. apply map_ext_in. intros r Hr.
      rewrite bool_decide_eq_false_2; [done|]. intros Heq.
      apply Hnot2. rewrite <- Heq. apply list_elem_of_In in Hr.
      by apply (list_elem_of_fmap_2 col).
Qed.

(** ** Statements that complete: what they checked and what they stored *)

Lemma target_row_Some {R} (T : table R) c e s target old :
  target_row T c e s target = Some old ->
  old ∈ heap T s /\ relid T old = Some target /\ visible T c e s old = true.
Proof.
  unfold target_row. intros H. apply find_some in H as [Hin Hb].
  apply andb_true_iff in Hb as [Hid Hvis].
  apply bool_decide_eq_true in Hid. by rewrite list_elem_of_In.
Qed.

Lemma exec_insert_Done {R} (T : table R) e set s s' n :
  exec_insert T e set s = Done s' n ->
  insert_allowed T e s (set (defaults T e)) = true
  /\ first_violation (row_constraints T (set (defaults T e))) = None
  /\ first_violation (unique_constraints T (heap T s) (set (defaults T e))) = None
  /\ first_violation (foreign_keys T s (set (defaults T e))) = None
  /\ s' = store T (heap T s ++ [set (defaults T e)]) s
  /\ n = 1%nat.
Proof.
  unfold exec_insert. cbv zeta.
  destruct (insert_allowed _ _ _ _) eqn:Hallowed; [|done].
  destruct (first_violation _) eqn:Hfv; [done|].
  rewrite !first_violation_app in Hfv. destruct Hfv as (? & ? & ?).
  intros [= <- <-]. done.
Qed.

Lemma exec_update_Done {R} (T : table R) e target set s s' n :
  exec_update T e target set s = Done s' n ->
  (target_row T UPDATE e s target = None /\ s' = s /\ n = 0%nat)
  \/ exists old,
       target_row T UPDATE e s target = Some old
       /\ update_allowed T e s (before_update T e (set old)) = true
       /\ first_violation (row_constraints T (before_update T e (set old))) = None
       /\ first_violation
            (unique_constraints T (without (relid T) target (heap T s))
               (before_update T e (set old))) = None
       /\ first_violation (foreign_keys T s (before_update T e (set old))) = None
       /\ (relid T (before_update T e (set old)) <> Some target ->
           first_violation (referenced T s target) = None)
       /\ s' = store T
                 (map (fun r => if bool_decide (relid T r = Some target)
                                then before_update T e (set old) else r)
                    (heap T s)) s
       /\ n = 1%nat.
Proof.
  unfold exec_update. cbv zeta.
  destruct (target_row _ _ _ _ _) as [old|]; [|intros [= <- <-]; by left].
  destruct (update_allowed _ _ _ _) eqn:Hallowed; [|done].
  destruct (first_violation _) eqn:Hfv; [done|].
  rewrite !first_violation_app in Hfv. destruct Hfv as (? & ? & ? & Href).
  intros [= <- <-]. right. exists old. split_and!; try done.
  intros Hne. by rewrite bool_decide_eq_false_2 in Href.
Qed.

Lemma exec_delete_Done {R} (T : table R) e target s s' n :
  exec_delete T e target s = Done s' n ->
  (target_row T DELETE e s target = None /\ s' = s /\ n = 0%nat)
  \/ (is_Some (target_row T DELETE e s target)
      /\ s' = on_delete T target
                (store T (without (relid T) target (heap T s)) s)
      /\ n = 1%nat).
Proof.
  unfold exec_delete. destruct (target_row _ _ _ _ _) as [old|].
  - intros [= <- <-]. right. by eauto.
  - intros [= <- <-]. by left.
Qed.

(** ** How the invariants fare when a tuple is added, replaced or removed *)

Section Tuples.
Context {A B : Type}.
Implicit Types (l : list A) (f : A -> B) (P : A -> Prop).

Lemma Forall_snoc P l x : Forall P l -> P x -> Forall P (l ++ [x]).
Proof. intros Hl Hx. apply Forall_app. split; [done|]. by constructor. Qed.

Lemma Forall_replace P l1 l2 old new :
  Forall P (l1 ++ old :: l2) -> P new -> Forall P (l1 ++ new :: l2).
Proof.
  rewrite !Forall_app, !Forall_cons. tauto.
Qed.

Lemma Forall_list_filter P (g : A -> bool) l : Forall P l -> Forall P (List.filter g l).
Proof.
  rewrite !Forall_forall. intros Hl x Hx.
  apply elem_of_list_filter in Hx as [Hx _]. by apply Hl.
Qed.

Lemma NoDup_map_snoc f l x :
  NoDup (map f l) -> f x ∉ map f l -> NoDup (map f (l ++ [x])).
Proof.
  intros Hnd Hx. rewrite map_app. simpl. apply NoDup_app.
  split_and!; [done| |apply NoDup_singleton].
  intros y Hy ->%list_elem_of_singleton. done.
Qed.

Lemma NoDup_map_replace f l1 l2 old new :
  NoDup (map f (l1 ++ old :: l2)) -> f new ∉ map f (l1 ++ l2) ->
  NoDup (map f (l1 ++ new :: l2)).
Proof.
  rewrite !map_app. simpl. rewrite !NoDup_app, !NoDup_cons.
  intros (H1 & Hd & Hold & H2) Hnew.
  rewrite elem_of_app in Hnew.
  split_and!; try tauto.
  intros y Hy. rewrite not_elem_of_cons. split.
  - intros ->. tauto.
  - specialize (Hd y Hy). rewrite not_elem_of_cons in Hd. tauto.
Qed.

Lemma NoDup_map_list_filter f (g : A -> bool) l :
  NoDup (map f l) -> NoDup (map f (List.filter g l)).
Proof. apply NoDup_map_sublist, list_filter_sublist. Qed.
End Tuples.

Section References.
Context {A B : Type}.
Implicit Types (c : A -> option uuid) (f : B -> option uuid).

Lemma refs_ok_child_snoc c l x keys :
  refs_ok (map c l) keys -> (forall k, c x = Some k -> Some k ∈ keys) ->
  refs_ok (map c (l ++ [x])) keys.
Proof.
  intros Hl Hx k. rewrite map_app, elem_of_app. simpl.
  rewrite list_elem_of_singleton. intros [?|Heq]; [by apply Hl|].
  by apply Hx.
Qed.

Lemma refs_ok_child_replace c l1 l2 old new keys :
  refs_ok (map c (l1 ++ old :: l2)) keys ->
  (forall k, c new = Some k -> Some k ∈ keys) ->
  refs_ok (map c (l1 ++ new :: l2)) keys.
Proof.
  intros Hl Hx k. specialize (Hl k). revert Hl.
  rewrite !map_app, !elem_of_app. simpl. rewrite !elem_of_cons.
  intros Hl [?|[Heq|?]]; [tauto| |tauto]. by apply Hx.
Qed.

Lemma refs_ok_child_filter c (g : A -> bool) l keys :
  refs_ok (map c l) keys -> refs_ok (map c (List.filter g l)) keys.
Proof.
  intros Hl k Hk. apply Hl.
  apply list_elem_of_fmap in Hk as (x & Hx & Hin).
  apply elem_of_list_filter in Hin as [Hin _].
  rewrite Hx. by apply (list_elem_of_fmap_2 c).
Qed.

Lemma refs_ok_parent_snoc refs f l x :
  refs_ok refs (map f l) -> refs_ok refs (map f (l ++ [x])).
Proof.
  intros Hl k Hk. rewrite map_app, elem_of_app. left. by apply Hl.
Qed.

(** a parent may change its key only when no child refers to it *)
Lemma refs_ok_parent_replace refs f l1 l2 old new :
  refs_ok refs (map f (l1 ++ old :: l2)) ->
  f new = f old \/ f old ∉ refs ->
  refs_ok refs (map f (l1 ++ new :: l2)).
Proof.
  intros Hl Hx k Hk. specialize (Hl k Hk). revert Hl.
  rewrite !map_app, !elem_of_app. simpl. rewrite !elem_of_cons.
  intros [?|[Heq|?]]; [tauto| |tauto].
  destruct Hx as [->|Hnot]; [tauto|]. rewrite <- Heq in Hnot. done.
Qed.

(** ON DELETE CASCADE: the parent with [key] goes, and so do the children
    that refer to it *)
Lemma refs_ok_cascade c f (children : list A) (parents : list B) key :
  refs_ok (map c children) (map f parents) ->
  refs_ok (map c (without c key children)) (map f (without f key parents)).
Proof.
  intros Hl k Hk.
  apply list_elem_of_fmap in Hk as (x & Hx & Hin).
  apply elem_of_without in Hin as [Hin Hne].
  assert (Hk : Some k ∈ map f parents).
  { apply Hl. rewrite Hx. by apply (list_elem_of_fmap_2 c). }
  apply list_elem_of_fmap in Hk as (p & Hp & Hpin).
  rewrite Hp. apply (list_elem_of_fmap_2 f). apply elem_of_without.
  split; [done|]. congruence.
Qed.
End References.

Lemma unique_on_fresh {R K} `{EqDecision K} constraint (col : R -> option K) others new :
  unique_on constraint col others new = None -> is_Some (col new) ->
  col new ∉ map col others.
Proof.
  intros Huq [k Hk]. rewrite Hk. eapply unique_on_passes; eauto.
Qed.

Ltac schema_cbn :=
  unfold rows_ok, keys_ok in *;
  cbn [heap store relid row_constraints unique_constraints foreign_keys
       referenced on_delete
       users_t profiles_t classrooms_t courses_t timetable_t feedback_t
       set_users set_profiles set_classrooms set_courses set_timetable
       set_feedback users profiles classrooms courses timetable feedback] in *.

Ltac passes :=
  repeat match goal with
  | H : first_violation (_ :: _) = None |- _ =>
      apply first_violation_cons in H; destruct H
  | H : first_violation [] = None |- _ => clear H
  | H : not_null _ _ = None |- _ => apply not_null_passes in H
  | H : references _ _ _ = None |- _ =>
      pose proof (proj1 (references_passes _ _ _) H); clear H
  | H : still_referenced _ _ _ = None |- _ => apply still_referenced_passes in H
  end.

Lemma insert_preserves {R} (T : table R) s new :
  schema_table R T -> consistent s ->
  first_violation (row_constraints T new) = None ->
  first_violation (unique_constraints T (heap T s) new) = None ->
  first_violation (foreign_keys T s new) = None ->
  consistent (store T (heap T s ++ [new]) s).
Proof.
  intros HT Hs Hrow Huq Hfk.
  assert (Hrow' : row_ok T new) by exact Hrow.
  destruct HT, Hs; constructor; schema_cbn; passes; try assumption;
    eauto using Forall_snoc, NoDup_map_snoc, unique_on_fresh,
      refs_ok_child_snoc, refs_ok_parent_snoc.

Qed.

Lemma replace_preserves {R} (T : table R) s l1 l2 old new target :
  schema_table R T -> consistent s ->
  heap T s = l1 ++ old :: l2 ->
  relid T old = Some target ->
  row_ok T new ->
  first_violation (unique_constraints T (l1 ++ l2) new) = None ->
  first_violation (foreign_keys T s new) = None ->
  (relid T new <> Some target -> first_violation (referenced T s target) = None) ->
  consistent (store T (l1 ++ new :: l2) s).
Proof.
  intros HT Hs Heq Hold Hrow Huq Hfk Href.
  assert (Hrow' : row_ok T new) by exact Hrow.
  assert (Hkey : relid T new = relid T old
                 \/ first_violation (referenced T s target) = None).
  { destruct (decide (relid T new = Some target)) as [->|Hne]; [by left|].
    right. by apply Href. }
  clear Href.
  destruct HT, Hs; schema_cbn; rewrite Heq in *; constructor; schema_cbn;
    unfold row_ok in Hrow; schema_cbn; passes; try assumption;
    eauto using Forall_replace, NoDup_map_replace, unique_on_fresh,
      refs_ok_child_replace.
  all: apply (refs_ok_parent_replace _ _ l1 l2 old new); [assumption|].
  all: destruct Hkey as [Hkey|Hkey]; [by left|right; passes; by rewrite Hold].
Qed.

Lemma without_sublist {R} (col : R -> option uuid) key l :
  without col key l `sublist_of` l.
Proof. apply list_filter_sublist. Qed.

Lemma cascade_profiles_sublist gone entries :
  cascade_profiles gone entries `sublist_of` entries.
Proof.
  induction gone as [|p gone IH]; simpl; [done|].
  destruct (Profiles.id p); [|done].
  etrans; [apply without_sublist|done].
Qed.

Lemma elem_of_cascade_profiles gone entries t :
  t ∈ cascade_profiles gone entries <->
  t ∈ entries
  /\ forall p k, p ∈ gone -> Profiles.id p = Some k -> Timetable.faculty_id t <> Some k.
Proof.
  induction gone as [|p gone IH]; simpl.
  - split; [|tauto]. intros Hin. split; [done|]. intros p k Hp. inversion Hp.
  - destruct (Profiles.id p) as [k0|] eqn:Hid.
    + rewrite elem_of_without, IH. split.
      * intros [[Hin Hgone] Hne]. split; [done|].
        intros q k Hq%elem_of_cons Hk. destruct Hq as [->|Hq]; [congruence|eauto].
      * intros [Hin Hall]. split_and!; [done| |].
        -- intros q k Hq. apply Hall. by right.
        -- apply (Hall p); [left|done].
    + rewrite IH. split; intros [Hin Hall]; (split; [done|]).
      * intros q k Hq%elem_of_cons Hk. destruct Hq as [->|Hq]; [congruence|eauto].
      * intros q k Hq. apply Hall. by right.
Qed.

Lemma Forall_sublist {A} (P : A -> Prop) l' l :
  l' `sublist_of` l -> Forall P l -> Forall P l'.
Proof.
  rewrite !Forall_forall. intros Hsub Hl x Hx. apply Hl.
  by eapply elem_of_sublist.
Qed.

Lemma refs_ok_child_sublist {A} (c : A -> option uuid) l' l keys :
  l' `sublist_of` l -> refs_ok (map c l) keys -> refs_ok (map c l') keys.
Proof.
  intros Hsub Hl k Hk. apply Hl. eapply elem_of_sublist; [exact Hk|].
  change (c <$> l' `sublist_of` c <$> l). by apply fmap_sublist.
Qed.

(** deleting an identity: its profile goes, and with the profile the
    timetable entries of that faculty *)
Lemma refs_ok_cascade_profiles key profs entries :
  refs_ok (map Timetable.faculty_id entries) (map Profiles.id profs) ->
  refs_ok
    (map Timetable.faculty_id
       (cascade_profiles
          (List.filter (fun p => bool_decide (Profiles.user_id p = Some key)) profs)
          entries))
    (map Profiles.id (without Profiles.user_id key profs)).
Proof.
  intros Hl k Hk.
  apply list_elem_of_fmap in Hk as (t & Ht & Hin).
  apply elem_of_cascade_profiles in Hin as [Hin Hgone].
  assert (Hk : Some k ∈ map Profiles.id profs).
  { apply Hl. rewrite Ht. by apply (list_elem_of_fmap_2 Timetable.faculty_id). }
  apply list_elem_of_fmap in Hk as (p & Hp & Hpin).
  rewrite Hp. apply (list_elem_of_fmap_2 Profiles.id). apply elem_of_without.
  split; [done|]. intros Hown.
  apply (Hgone p k); [|done|congruence].
  apply elem_of_list_filter. split; [done|]. by apply bool_decide_eq_true.
Qed.

Lemma delete_preserves {R} (T : table R) s target :
  schema_table R T -> consistent s ->
  consistent (on_delete T target (store T (without (relid T) target (heap T s)) s)).
Proof.
  intros HT Hs.
  destruct HT, Hs; constructor; schema_cbn; unfold users_on_delete; schema_cbn;
    try assumption;
    eauto using Forall_sublist, NoDup_map_sublist, refs_ok_child_sublist,
      without_sublist, cascade_profiles_sublist, refs_ok_cascade,
      refs_ok_cascade_profiles.

Qed.

Lemma table_of_schema {R} (rel : relation R) : schema_table R (table_of rel).
Proof. destruct rel; constructor. Qed.

Lemma consistent_keys_ok {R} (T : table R) s :
  schema_table R T -> consistent s -> keys_ok T s.
Proof. intros HT Hs. by destruct HT, Hs. Qed.

Lemma consistent_rows_ok {R} (T : table R) s :
  schema_table R T -> consistent s -> rows_ok T s.
Proof. intros HT Hs. by destruct HT, Hs. Qed.

Lemma exec_insert_consistent {R} (T : table R) e set s s' n :
  schema_table R T -> consistent s ->
  exec_insert T e set s = Done s' n -> consistent s'.
Proof.
  intros HT Hs (_ & Hrow & Huq & Hfk & -> & _)%exec_insert_Done.
  by apply insert_preserves.
Qed.

Lemma exec_update_consistent {R} (T : table R) e target set s s' n :
  schema_table R T -> consistent s ->
  exec_update T e target set s = Done s' n -> consistent s'.
Proof.
  intros HT Hs Hex. apply exec_update_Done in Hex
    as [(_ & -> & _)|(old & Hold & _ & Hrow & Huq & Hfk & Href & -> & _)]; [done|].
  apply target_row_Some in Hold as (Hin & Hid & _).
  destruct (split_at_key (relid T) target (heap T s) old
              (before_update T e (set old))) as (l1 & l2 & Heq & Hwo & ->);
    [by apply consistent_keys_ok|done|done|].
  rewrite Hwo in Huq. by eapply replace_preserves.
Qed.

Lemma exec_delete_consistent {R} (T : table R) e target s s' n :
  schema_table R T -> consistent s ->
  exec_delete T e target s = Done s' n -> consistent s'.
Proof.
  intros HT Hs Hex.
  apply exec_delete_Done in Hex as [(_ & -> & _)|(_ & -> & _)]; [done|].
  by apply delete_preserves.
Qed.

Lemma exec_consistent e st s s' n :
  consistent s -> exec e st s = Done s' n -> consistent s'.
Proof.
  intros Hs. destruct st as [R rel set|R rel target set|R rel target|NEW|target];
    simpl.
  - apply exec_insert_consistent; [apply table_of_schema|done].
  - apply exec_update_consistent; [apply table_of_schema|done].
  - apply exec_delete_consistent; [apply table_of_schema|done].
  - unfold exec_create_identity, handle_new_user.
    destruct (exec_insert users_t _ _ s) as [s1 n1|] eqn:H1; [|done].
    destruct (exec_insert profiles_t _ _ s1) as [s2 n2|] eqn:H2; [|done].
    intros [= <- <-].
    eapply exec_insert_consistent; [constructor| |exact H2].
    eapply exec_insert_consistent; [constructor|exact Hs|exact H1].
  - apply exec_delete_consistent; [constructor|done].
Qed.

Lemma empty_db_consistent : consistent empty_db.
Proof.
  constructor; unfold rows_ok, keys_ok, refs_ok; simpl;
    try constructor; intros k Hk; inversion Hk.
Qed.

Lemma reachable_consistent s : reachable s -> consistent s.
Proof.
  induction 1 as [|s e st s' n _ IH Hex]; [apply empty_db_consistent|].
  by eapply exec_consistent.
Qed.

(** ** Reachable states *)

Lemma reachable_run e st s : reachable s -> reachable (run e st s).
Proof.
  intros Hs. unfold run. destruct (exec e st s) as [s' n|err] eqn:Hex; [|done].
  by eapply reachable_step.
Qed.

Lemma reachable_run_script script s :
  reachable s -> reachable (run_script script s).
Proof.
  revert s. induction script as [|[e st] script IH]; intros s Hs; [done|].
  simpl. apply IH. by apply reachable_run.
Qed.

Lemma reachable_seeded_db : reachable seeded_db.
Proof. apply reachable_run_script. constructor. Qed.

Lemma reachable_sample_db : reachable sample_db.
Proof. apply reachable_run_script, reachable_seeded_db. Qed.

(** ** The sample data and the sample history *)

(** every seed INSERT of the migration passes the constraints *)
Example seed_is_accepted :
  length (classrooms seeded_db) = 5%nat /\ length (courses seeded_db) = 5%nat.
Proof. vm_compute. done. Qed.

(** an identity without email cannot be created: the trigger's INSERT
    violates a NOT NULL constraint of profiles and the sign-up is rolled
    back *)
Example identity_without_email_rejected :
  exec (Env None 3000 203 true)
    (create_identity (Users.Row (Some 103%N) None None)) sample_db
  = Rejected (not_null_violation "name")
  /\ exec (Env None 3000 203 true)
       (create_identity
          (Users.Row (Some 103%N) None
             (Some (JObject {[ "name" := JString "Ann" ]})))) sample_db
     = Rejected (not_null_violation "email").
Proof. vm_compute. done. Qed.

Lemma rejected_run e st s err : exec e st s = Rejected err -> run e st s = s.
Proof. unfold run. by intros ->. Qed.

(** ** Timetable entries: [valid_time_range] *)

Lemma timetable_row_ok_times t :
  row_ok timetable_t t ->
  exists t0 t1,
    Timetable.start_time t = Some t0 /\ Timetable.end_time t = Some t1 /\ t0 < t1.
Proof.
  unfold row_ok. cbn [row_constraints timetable_t]. intros H.
  repeat (apply first_violation_cons in H as [? H]).
  repeat match goal with
         | H : not_null _ _ = None |- _ => apply not_null_passes in H
         end.
  destruct (Timetable.start_time t) as [t0|], (Timetable.end_time t) as [t1|];
    try (exfalso; by match goal with H : is_Some None |- _ => destruct H end).
  exists t0, t1. split_and!; try done.
  match goal with
  | H : check "valid_time_range" _ = None |- _ => apply check_passes in H; rename H into Hc
  end.
  simpl in Hc. destruct (Z.ltb_spec t0 t1); [done|]. by destruct Hc.
Qed.

Lemma timetable_row_bad_times t t0 t1 :
  Timetable.start_time t = Some t0 -> Timetable.end_time t = Some t1 ->
  t1 <= t0 -> ~ row_ok timetable_t t.
Proof.
  intros H0 H1 Hle (u0 & u1 & ? & ? & ?)%timetable_row_ok_times.
  simplify_eq. lia.
Qed.

(** ** Statements that are rejected *)

Lemma exec_insert_rejects {R} (T : table R) e set s :
  ~ row_ok T (set (defaults T e)) ->
  exists err, exec_insert T e set s = Rejected err.
Proof.
  intros Hbad. unfold exec_insert. cbv zeta.
  destruct (insert_allowed _ _ _ _); [|by eexists].
  destruct (first_violation _) as [err|] eqn:Hfv; [by eexists|].
  apply first_violation_app in Hfv as [Hrow _]. by destruct Hbad.
Qed.

Lemma exec_update_rejects {R} (T : table R) e target set s old :
  target_row T UPDATE e s target = Some old ->
  ~ row_ok T (before_update T e (set old)) ->
  exists err, exec_update T e target set s = Rejected err.
Proof.
  intros Hold Hbad. unfold exec_update. rewrite Hold. cbv zeta.
  destruct (update_allowed _ _ _ _); [|by eexists].
  destruct (first_violation _) as [err|] eqn:Hfv; [by eexists|].
  apply first_violation_app in Hfv as [Hrow _]. by destruct Hbad.
Qed.

(** C4: in every reachable state every timetable entry ends strictly after
    it starts, and an INSERT or UPDATE whose new tuple has
    [end_time <= start_time] is rejected and leaves the state unchanged. *)
Theorem valid_time_range_invariant :
  (forall s t, reachable s -> t ∈ timetable s ->
     exists t0 t1,
       Timetable.start_time t = Some t0 /\ Timetable.end_time t = Some t1
       /\ t0 < t1)
  /\ (forall e s set t0 t1,
        Timetable.start_time (set (defaults timetable_t e)) = Some t0 ->
        Timetable.end_time (set (defaults timetable_t e)) = Some t1 ->
        t1 <= t0 ->
        (exists err, exec e (insert_into TIMETABLE set) s = Rejected err)
        /\ run e (insert_into TIMETABLE set) s = s)
  /\ (forall e s target set old t0 t1,
        target_row timetable_t UPDATE e s target = Some old ->
        Timetable.start_time (set old) = Some t0 ->
        Timetable.end_time (set old) = Some t1 ->
        t1 <= t0 ->
        (exists err, exec e (update TIMETABLE target set) s = Rejected err)
        /\ run e (update TIMETABLE target set) s = s).
Proof.
  split_and!.
  - intros s t Hs Ht. apply timetable_row_ok_times.
    apply reachable_consistent in Hs.
    pose proof (timetable_rows s Hs) as Hrows.
    unfold rows_ok in Hrows. rewrite Forall_forall in Hrows.
    by apply Hrows.
  - intros e s set t0 t1 H0 H1 Hle.
    destruct (exec_insert_rejects timetable_t e set s) as [err Herr].
    { by eapply timetable_row_bad_times. }
    split; [by exists err|]. by eapply rejected_run.
  - intros e s target set old t0 t1 Hold H0 H1 Hle.
    destruct (exec_update_rejects timetable_t e target set s old Hold) as [err Herr].
    { by eapply (timetable_row_bad_times _ t0 t1). }
    split; [by exists err|]. by eapply rejected_run.
Qed.

Lemma valid_time_range_invariant_witness :
  (exists t0 t1,
     Some (o'clock 9) = Some t0 /\ Some (o'clock 10) = Some t1 /\ t0 < t1)
  /\ (exists err,
        exec (authenticated 101 3000 302)
          (insert_into TIMETABLE
             (timetable_values 11 201 1 "Tuesday" (o'clock 9) (o'clock 8)
                "Fall" "2025-2026")) sample_db = Rejected err)
  /\ run (authenticated 101 3000 0)
       (update TIMETABLE 301
          (fun _ => timetable_values 11 201 1 "Monday" (o'clock 9) (o'clock 9)
                      "Fall" "2025-2026"
                      (Timetable.Row (Some 301%N) None None None None None None
                         None None None None)))
       sample_db = sample_db.
Proof.
  destruct valid_time_range_invariant as (Hinv & Hins & Hupd).
  split_and!.
  - apply (Hinv sample_db
             (Timetable.Row (Some 301%N) (Some 11%N) (Some 201%N) (Some 1%N)
                (Some "Monday") (Some (o'clock 9)) (Some (o'clock 10))
                (Some "Fall") (Some "2025-2026") (Some 2300) (Some 2300))).
    + apply reachable_sample_db.
    + apply list_elem_of_In. vm_compute. left. reflexivity.
  - eapply (Hins _ _ _ (o'clock 9) (o'clock 8)); [reflexivity|reflexivity|].
    vm_compute. discriminate.
  - eapply (Hupd _ _ _ _ _ (o'clock 9) (o'clock 9)).
    + vm_compute. reflexivity.
    + reflexivity.
    + reflexivity.
    + lia.
Defined.

(** ** Classrooms and courses: the CHECK constraints on capacity and credits *)

Lemma classrooms_row_ok_capacity r :
  row_ok classrooms_t r -> exists n, Classrooms.capacity r = Some n /\ 0 < n.
Proof.
  unfold row_ok. cbn [row_constraints classrooms_t]. intros H.
  repeat (apply first_violation_cons in H as [? H]).
  repeat match goal with
         | H : not_null _ _ = None |- _ => apply not_null_passes in H
         | H : check _ _ = None |- _ => apply check_passes in H; rename H into Hc
         end.
  destruct (Classrooms.capacity r) as [n|];
    [|exfalso; by match goal with H : is_Some None |- _ => destruct H end].
  exists n. split; [done|]. simpl in Hc.
  destruct (Z.ltb_spec 0 n); [done|]. by destruct Hc.
Qed.

Lemma courses_row_ok_credits r n :
  row_ok courses_t r -> Courses.credits r = Some n -> 0 < n.
Proof.
  unfold row_ok. cbn [row_constraints courses_t]. intros H Hn.
  repeat (apply first_violation_cons in H as [? H]).
  match goal with
  | H : check _ _ = None |- _ => apply check_passes in H; rename H into Hc
  end.
  rewrite Hn in Hc. simpl in Hc.
  destruct (Z.ltb_spec 0 n); [done|]. by destruct Hc.
Qed.

Lemma reachable_row_ok {R} (T : table R) s r :
  schema_table R T -> reachable s -> r ∈ heap T s -> row_ok T r.
Proof.
  intros HT Hs Hr. apply reachable_consistent in Hs.
  pose proof (consistent_rows_ok T s HT Hs) as Hrows.
  unfold rows_ok in Hrows. rewrite Forall_forall in Hrows. by apply Hrows.
Qed.

Lemma rejected_when_row_bad_insert {R} (rel : relation R) e set s :
  ~ row_ok (table_of rel) (set (defaults (table_of rel) e)) ->
  (exists err, exec e (insert_into rel set) s = Rejected err)
  /\ run e (insert_into rel set) s = s.
Proof.
  intros Hbad.
  destruct (exec_insert_rejects (table_of rel) e set s Hbad) as [err Herr].
  split; [by exists err|]. by eapply rejected_run.
Qed.

Lemma rejected_when_row_bad_update {R} (rel : relation R) e target set s old :
  target_row (table_of rel) UPDATE e s target = Some old ->
  ~ row_ok (table_of rel) (before_update (table_of rel) e (set old)) ->
  (exists err, exec e (update rel target set) s = Rejected err)
  /\ run e (update rel target set) s = s.
Proof.
  intros Hold Hbad.
  destruct (exec_update_rejects (table_of rel) e target set s old Hold Hbad)
    as [err Herr].
  split; [by exists err|]. by eapply rejected_run.
Qed.

(** C9, as the code has it: in every reachable state every classroom has a
    capacity above zero and every course has credits that are NULL or above
    zero; an INSERT or UPDATE whose new tuple has a capacity of zero or
    less, a NULL capacity, or credits of zero or less, is rejected and
    changes nothing. *)
Theorem capacity_and_credits_checks :
  (forall s r, reachable s -> r ∈ classrooms s ->
     exists n, Classrooms.capacity r = Some n /\ 0 < n)
  /\ (forall s c, reachable s -> c ∈ courses s ->
        Courses.credits c = None
        \/ exists n, Courses.credits c = Some n /\ 0 < n)
  /\ (forall e s set n,
        Classrooms.capacity (set (defaults classrooms_t e)) = Some n -> n <= 0 ->
        (exists err, exec e (insert_into CLASSROOMS set) s = Rejected err)
        /\ run e (insert_into CLASSROOMS set) s = s)
  /\ (forall e s target set old n,
        target_row classrooms_t UPDATE e s target = Some old ->
        Classrooms.capacity (set old) = Some n -> n <= 0 ->
        (exists err, exec e (update CLASSROOMS target set) s = Rejected err)
        /\ run e (update CLASSROOMS target set) s = s)
  /\ (forall e s set n,
        Courses.credits (set (defaults courses_t e)) = Some n -> n <= 0 ->
        (exists err, exec e (insert_into COURSES set) s = Rejected err)
        /\ run e (insert_into COURSES set) s = s)
  /\ (forall e s target set old n,
        target_row courses_t UPDATE e s target = Some old ->
        Courses.credits (set old) = Some n -> n <= 0 ->
        (exists err, exec e (update COURSES target set) s = Rejected err)
        /\ run e (update COURSES target set) s = s)
  /\ (forall e s set,
        Classrooms.capacity (set (defaults classrooms_t e)) = None ->
        (exists err, exec e (insert_into CLASSROOMS set) s = Rejected err)
        /\ run e (insert_into CLASSROOMS set) s = s)
  /\ (forall e s target set old,
        target_row classrooms_t UPDATE e s target = Some old ->
        Classrooms.capacity (set old) = None ->
        (exists err, exec e (update CLASSROOMS target set) s = Rejected err)
        /\ run e (update CLASSROOMS target set) s = s).
Proof.
  split_and!.
  - intros s r Hs Hr. apply classrooms_row_ok_capacity.
    by apply (reachable_row_ok classrooms_t s); [constructor|..].
  - intros s c Hs Hc. destruct (Courses.credits c) as [n|] eqn:Hn; [|by left].
    right. exists n. split; [done|]. apply (courses_row_ok_credits c); [|done].
    by apply (reachable_row_ok courses_t s); [constructor|..].
  - intros e s set n Hn Hle. apply (rejected_when_row_bad_insert CLASSROOMS).
    intros (m & Hm & Hpos)%classrooms_row_ok_capacity.
    assert (m = n) by (unfold table_of in Hm; congruence). lia.
  - intros e s target set old n Hold Hn Hle.
    apply (rejected_when_row_bad_update CLASSROOMS _ _ _ _ old); [done|].
    intros (m & Hm & Hpos)%classrooms_row_ok_capacity.
    assert (m = n) by (simpl in Hm; congruence). lia.
  - intros e s set n Hn Hle. apply (rejected_when_row_bad_insert COURSES).
    intros Hok. pose proof (courses_row_ok_credits _ n Hok Hn). lia.
  - intros e s target set old n Hold Hn Hle.
    apply (rejected_when_row_bad_update COURSES _ _ _ _ old); [done|].
    intros Hok. pose proof (courses_row_ok_credits _ n Hok Hn). lia.
  - intros e s set Hnull. apply (rejected_when_row_bad_insert CLASSROOMS).
    intros (m & Hm & _)%classrooms_row_ok_capacity.
    unfold table_of in Hm. congruence.
  - intros e s target set old Hold Hnull.
    apply (rejected_when_row_bad_update CLASSROOMS _ _ _ _ old); [done|].
    intros (m & Hm & _)%classrooms_row_ok_capacity.
    simpl in Hm. congruence.
Qed.

Lemma capacity_and_credits_checks_witness :
  (exists n, Some 50 = Some n /\ 0 < n)
  /\ (exists err,
        exec (authenticated 101 3000 7)
          (insert_into CLASSROOMS
             (classrooms_values "Closet" 0 [] "Basement" false "No seats"))
          sample_db = Rejected err)
  /\ run (authenticated 101 3000 0)
       (update COURSES 11 (courses_set_credits (Some (-1)))) sample_db
     = sample_db
  /\ run (authenticated 101 3000 0)
       (update CLASSROOMS 1 (classrooms_set_capacity None)) sample_db
     = sample_db.
Proof.
  destruct capacity_and_credits_checks
    as (Hcap & _ & Hins & _ & _ & Hupd & _ & Hnull).
  split_and!.
  - apply (Hcap sample_db
             (Classrooms.Row (Some 1%N) (Some "Room A101") (Some 50)
                (Some ["projector"; "whiteboard"; "air_conditioning"])
                (Some "Building A, Floor 1") (Some true)
                (Some "Standard classroom with modern amenities")
                (Some 1000) (Some 1000))).
    + apply reachable_sample_db.
    + apply list_elem_of_In. vm_compute. left. reflexivity.
  - eapply (Hins _ _ _ 0); [reflexivity|lia].
  - eapply (Hupd _ _ _ _ _ (-1)).
    + vm_compute. reflexivity.
    + reflexivity.
    + lia.
  - apply (Hnull _ _ _ _
             (Classrooms.Row (Some 1%N) (Some "Room A101") (Some 50)
                (Some ["projector"; "whiteboard"; "air_conditioning"])
                (Some "Building A, Floor 1") (Some true)
                (Some "Standard classroom with modern amenities")
                (Some 1000) (Some 1000))).
    + vm_compute. reflexivity.
    + reflexivity.
Defined.

(** C9 as stated fails: the sample history reaches a state that holds a
    course whose credits are NULL, not a number above zero. *)
Lemma course_without_credits_reachable :
  reachable sample_db
  /\ ~ (forall c, c ∈ courses sample_db ->
          exists n, Courses.credits c = Some n /\ 0 < n).
Proof.
  split; [apply reachable_sample_db|]. intros Hall.
  destruct (Hall (Courses.Row (Some 16%N) (Some "SEM900")
                    (Some "Research Seminar") (Some "Graduate School") None
                    (Some "Attendance only") (Some 2400) (Some 2400)))
    as (n & Hn & _); [|discriminate].
  apply list_elem_of_In. vm_compute. do 5 right. left. reflexivity.
Qed.

(** ** Nullable columns with a default *)

Lemma exec_insert_accepts {R} (T : table R) e set s :
  insert_allowed T e s (set (defaults T e)) = true ->
  row_ok T (set (defaults T e)) ->
  first_violation (unique_constraints T (heap T s) (set (defaults T e))) = None ->
  first_violation (foreign_keys T s (set (defaults T e))) = None ->
  exec_insert T e set s = Done (store T (heap T s ++ [set (defaults T e)]) s) 1.
Proof.
  intros Hallowed Hrow Huq Hfk. unfold exec_insert. cbv zeta.
  rewrite Hallowed.
  replace (first_violation _) with (@None sql_error); [done|].
  symmetry. by rewrite !first_violation_app.
Qed.

(** C10: [credits] and [status] are nullable.  Their CHECK constraints do
    not reject NULL; an INSERT that supplies NULL for the column and meets
    the other constraints of the table is accepted and stores the NULL; the
    defaults 3 and 'pending' are what an INSERT stores when it leaves the
    column out. *)
Theorem nullable_credits_and_status :
  check "courses_credits_check" (sql_gt None (Some 0)) = None
  /\ check "feedback_status_check"
       (sql_in None ["pending"; "reviewed"; "resolved"]) = None
  /\ (forall e s set,
        Courses.credits (set (defaults courses_t e)) = None ->
        insert_allowed courses_t e s (set (defaults courses_t e)) = true ->
        is_Some (Courses.id (set (defaults courses_t e))) ->
        is_Some (Courses.course_code (set (defaults courses_t e))) ->
        is_Some (Courses.course_name (set (defaults courses_t e))) ->
        is_Some (Courses.department (set (defaults courses_t e))) ->
        Courses.id (set (defaults courses_t e)) ∉ map Courses.id (courses s) ->
        Courses.course_code (set (defaults courses_t e))
          ∉ map Courses.course_code (courses s) ->
        exec e (insert_into COURSES set) s
        = Done (set_courses (courses s ++ [set (defaults courses_t e)]) s) 1)
  /\ (forall e s set,
        Feedback.status (set (defaults feedback_t e)) = None ->
        insert_allowed feedback_t e s (set (defaults feedback_t e)) = true ->
        is_Some (Feedback.id (set (defaults feedback_t e))) ->
        is_Some (Feedback.title (set (defaults feedback_t e))) ->
        is_Some (Feedback.message (set (defaults feedback_t e))) ->
        Feedback.id (set (defaults feedback_t e)) ∉ map Feedback.id (feedback s) ->
        Feedback.user_id (set (defaults feedback_t e)) ∈ map Users.id (users s) ->
        is_Some (Feedback.user_id (set (defaults feedback_t e))) ->
        exec e (insert_into FEEDBACK set) s
        = Done (set_feedback (feedback s ++ [set (defaults feedback_t e)]) s) 1)
  /\ (forall e s set s' n,
        (forall d, Courses.credits (set d) = Courses.credits d) ->
        exec e (insert_into COURSES set) s = Done s' n ->
        exists c, courses s' = courses s ++ [c] /\ Courses.credits c = Some 3)
  /\ (forall e s set s' n,
        (forall d, Feedback.status (set d) = Feedback.status d) ->
        exec e (insert_into FEEDBACK set) s = Done s' n ->
        exists f, feedback s' = feedback s ++ [f]
                  /\ Feedback.status f = Some "pending").
Proof.
  split_and!; [done|done|..].
  - intros e s set Hnull Hallowed Hid Hcode Hname Hdept Hpk Huq.
    apply (exec_insert_accepts courses_t); [done|..].
    + unfold row_ok. cbn [row_constraints courses_t].
      rewrite !first_violation_cons, !not_null_passes, check_passes, Hnull.
      by split_and!.
    + cbn [unique_constraints courses_t heap].
      rewrite !first_violation_cons, !unique_on_passes.
      split_and!; [| |done]; by intros k <-.
    + done.
  - intros e s set Hnull Hallowed Hid Htitle Hmsg Hpk Hfk Huser.
    apply (exec_insert_accepts feedback_t); [done|..].
    + unfold row_ok. cbn [row_constraints feedback_t].
      rewrite !first_violation_cons, !not_null_passes, check_passes, Hnull.
      by split_and!.
    + cbn [unique_constraints feedback_t heap].
      rewrite !first_violation_cons, !unique_on_passes.
      split_and!; [|done]; by intros k <-.
    + cbn [foreign_keys feedback_t].
      rewrite !first_violation_cons, references_passes.
      split; [|done]. by intros k <-.
  - intros e s set s' n Hkeep Hex. simpl in Hex.
    apply exec_insert_Done in Hex as (_ & _ & _ & _ & -> & _).
    eexists. split; [reflexivity|]. by rewrite Hkeep.
  - intros e s set s' n Hkeep Hex. simpl in Hex.
    apply exec_insert_Done in Hex as (_ & _ & _ & _ & -> & _).
    eexists. split; [reflexivity|]. by rewrite Hkeep.
Qed.

(** a decidable proposition about concrete data, settled by evaluation *)
Ltac by_computation :=
  match goal with
  | |- ~ ?P => apply (bool_decide_eq_false_1 P); vm_compute; reflexivity
  | |- ?P => apply (bool_decide_eq_true_1 P); vm_compute; reflexivity
  end.

Lemma nullable_credits_and_status_witness :
  exec (owner 3000 17)
    (insert_into COURSES
       (courses_values "LAB000" "Open Lab" "Physics" None "Drop-in hours"))
    seeded_db
  = Done (set_courses
            (courses seeded_db
             ++ [courses_values "LAB000" "Open Lab" "Physics" None "Drop-in hours"
                   (defaults courses_t (owner 3000 17))]) seeded_db) 1
  /\ exec (authenticated 102 3000 402)
       (insert_into FEEDBACK
          (fun d => feedback_set_status None
                      (feedback_values 102 "Heating" "Room B201 is cold" d)))
       sample_db
     = Done (set_feedback
               (feedback sample_db
                ++ [feedback_set_status None
                      (feedback_values 102 "Heating" "Room B201 is cold"
                         (defaults feedback_t (authenticated 102 3000 402)))])
               sample_db) 1
  /\ (exists c,
        courses (run (owner 3000 18)
                   (insert_into COURSES
                      (courses_values_short "ART100" "Drawing" "Arts"))
                   seeded_db)
        = courses seeded_db ++ [c]
        /\ Courses.credits c = Some 3).
Proof.
  destruct nullable_credits_and_status as (_ & _ & Hcourse & Hfeedback & Hdefault & _).
  split_and!.
  - apply (Hcourse (owner 3000 17) seeded_db
             (courses_values "LAB000" "Open Lab" "Physics" None "Drop-in hours"));
      try reflexivity; try (by eexists).
    + by_computation.
    + by_computation.
  - apply (Hfeedback (authenticated 102 3000 402) sample_db
             (fun d => feedback_set_status None
                         (feedback_values 102 "Heating" "Room B201 is cold" d)));
      try reflexivity; try (by eexists).
    + by_computation.
    + by_computation.
  - apply (Hdefault (owner 3000 18) seeded_db
             (courses_values_short "ART100" "Drawing" "Arts") _ 1%nat);
      [reflexivity|].
    vm_compute. reflexivity.
Defined.

(** ** UNIQUE constraints *)

Lemma having_absent {R K} `{EqDecision K} (col : R -> option K) key l :
  Some key ∉ map col l -> having col key l = [].
Proof.
  induction l as [|x l IH]; [done|]. simpl. intros Hnot.
  rewrite not_elem_of_cons in Hnot. destruct Hnot as [Hx Hl].
  unfold having in *. simpl. rewrite bool_decide_eq_false_2 by congruence.
  by apply IH.
Qed.

Lemma having_at_most_one {R K} `{EqDecision K} (col : R -> option K) key l :
  NoDup (map col l) -> (length (having col key l) <= 1)%nat.
Proof.
  induction l as [|x l IH]; simpl; [lia|].
  intros [Hx Hl]%NoDup_cons. unfold having in *. simpl.
  case_bool_decide as Hk; [|by apply IH].
  rewrite Hk in Hx. fold (having col key l).
  rewrite having_absent by done. simpl. lia.
Qed.

Lemma exec_insert_rejects_duplicate {R} (T : table R) e set s :
  first_violation (unique_constraints T (heap T s) (set (defaults T e))) <> None ->
  exists err, exec_insert T e set s = Rejected err.
Proof.
  intros Hbad. unfold exec_insert. cbv zeta.
  destruct (insert_allowed _ _ _ _); [|by eexists].
  destruct (first_violation (_ ++ _)) as [err|] eqn:Hfv; [by eexists|].
  apply first_violation_app in Hfv as [_ Hfv].
  apply first_violation_app in Hfv as [Huq _]. by destruct Hbad.
Qed.

Lemma unique_on_taken {R K} `{EqDecision K} constraint (col : R -> option K)
    others new r :
  r ∈ others -> is_Some (col r) -> col new = col r ->
  unique_on constraint col others new <> None.
Proof.
  intros Hin [k Hk] Heq Hpass.
  rewrite unique_on_passes in Hpass.
  apply (Hpass k); [by rewrite Heq|].
  rewrite <- Hk. by apply (list_elem_of_fmap_2 col).
Qed.

(** C8: in every reachable state no two profiles belong to the same
    identity, no two classrooms have the same room name and no two courses
    the same course code; an INSERT of a profile (classroom, course) whose
    [user_id] (room name, course code) is already taken is rejected and
    changes nothing. *)
Theorem unique_keys_invariant :
  (forall s uid, reachable s ->
     (length (having Profiles.user_id uid (profiles s)) <= 1)%nat)
  /\ (forall s room, reachable s ->
        (length (having Classrooms.room_name room (classrooms s)) <= 1)%nat)
  /\ (forall s code, reachable s ->
        (length (having Courses.course_code code (courses s)) <= 1)%nat)
  /\ (forall e s set p,
        p ∈ profiles s -> is_Some (Profiles.user_id p) ->
        Profiles.user_id (set (defaults profiles_t e)) = Profiles.user_id p ->
        (exists err, exec e (insert_into PROFILES set) s = Rejected err)
        /\ run e (insert_into PROFILES set) s = s)
  /\ (forall e s set p,
        p ∈ classrooms s -> is_Some (Classrooms.room_name p) ->
        Classrooms.room_name (set (defaults classrooms_t e)) = Classrooms.room_name p ->
        (exists err, exec e (insert_into CLASSROOMS set) s = Rejected err)
        /\ run e (insert_into CLASSROOMS set) s = s)
  /\ (forall e s set p,
        p ∈ courses s -> is_Some (Courses.course_code p) ->
        Courses.course_code (set (defaults courses_t e)) = Courses.course_code p ->
        (exists err, exec e (insert_into COURSES set) s = Rejected err)
        /\ run e (insert_into COURSES set) s = s).
Proof.
  split_and!.
  - intros s uid Hs. apply having_at_most_one.
    by apply profiles_user_id_key, reachable_consistent.
  - intros s room Hs. apply having_at_most_one.
    by apply classrooms_room_name_key, reachable_consistent.
  - intros s code Hs. apply having_at_most_one.
    by apply courses_course_code_key, reachable_consistent.
  - intros e s set p Hin Hsome Heq.
    destruct (exec_insert_rejects_duplicate profiles_t e set s) as [err Herr].
    { cbn [unique_constraints profiles_t heap]. intros Hfv.
      apply first_violation_cons in Hfv as [_ Hfv].
      apply first_violation_cons in Hfv as [Hfv _].
      by eapply unique_on_taken. }
    split; [by exists err|]. by eapply rejected_run.
  - intros e s set p Hin Hsome Heq.
    destruct (exec_insert_rejects_duplicate classrooms_t e set s) as [err Herr].
    { cbn [unique_constraints classrooms_t heap]. intros Hfv.
      apply first_violation_cons in Hfv as [_ Hfv].
      apply first_violation_cons in Hfv as [Hfv _].
      by eapply unique_on_taken. }
    split; [by exists err|]. by eapply rejected_run.
  - intros e s set p Hin Hsome Heq.
    destruct (exec_insert_rejects_duplicate courses_t e set s) as [err Herr].
    { cbn [unique_constraints courses_t heap]. intros Hfv.
      apply first_violation_cons in Hfv as [_ Hfv].
      apply first_violation_cons in Hfv as [Hfv _].
      by eapply unique_on_taken. }
    split; [by exists err|]. by eapply rejected_run.
Qed.

Lemma unique_keys_invariant_witness :
  (length (having Profiles.user_id 102%N (profiles sample_db)) <= 1)%nat
  /\ (exists err,
        exec (authenticated 102 3000 203)
          (insert_into PROFILES
             (fun d => Profiles.Row (Profiles.id d) (Some 102%N) (Some "Kim")
                         (Some "kim@example.edu") (Profiles.role d) None None
                         (Profiles.created_at d) (Profiles.updated_at d)))
          sample_db = Rejected err)
  /\ run (owner 3000 19)
       (insert_into COURSES
          (courses_values "CS101" "Computing" "Computer Science" (Some 5) "Again"))
       sample_db = sample_db.
Proof.
  destruct unique_keys_invariant as (Hprofiles & _ & _ & Hins & _ & Hcourse).
  split_and!.
  - apply (Hprofiles sample_db 102%N). apply reachable_sample_db.
  - apply (Hins _ _ _
             (Profiles.Row (Some 202%N) (Some 102%N) (Some "kim@example.edu")
                (Some "kim@example.edu") (Some student) None None
                (Some 2100) (Some 2100)));
      [apply list_elem_of_In; vm_compute; right; left; reflexivity
      |by eexists|reflexivity].
  - apply (Hcourse _ _ _
             (Courses.Row (Some 11%N) (Some "CS101")
                (Some "Introduction to Computer Science")
                (Some "Computer Science") (Some 3)
                (Some "Basic concepts of computer science and programming")
                (Some 1000) (Some 1000)));
      [apply list_elem_of_In; vm_compute; left; reflexivity
      |by eexists|reflexivity].
Defined.

(** ** Foreign keys of the timetable: ON DELETE CASCADE *)

Lemma timetable_row_ok_refs t :
  row_ok timetable_t t ->
  is_Some (Timetable.course_id t) /\ is_Some (Timetable.faculty_id t)
  /\ is_Some (Timetable.room_id t).
Proof.
  unfold row_ok. cbn [row_constraints timetable_t]. intros H.
  repeat (apply first_violation_cons in H as [? H]).
  repeat match goal with
         | H : not_null _ _ = None |- _ => apply not_null_passes in H
         end.
  done.
Qed.

Lemma refs_ok_elem {A} (c : A -> option uuid) l keys x :
  refs_ok (map c l) keys -> x ∈ l -> is_Some (c x) -> c x ∈ keys.
Proof.
  intros Hl Hx [k Hk]. rewrite Hk. apply Hl. rewrite <- Hk.
  by apply (list_elem_of_fmap_2 c).
Qed.

Lemma without_gone {R} (col : R -> option uuid) key l :
  Some key ∉ map col (without col key l).
Proof.
  intros (r & Hr & Hin)%list_elem_of_fmap.
  apply elem_of_without in Hin as [_ Hne]. by destruct Hne.
Qed.

Lemma exec_delete_found {R} (T : table R) e target s old :
  target_row T DELETE e s target = Some old ->
  exec_delete T e target s
  = Done (on_delete T target (store T (without (relid T) target (heap T s)) s)) 1.
Proof. unfold exec_delete. by intros ->. Qed.

(** C7: in every reachable state each timetable entry refers to a course,
    a profile and a classroom that exist; a DELETE of a course, profile or
    classroom removes, in the same statement, exactly the timetable entries
    that refer to it, so that nothing refers to the deleted key afterwards,
    and leaves the other entries as they were. *)
Theorem timetable_on_delete_cascade :
  (forall s t, reachable s -> t ∈ timetable s ->
     is_Some (Timetable.course_id t)
     /\ Timetable.course_id t ∈ map Courses.id (courses s)
     /\ is_Some (Timetable.faculty_id t)
     /\ Timetable.faculty_id t ∈ map Profiles.id (profiles s)
     /\ is_Some (Timetable.room_id t)
     /\ Timetable.room_id t ∈ map Classrooms.id (classrooms s))
  /\ (forall e s target old,
        target_row courses_t DELETE e s target = Some old ->
        exists s',
          exec e (delete_from COURSES target) s = Done s' 1
          /\ courses s' = without Courses.id target (courses s)
          /\ timetable s' = without Timetable.course_id target (timetable s)
          /\ (Some target ∉ map Courses.id (courses s'))
          /\ (Some target ∉ map Timetable.course_id (timetable s'))
          /\ (forall t, t ∈ timetable s' <->
                t ∈ timetable s /\ Timetable.course_id t <> Some target))
  /\ (forall e s target old,
        target_row profiles_t DELETE e s target = Some old ->
        exists s',
          exec e (delete_from PROFILES target) s = Done s' 1
          /\ profiles s' = without Profiles.id target (profiles s)
          /\ timetable s' = without Timetable.faculty_id target (timetable s)
          /\ (Some target ∉ map Profiles.id (profiles s'))
          /\ (Some target ∉ map Timetable.faculty_id (timetable s'))
          /\ (forall t, t ∈ timetable s' <->
                t ∈ timetable s /\ Timetable.faculty_id t <> Some target))
  /\ (forall e s target old,
        target_row classrooms_t DELETE e s target = Some old ->
        exists s',
          exec e (delete_from CLASSROOMS target) s = Done s' 1
          /\ classrooms s' = without Classrooms.id target (classrooms s)
          /\ timetable s' = without Timetable.room_id target (timetable s)
          /\ (Some target ∉ map Classrooms.id (classrooms s'))
          /\ (Some target ∉ map Timetable.room_id (timetable s'))
          /\ (forall t, t ∈ timetable s' <->
                t ∈ timetable s /\ Timetable.room_id t <> Some target))
  /\ (forall e s target old,
        target_row users_t DELETE (security_definer e) s target = Some old ->
        exists s',
          exec e (delete_identity target) s = Done s' 1
          /\ profiles s' = without Profiles.user_id target (profiles s)
          /\ (forall t, t ∈ timetable s' <->
                t ∈ timetable s
                /\ forall p k, p ∈ profiles s ->
                     Profiles.user_id p = Some target ->
                     Profiles.id p = Some k ->
                     Timetable.faculty_id t <> Some k)).
Proof.
  split_and!.
  - intros s t Hs Ht.
    pose proof (reachable_row_ok timetable_t s t schema_timetable Hs Ht) as Hrow.
    apply timetable_row_ok_refs in Hrow as (Hc & Hf & Hr).
    apply reachable_consistent in Hs.
    split_and!; try done.
    + by apply (refs_ok_elem _ (timetable s)); [apply timetable_course_id_fkey|..].
    + by apply (refs_ok_elem _ (timetable s)); [apply timetable_faculty_id_fkey|..].
    + by apply (refs_ok_elem _ (timetable s)); [apply timetable_room_id_fkey|..].
  - intros e s target old Hold. eexists. split.
    { simpl. by apply (exec_delete_found courses_t e target s old). }
    cbn [on_delete store heap relid courses_t set_courses set_timetable
         courses timetable].
    split_and!; try done; try apply without_gone.
    intros t. apply elem_of_without.
  - intros e s target old Hold. eexists. split.
    { simpl. by apply (exec_delete_found profiles_t e target s old). }
    cbn [on_delete store heap relid profiles_t set_profiles set_timetable
         profiles timetable].
    split_and!; try done; try apply without_gone.
    intros t. apply elem_of_without.
  - intros e s target old Hold. eexists. split.
    { simpl. by apply (exec_delete_found classrooms_t e target s old). }
    cbn [on_delete store heap relid classrooms_t set_classrooms set_timetable
         classrooms timetable].
    split_and!; try done; try apply without_gone.
    intros t. apply elem_of_without.
  - intros e s target old Hold. eexists. split.
    { simpl. by apply (exec_delete_found users_t _ target s old). }
    cbn [on_delete store heap relid users_t set_users]. unfold users_on_delete.
    cbn [profiles timetable set_users]. split; [done|].
    intros t. rewrite elem_of_cascade_profiles.
    split; intros [Hin Hall]; (split; [done|]).
    + intros p k Hp Hown Hk. apply (Hall p k); [|done].
      apply elem_of_list_filter. split; [done|]. by apply bool_decide_eq_true.
    + intros p k [Hp Hown]%elem_of_list_filter Hk.
      apply bool_decide_eq_true in Hown. by apply (Hall p k).
Qed.

Lemma timetable_on_delete_cascade_witness :
  Some 11%N ∈ map Courses.id (courses sample_db)
  /\ (exists s',
        exec (authenticated 101 3000 0) (delete_from COURSES 11) sample_db
        = Done s' 1
        /\ timetable s' = []
        /\ (Some 11%N ∉ map Courses.id (courses s')))
  /\ (exists s',
        exec (authenticated 101 3000 0) (delete_from CLASSROOMS 2) sample_db
        = Done s' 1
        /\ timetable s' = timetable sample_db).
Proof.
  destruct timetable_on_delete_cascade as (Hinv & Hcourse & _ & Hroom & _).
  split_and!.
  - apply (Hinv sample_db
             (Timetable.Row (Some 301%N) (Some 11%N) (Some 201%N) (Some 1%N)
                (Some "Monday") (Some (o'clock 9)) (Some (o'clock 10))
                (Some "Fall") (Some "2025-2026") (Some 2300) (Some 2300))).
    + apply reachable_sample_db.
    + apply list_elem_of_In. vm_compute. left. reflexivity.
  - destruct (Hcourse (authenticated 101 3000 0) sample_db 11%N
                (Courses.Row (Some 11%N) (Some "CS101")
                   (Some "Introduction to Computer Science")
                   (Some "Computer Science") (Some 3)
                   (Some "Basic concepts of computer science and programming")
                   (Some 1000) (Some 1000)))
      as (s' & Hex & _ & Htt & Hgone & _); [vm_compute; reflexivity|].
    exists s'. split_and!; [done| |done].
    rewrite Htt. vm_compute. reflexivity.
  - destruct (Hroom (authenticated 101 3000 0) sample_db 2%N
                (Classrooms.Row (Some 2%N) (Some "Room B201") (Some 30)
                   (Some ["smart_board"; "audio_system"; "projector"])
                   (Some "Building B, Floor 2") (Some true)
                   (Some "Small seminar room") (Some 1000) (Some 1000)))
      as (s' & Hex & _ & Htt & _); [vm_compute; reflexivity|].
    exists s'. split; [done|]. rewrite Htt. vm_compute. reflexivity.
Defined.

(** ** Sign-up: [on_auth_user_created] *)

Lemma COALESCE_is_Some {A} (a b : option A) : is_Some b -> is_Some (COALESCE a b).
Proof. destruct a; simpl; [by eexists|done]. Qed.

Lemma json_get_text_string members key nm :
  members !! key = Some (JString nm) ->
  json_get_text (Some (JObject members)) key = Some nm.
Proof. simpl. by intros ->. Qed.

(** C2: when an identity is created, the trigger has inserted exactly one
    profile: for that identity, with role 'student', with the email of the
    identity, and named after the "name" member of the signup metadata when
    there is one and after the email otherwise.  The creation goes through
    for every new identity that has an email, whatever its metadata. *)
Theorem on_auth_user_created_inserts_profile :
  (forall e s NEW s' n,
     exec e (create_identity NEW) s = Done s' n ->
     users s' = users s ++ [NEW]
     /\ exists p,
          profiles s' = profiles s ++ [p]
          /\ Profiles.user_id p = Users.id NEW
          /\ Profiles.role p = Some student
          /\ Profiles.email p = Users.email NEW
          /\ (forall nm,
                json_get_text (Users.raw_user_meta_data NEW) "name" = Some nm ->
                Profiles.name p = Some nm)
          /\ (forall members nm,
                Users.raw_user_meta_data NEW = Some (JObject members) ->
                members !! "name" = Some (JString nm) ->
                Profiles.name p = Some nm)
          /\ (json_get_text (Users.raw_user_meta_data NEW) "name" = None ->
              Profiles.name p = Users.email NEW))
  /\ (forall e s NEW,
        reachable s ->
        is_Some (Users.id NEW) ->
        Users.id NEW ∉ map Users.id (users s) ->
        is_Some (Users.email NEW) ->
        Some (gen_random_uuid e) ∉ map Profiles.id (profiles s) ->
        exists s', exec e (create_identity NEW) s = Done s' 1).
Proof.
  split.
  - intros e s NEW s' n Hex. simpl in Hex.
    unfold exec_create_identity, handle_new_user in Hex.
    destruct (exec_insert users_t _ _ s) as [s1 n1|] eqn:H1; [|done].
    destruct (exec_insert profiles_t _ _ s1) as [s2 n2|] eqn:H2; [|done].
    injection Hex as <- <-.
    apply exec_insert_Done in H1 as (_ & _ & _ & _ & -> & _).
    apply exec_insert_Done in H2 as (_ & _ & _ & _ & -> & _).
    split; [done|]. eexists. split; [reflexivity|].
    cbn [Profiles.user_id Profiles.role Profiles.email Profiles.name].
    split_and!; try done.
    + by intros nm ->.
    + intros members nm -> Hnm. by rewrite (json_get_text_string _ _ nm).
    + by intros ->.
  - intros e s NEW Hs Hid Hfresh Hemail Hpid.
    apply reachable_consistent in Hs.
    simpl. unfold exec_create_identity, handle_new_user.
    rewrite (exec_insert_accepts users_t); cycle 1.
    + done.
    + unfold row_ok. cbn [row_constraints users_t].
      by rewrite first_violation_cons, not_null_passes.
    + cbn [unique_constraints users_t heap].
      rewrite first_violation_cons, unique_on_passes.
      split; [|done]. by intros k <-.
    + done.
    + rewrite (exec_insert_accepts profiles_t); [by eexists|done|..].
      * unfold row_ok.
        cbn [row_constraints profiles_t defaults security_definer
             gen_random_uuid NOW Profiles.id Profiles.user_id Profiles.name
             Profiles.email Profiles.role].
        rewrite !first_violation_cons, !not_null_passes.
        split_and!; try done; try (by eexists).
        by apply COALESCE_is_Some.
      * cbn [unique_constraints profiles_t heap store users_t set_users
             profiles defaults security_definer gen_random_uuid].
        rewrite !first_violation_cons, !unique_on_passes.
        cbn [Profiles.id Profiles.user_id].
        split_and!; [by intros k [= <-]| |done].
        intros k Hk Hin. apply Hfresh. rewrite Hk.
        by apply (profiles_user_id_fkey s Hs).
      * cbn [foreign_keys profiles_t heap store users_t set_users users
             Profiles.user_id].
        rewrite first_violation_cons, references_passes.
        split; [|done]. intros k Hk. rewrite map_app, elem_of_app.
        right. simpl. by apply list_elem_of_singleton.
Qed.

Lemma on_auth_user_created_inserts_profile_witness :
  (exists s',
     exec (Env None 2000 201 true) (create_identity dr_lee) seeded_db = Done s' 1
     /\ exists p,
          profiles s' = profiles seeded_db ++ [p]
          /\ Profiles.role p = Some student
          /\ Profiles.email p = Some "lee@example.edu"
          /\ Profiles.name p = Some "Dr. Lee")
  /\ (exists s',
        exec (Env None 2100 202 true) (create_identity kim) seeded_db = Done s' 1
        /\ exists p,
             profiles s' = profiles seeded_db ++ [p]
             /\ Profiles.name p = Some "kim@example.edu").
Proof.
  destruct on_auth_user_created_inserts_profile as (Hprofile & Hcreated).
  split.
  - destruct (Hcreated (Env None 2000 201%N true) seeded_db dr_lee)
      as (s' & Hex);
      [apply reachable_seeded_db|by eexists|by_computation|by eexists
      |by_computation|].
    exists s'. split; [done|].
    destruct (Hprofile _ _ _ _ _ Hex)
      as (_ & p & Hp & _ & Hrole & Hemail & Hname & _).
    exists p. split_and!; [done|done|done|]. by apply Hname.
  - destruct (Hcreated (Env None 2100 202%N true) seeded_db kim)
      as (s' & Hex);
      [apply reachable_seeded_db|by eexists|by_computation|by eexists
      |by_computation|].
    exists s'. split; [done|].
    destruct (Hprofile _ _ _ _ _ Hex)
      as (_ & p & Hp & _ & _ & _ & _ & _ & Hfallback).
    exists p. split; [done|]. by apply Hfallback.
Defined.

(** ** Policies of classrooms, courses and timetable *)

Lemma holds_role_weaken uid profs roles roles' :
  roles ⊆ roles' -> holds_role uid profs roles -> holds_role uid profs roles'.
Proof.
  intros Hsub (p & u & r & ? & ? & ? & ? & Hr).
  exists p, u, r. split_and!; try done. by apply Hsub.
Qed.

Lemma classrooms_policies_write c uid profs r :
  c <> SELECT ->
  (using_permits classrooms_policies c uid profs r = true
   <-> holds_role uid profs [admin])
  /\ (check_permits classrooms_policies c uid profs r = true
      <-> holds_role uid profs [admin]).
Proof.
  intros Hc. unfold using_permits, check_permits, classrooms_policies.
  cbn [existsb applies polcmd USING WITH_CHECK qual_for_wco eval_qual].
  rewrite bool_decide_eq_false_2 by congruence.
  rewrite !andb_false_l, !andb_true_l, !orb_false_l, !orb_false_r.
  split; apply exists_admin_true.
Qed.

Lemma courses_policies_write c uid profs r :
  c <> SELECT ->
  (using_permits courses_policies c uid profs r = true
   <-> holds_role uid profs [admin])
  /\ (check_permits courses_policies c uid profs r = true
      <-> holds_role uid profs [admin]).
Proof.
  intros Hc. unfold using_permits, check_permits, courses_policies.
  cbn [existsb applies polcmd USING WITH_CHECK qual_for_wco eval_qual].
  rewrite bool_decide_eq_false_2 by congruence.
  rewrite !andb_false_l, !andb_true_l, !orb_false_l, !orb_false_r.
  split; apply exists_admin_true.
Qed.

Lemma timetable_policies_write c uid profs r :
  c <> SELECT ->
  (using_permits timetable_policies c uid profs r = true
   <-> holds_role uid profs [admin; faculty])
  /\ (check_permits timetable_policies c uid profs r = true
      <-> holds_role uid profs [admin; faculty]).
Proof.
  intros Hc. unfold using_permits, check_permits, timetable_policies.
  cbn [existsb applies polcmd USING WITH_CHECK qual_for_wco eval_qual].
  rewrite bool_decide_eq_false_2 by congruence.
  rewrite !andb_false_l, !andb_true_l, !orb_false_l, !orb_false_r.
  split; apply exists_admin_or_faculty_true.
Qed.

Lemma target_row_hidden {R} (T : table R) c e s target :
  (forall r, visible T c e s r = false) -> target_row T c e s target = None.
Proof.
  intros Hhidden. unfold target_row.
  induction (heap T s) as [|r l IH]; [done|]. simpl.
  by rewrite Hhidden, andb_false_r.
Qed.

(** what a session under row security gets when the policies deny it *)
Lemma policy_denial_effect {R} (rel : relation R) e s :
  row_security e = true ->
  policy_denies_writes rel e s -> writes_denied rel e s.
Proof.
  intros Hrls Hdeny. split_and!.
  - intros set. simpl. unfold exec_insert, insert_allowed. cbv zeta.
    rewrite Hrls. simpl.
    by rewrite (proj2 (Hdeny INSERT (set (defaults (table_of rel) e)) ltac:(done))).
  - intros target set. simpl. unfold exec_update.
    rewrite target_row_hidden; [done|]. intros r. unfold visible.
    rewrite Hrls, (proj1 (Hdeny UPDATE r ltac:(done))). simpl.
    apply andb_false_r.
  - intros target. simpl. unfold exec_delete.
    rewrite target_row_hidden; [done|]. intros r. unfold visible.
    rewrite Hrls, (proj1 (Hdeny DELETE r ltac:(done))). simpl.
    apply andb_false_r.
Qed.

Lemma select_all_permitted {R} (T : table R) e s :
  (forall r, using_permits (relpolicies T) SELECT (auth_uid e) (profiles_seen e s) r
             = true) ->
  select_from T e s = heap T s.
Proof.
  intros Hall. unfold select_from. destruct (row_security e); [|done].
  induction (heap T s) as [|r l IH]; [done|]. simpl.
  rewrite Hall. f_equal. exact IH.
Qed.

Lemma not_true_is_false_iff (b : bool) (P : Prop) : (b = true <-> P) -> ~ P -> b = false.
Proof. destruct b; [|done]. intros [H _] HP. destruct HP. by apply H. Qed.

(** C3: for a session under row security whose identity has no profile
    with role admin or faculty, the policies of classrooms, courses and
    timetable deny every INSERT, UPDATE and DELETE, and the statement leaves
    the state unchanged; classrooms and courses deny them already to an
    identity without an admin profile; a SELECT on each of the three tables
    returns every tuple, whoever asks. *)
Theorem managed_tables_write_policy :
  forall e s,
    row_security e = true ->
    (~ holds_role (auth_uid e) (profiles s) [admin; faculty] ->
       (policy_denies_writes CLASSROOMS e s /\ writes_denied CLASSROOMS e s)
       /\ (policy_denies_writes COURSES e s /\ writes_denied COURSES e s)
       /\ (policy_denies_writes TIMETABLE e s /\ writes_denied TIMETABLE e s))
    /\ (~ holds_role (auth_uid e) (profiles s) [admin] ->
          (policy_denies_writes CLASSROOMS e s /\ writes_denied CLASSROOMS e s)
          /\ (policy_denies_writes COURSES e s /\ writes_denied COURSES e s))
    /\ reads_open CLASSROOMS e s /\ reads_open COURSES e s
    /\ reads_open TIMETABLE e s.
Proof.
  intros e s Hrls.
  assert (Hcl : ~ holds_role (auth_uid e) (profiles s) [admin] ->
                policy_denies_writes CLASSROOMS e s).
  { intros Hno c r Hc. rewrite profiles_seen_all. simpl.
    destruct (classrooms_policies_write c (auth_uid e) (profiles s) r Hc) as [Hu Hw].
    split; by eapply not_true_is_false_iff. }
  assert (Hco : ~ holds_role (auth_uid e) (profiles s) [admin] ->
                policy_denies_writes COURSES e s).
  { intros Hno c r Hc. rewrite profiles_seen_all. simpl.
    destruct (courses_policies_write c (auth_uid e) (profiles s) r Hc) as [Hu Hw].
    split; by eapply not_true_is_false_iff. }
  assert (Htt : ~ holds_role (auth_uid e) (profiles s) [admin; faculty] ->
                policy_denies_writes TIMETABLE e s).
  { intros Hno c r Hc. rewrite profiles_seen_all. simpl.
    destruct (timetable_policies_write c (auth_uid e) (profiles s) r Hc) as [Hu Hw].
    split; by eapply not_true_is_false_iff. }
  assert (Hweak : ~ holds_role (auth_uid e) (profiles s) [admin; faculty] ->
                  ~ holds_role (auth_uid e) (profiles s) [admin]).
  { intros Hno Hadm. apply Hno. eapply holds_role_weaken; [|exact Hadm].
    intros x ->%list_elem_of_singleton. left. }
  split_and!.
  - intros Hno. split_and!; auto using policy_denial_effect.
  - intros Hno. split_and!; auto using policy_denial_effect.
  - by apply select_all_permitted.
  - by apply select_all_permitted.
  - by apply select_all_permitted.
Qed.

Lemma holds_role_refuted uid profs roles :
  forallb (fun p => negb (is_true (sql_and (sql_eq (Profiles.user_id p) uid)
                                           (sql_in (Profiles.role p) roles))))
    profs = true ->
  ~ holds_role uid profs roles.
Proof.
  intros Hall (p & u & r & Hin & -> & Hu & Hr & Hroles).
  rewrite forallb_forall in Hall. apply list_elem_of_In in Hin.
  specialize (Hall p Hin). rewrite Hu, Hr in Hall. simpl in Hall.
  by rewrite !bool_decide_eq_true_2 in Hall.
Qed.

Lemma managed_tables_write_policy_witness :
  exec (authenticated 102 3000 0)
    (update CLASSROOMS 1 (classrooms_set_capacity (Some 500))) sample_db
  = Done sample_db 0
  /\ exec (authenticated 102 3000 302)
       (insert_into TIMETABLE
          (timetable_values 12 202 2 "Friday" (o'clock 14) (o'clock 15)
             "Fall" "2025-2026")) sample_db
     = Rejected (insufficient_privilege "timetable")
  /\ reads_open CLASSROOMS (authenticated 102 3000 0) sample_db.
Proof.
  destruct (managed_tables_write_policy (authenticated 102 3000 0) sample_db)
    as (Hdenied & _ & Hread & _); [reflexivity|].
  destruct (managed_tables_write_policy (authenticated 102 3000 302) sample_db)
    as (Hdenied' & _); [reflexivity|].
  split_and!.
  - destruct Hdenied as ((_ & _ & Hupd & _) & _).
    { apply holds_role_refuted. vm_compute. reflexivity. }
    apply Hupd.
  - destruct Hdenied' as (_ & _ & _ & Hins & _).
    { apply holds_role_refuted. vm_compute. reflexivity. }
    apply Hins.
  - exact Hread.
Defined.

(** ** Policies of feedback *)

Lemma feedback_select_permits uid profs r :
  using_permits feedback_policies SELECT uid profs r = true
  <-> (exists u, uid = Some u /\ Feedback.user_id r = Some u)
      \/ holds_role uid profs [admin].
Proof.
  unfold using_permits, feedback_policies.
  cbn [existsb applies polcmd USING eval_qual].
  rewrite bool_decide_eq_true_2 by done.
  rewrite bool_decide_eq_false_2 by done.
  rewrite !andb_true_l, andb_false_l, orb_false_l, orb_false_r.
  rewrite orb_true_iff, exists_admin_true.
  apply or_iff_compat_r.
  destruct uid as [u|], (Feedback.user_id r) as [k|]; simpl;
    try case_bool_decide; split; try done;
    try (intros (u' & Hu & Hk); congruence).
  intros _. exists u. split; congruence.
Qed.

(** C6: the SELECT policies of feedback let a tuple through for a
    requesting identity exactly when the identity owns the tuple or owns a
    profile with role admin; so a SELECT returns to the owner and to an
    admin the tuple, and to any other identity it does not. *)
Theorem feedback_select_policy :
  forall (u : uuid) (now : timestamptz) (fresh : uuid) (s : db) (r : Feedback.row),
    (using_permits feedback_policies SELECT (Some u)
       (profiles_seen (Env (Some u) now fresh true) s) r = true
     <-> Feedback.user_id r = Some u \/ holds_role (Some u) (profiles s) [admin])
    /\ (r ∈ select_from feedback_t (Env (Some u) now fresh true) s
        <-> r ∈ feedback s
            /\ (Feedback.user_id r = Some u
                \/ holds_role (Some u) (profiles s) [admin])).
Proof.
  intros u now fresh s r.
  assert (Hiff : using_permits feedback_policies SELECT (Some u)
                   (profiles_seen (Env (Some u) now fresh true) s) r = true
                 <-> Feedback.user_id r = Some u
                     \/ holds_role (Some u) (profiles s) [admin]).
  { rewrite profiles_seen_all, feedback_select_permits.
    apply or_iff_compat_r. split.
    - by intros (u' & [= <-] & Hown).
    - intros Hown. by exists u. }
  split; [exact Hiff|].
  unfold select_from. cbn [row_security relpolicies heap feedback_t auth_uid].
  rewrite elem_of_list_filter. by rewrite Hiff.
Qed.

(** the owner sees the note, an admin sees it, a third identity does not;
    nor does a request without identity *)
Example feedback_visibility_sample :
  length (select_from feedback_t (authenticated 102 3000 0) sample_db) = 1%nat
  /\ length (select_from feedback_t (authenticated 101 3000 0) sample_db) = 1%nat
  /\ select_from feedback_t (authenticated 103 3000 0) sample_db = []
  /\ select_from feedback_t (Env None 3000 0 true) sample_db = [].
Proof. vm_compute. done. Qed.

(** ** Updates that go through *)

Lemma target_row_unrestricted {R} (T : table R) c e s target old :
  row_security e = false ->
  keys_ok T s -> old ∈ heap T s -> relid T old = Some target ->
  target_row T c e s target = Some old.
Proof.
  intros Hrls Hkeys Hin Hid. unfold target_row, keys_ok in *.
  apply list_elem_of_split in Hin as (l1 & l2 & Heq). rewrite Heq in *.
  rewrite map_app in Hkeys. simpl in Hkeys.
  apply NoDup_app in Hkeys as (_ & Hdisj & _).
  assert (Hskip : forall r, r ∈ l1 -> relid T r <> Some target).
  { intros r Hr Hrid. apply (Hdisj (relid T r)).
    - by apply (list_elem_of_fmap_2 (relid T)).
    - rewrite Hrid, <- Hid. left. }
  clear Hdisj Heq. induction l1 as [|r l1 IH]; simpl.
  - rewrite bool_decide_eq_true_2 by done. unfold visible. by rewrite Hrls.
  - rewrite bool_decide_eq_false_2; [|apply Hskip; left].
    simpl. apply IH. intros r' Hr'. apply Hskip. by right.
Qed.

Lemma exec_update_accepts {R} (T : table R) e target set s old :
  target_row T UPDATE e s target = Some old ->
  update_allowed T e s (before_update T e (set old)) = true ->
  row_ok T (before_update T e (set old)) ->
  first_violation
    (unique_constraints T (without (relid T) target (heap T s))
       (before_update T e (set old))) = None ->
  first_violation (foreign_keys T s (before_update T e (set old))) = None ->
  relid T (before_update T e (set old)) = Some target ->
  exec_update T e target set s
  = Done (store T
            (map (fun r => if bool_decide (relid T r = Some target)
                           then before_update T e (set old) else r)
               (heap T s)) s) 1.
Proof.
  intros Hold Hallowed Hrow Huq Hfk Hid. unfold exec_update. rewrite Hold.
  cbv zeta. rewrite Hallowed.
  replace (first_violation _) with (@None sql_error); [done|].
  symmetry. rewrite !first_violation_app.
  split_and!; try done. by rewrite bool_decide_eq_true_2.
Qed.

Lemma feedback_policies_write c uid profs r :
  c = UPDATE \/ c = DELETE ->
  using_permits feedback_policies c uid profs r = false
  /\ check_permits feedback_policies c uid profs r = false.
Proof.
  intros [-> | ->]; unfold using_permits, check_permits, feedback_policies;
    cbn [existsb applies polcmd]; by rewrite !bool_decide_eq_false_2.
Qed.

(** C1, as the code has it: feedback has no UPDATE and no DELETE policy,
    not even for the owner of a tuple.  Under row security an UPDATE or
    DELETE of feedback, by whatever identity, touches no tuple and leaves
    the state as it was.  Only a session exempt from row security updates
    feedback: there the tuple persists with the new message and with
    [updated_at] set to [NOW()]. *)
Theorem feedback_update_needs_exemption :
  (forall e s,
     row_security e = true ->
     (forall c r, c = UPDATE \/ c = DELETE ->
        using_permits feedback_policies c (auth_uid e) (profiles_seen e s) r = false
        /\ check_permits feedback_policies c (auth_uid e) (profiles_seen e s) r = false)
     /\ (forall target set, exec e (update FEEDBACK target set) s = Done s 0)
     /\ (forall target, exec e (delete_from FEEDBACK target) s = Done s 0))
  /\ (forall e s target old m,
        row_security e = false ->
        reachable s -> old ∈ feedback s -> Feedback.id old = Some target ->
        exists s',
          exec e (update FEEDBACK target (feedback_set_message (Some m))) s
          = Done s' 1
          /\ Feedback.Row (Feedback.id old) (Feedback.user_id old)
               (Feedback.title old) (Some m) (Feedback.status old)
               (Feedback.created_at old) (Some (NOW e)) ∈ feedback s'
          /\ length (feedback s') = length (feedback s)).
Proof.
  split.
  - intros e s Hrls. split_and!.
    + intros c r Hc. by apply feedback_policies_write.
    + intros target set. simpl. unfold exec_update.
      rewrite target_row_hidden; [done|]. intros r. unfold visible.
      rewrite Hrls. cbn [relpolicies feedback_t].
      rewrite (proj1 (feedback_policies_write UPDATE (auth_uid e)
                        (profiles_seen e s) r ltac:(by left))).
      apply andb_false_r.
    + intros target. simpl. unfold exec_delete.
      rewrite target_row_hidden; [done|]. intros r. unfold visible.
      rewrite Hrls. cbn [relpolicies feedback_t].
      rewrite (proj1 (feedback_policies_write DELETE (auth_uid e)
                        (profiles_seen e s) r ltac:(by right))).
      apply andb_false_r.
  - intros e s target old m Hrls Hs Hin Hid.
    pose proof (reachable_row_ok feedback_t s old schema_feedback Hs Hin) as Hrow.
    apply reachable_consistent in Hs.
    eexists. split; [|split].
    + simpl. apply (exec_update_accepts feedback_t e target _ s old).
      * apply target_row_unrestricted; try done. apply (feedback_pkey s Hs).
      * unfold update_allowed. by rewrite Hrls.
      * revert Hrow. unfold row_ok.
        cbn [row_constraints feedback_t before_update update_updated_at_column
             set_updated_at feedback_updated_at feedback_set_message
             Feedback.id Feedback.user_id Feedback.title Feedback.message
             Feedback.status].
        rewrite !first_violation_cons, !not_null_passes.
        intros (? & ? & ? & ? & ? & ?). split_and!; try done.
      * cbn [unique_constraints feedback_t heap relid].
        rewrite first_violation_cons, unique_on_passes. split; [|done].
        intros k Hk. cbn in Hk. rewrite Hid in Hk. injection Hk as <-.
        apply without_gone.
      * cbn [foreign_keys feedback_t].
        rewrite first_violation_cons, references_passes. split; [|done].
        intros k Hk. cbn in Hk. rewrite <- Hk.
        apply (refs_ok_elem Feedback.user_id (feedback s)); [|done|by rewrite Hk].
        apply (feedback_user_id_fkey s Hs).
      * cbn. exact Hid.
    + cbn [store feedback_t set_feedback feedback heap relid].
      apply list_elem_of_fmap. exists old. split; [|done].
      by rewrite bool_decide_eq_true_2.
    + cbn [store feedback_t set_feedback feedback heap relid].
      by rewrite length_map.
Qed.

Lemma feedback_update_needs_exemption_witness :
  exec (authenticated 102 3000 0)
    (update FEEDBACK 401 (feedback_set_message (Some "It is fixed"))) sample_db
  = Done sample_db 0
  /\ exists s',
       exec (owner 3000 0)
         (update FEEDBACK 401 (feedback_set_message (Some "It is fixed")))
         sample_db = Done s' 1
       /\ Feedback.Row (Some 401%N) (Some 102%N) (Some "Projector")
            (Some "It is fixed") (Some "pending") (Some 2600) (Some 3000)
          ∈ feedback s'.
Proof.
  destruct feedback_update_needs_exemption as (Hdenied & Hexempt).
  split.
  - destruct (Hdenied (authenticated 102 3000 0) sample_db) as (_ & Hupd & _);
      [reflexivity|]. apply Hupd.
  - destruct (Hexempt (owner 3000 0) sample_db 401%N
                (Feedback.Row (Some 401%N) (Some 102%N) (Some "Projector")
                   (Some "The lamp is dim") (Some "pending") (Some 2600)
                   (Some 2600)) "It is fixed")
      as (s' & Hex & Hin & _);
      [reflexivity|apply reachable_sample_db
      |apply list_elem_of_In; vm_compute; left; reflexivity|reflexivity|].
    exists s'. by split.
Defined.

(** C1 as stated fails: in the sample state identity 102 owns feedback
    401, yet no policy permits her UPDATE, which touches no tuple; the
    message stays what it was. *)
Lemma feedback_owner_update_denied :
  exists r,
    r ∈ feedback sample_db
    /\ Feedback.id r = Some 401%N
    /\ Feedback.user_id r = auth_uid (authenticated 102 3000 0)
    /\ using_permits feedback_policies UPDATE (Some 102%N)
         (profiles_seen (authenticated 102 3000 0) sample_db) r = false
    /\ exec (authenticated 102 3000 0)
         (update FEEDBACK 401 (feedback_set_message (Some "It is fixed")))
         sample_db = Done sample_db 0
    /\ Feedback.message r = Some "The lamp is dim".
Proof.
  exists (Feedback.Row (Some 401%N) (Some 102%N) (Some "Projector")
            (Some "The lamp is dim") (Some "pending") (Some 2600) (Some 2600)).
  split_and!; try reflexivity.
  apply list_elem_of_In. vm_compute. left. reflexivity.
Qed.

(** ** The timestamp trigger *)

Lemma before_update_stamps {R} (rel : relation R) e r :
  same_but_updated_at rel r (before_update (table_of rel) e r)
  /\ updated_at_of rel (before_update (table_of rel) e r) = Some (NOW e).
Proof. destruct rel; simpl; by split_and!. Qed.

(** C5, as the code has it: on every UPDATE of a tuple of profiles,
    classrooms, courses, timetable or feedback the trigger overwrites
    [updated_at], and nothing else, with [NOW()], the start time of the
    transaction: what is stored agrees with the submitted tuple on every
    other column and carries [updated_at = NOW()].  That is no less than
    the previous [updated_at] whenever the previous value was not later
    than [NOW()]. *)
Theorem on_row_updated_stamps_now :
  forall R (rel : relation R) e target set s s',
    exec e (update rel target set) s = Done s' 1 ->
    exists old new,
      old ∈ heap (table_of rel) s
      /\ relid (table_of rel) old = Some target
      /\ new ∈ heap (table_of rel) s'
      /\ same_but_updated_at rel (set old) new
      /\ updated_at_of rel new = Some (NOW e)
      /\ (forall t, updated_at_of rel old = Some t -> t <= NOW e ->
            exists t', updated_at_of rel new = Some t' /\ t <= t' /\ NOW e <= t').
Proof.
  intros R rel e target set s s' Hex. simpl in Hex.
  apply exec_update_Done in Hex
    as [(_ & _ & [=])|(old & Hold & _ & _ & _ & _ & _ & -> & _)].
  apply target_row_Some in Hold as (Hin & Hid & _).
  destruct (before_update_stamps rel e (set old)) as [Hsame Hnow].
  exists old, (before_update (table_of rel) e (set old)).
  split_and!; try done.
  - assert (Hnew : before_update (table_of rel) e (set old)
                   ∈ map (fun r => if bool_decide (relid (table_of rel) r = Some target)
                                   then before_update (table_of rel) e (set old)
                                   else r) (heap (table_of rel) s)).
    { apply list_elem_of_fmap. exists old. split; [|done].
      by rewrite bool_decide_eq_true_2. }
    by destruct rel.
  - intros t _ Hle. exists (NOW e). split_and!; [done|done|lia].
Qed.

Lemma on_row_updated_stamps_now_witness :
  exists old new,
    old ∈ heap (table_of PROFILES) sample_db
    /\ relid (table_of PROFILES) old = Some 202%N
    /\ new ∈ heap (table_of PROFILES)
              (run (authenticated 102 3000 0)
                 (update PROFILES 202 (profiles_set_role faculty)) sample_db)
    /\ same_but_updated_at PROFILES (profiles_set_role faculty old) new
    /\ updated_at_of PROFILES new = Some (NOW (authenticated 102 3000 0))
    /\ (forall t, updated_at_of PROFILES old = Some t ->
          t <= NOW (authenticated 102 3000 0) ->
          exists t', updated_at_of PROFILES new = Some t'
                     /\ t <= t' /\ NOW (authenticated 102 3000 0) <= t').
Proof.
  apply (on_row_updated_stamps_now _ PROFILES (authenticated 102 3000 0)
           202%N (profiles_set_role faculty) sample_db).
  vm_compute. reflexivity.
Defined.

(** C5 as stated fails: classroom 6 was inserted at time 2500 with an
    [updated_at] of 9999999 supplied by hand; an UPDATE at the later time
    3000 stamps it with 3000, which is below the previous value. *)
Lemma updated_at_can_decrease :
  exists old new,
    old ∈ classrooms sample_db
    /\ Classrooms.id old = Some 6%N
    /\ exec (authenticated 101 3000 0)
         (update CLASSROOMS 6 (classrooms_set_capacity (Some 12))) sample_db
       = Done (run (authenticated 101 3000 0)
                 (update CLASSROOMS 6 (classrooms_set_capacity (Some 12)))
                 sample_db) 1
    /\ new ∈ classrooms
              (run (authenticated 101 3000 0)
                 (update CLASSROOMS 6 (classrooms_set_capacity (Some 12)))
                 sample_db)
    /\ Classrooms.id new = Some 6%N
    /\ Classrooms.updated_at old = Some 9999999
    /\ Classrooms.updated_at new = Some 3000
    /\ ~ (9999999 <= 3000).
Proof.
  exists (Classrooms.Row (Some 6%N) (Some "Room Z999") (Some 10) None
            (Some "Annex") (Some true) None (Some 2500) (Some 9999999)),
         (Classrooms.Row (Some 6%N) (Some "Room Z999") (Some 12) None
            (Some "Annex") (Some true) None (Some 2500) (Some 3000)).
  split_and!.
  - apply list_elem_of_In. vm_compute. do 5 right. left. reflexivity.
  - reflexivity.
  - vm_compute. reflexivity.
  - apply list_elem_of_In. vm_compute. do 5 right. left. reflexivity.
  - reflexivity.
  - reflexivity.
  - reflexivity.
  - lia.
Qed.

(** ** Primary keys and NOT NULL columns *)

Lemma row_ok_id {R} (T : table R) r :
  schema_table R T -> row_ok T r -> is_Some (relid T r).
Proof.
  intros HT. unfold row_ok.
  destruct HT; cbn [row_constraints relid users_t profiles_t classrooms_t
                    courses_t timetable_t feedback_t];
    intros H; apply first_violation_cons in H as [H _];
    by apply not_null_passes in H.
Qed.

Lemma unique_constraints_pkey {R} (T : table R) others new r :
  schema_table R T ->
  r ∈ others -> is_Some (relid T r) -> relid T new = relid T r ->
  first_violation (unique_constraints T others new) <> None.
Proof.
  intros HT Hin Hsome Heq.
  destruct HT; cbn [unique_constraints relid users_t profiles_t classrooms_t
                    courses_t timetable_t feedback_t] in *;
    intros Hfv; apply first_violation_cons in Hfv as [Hfv _];
    revert Hfv; by eapply unique_on_taken.
Qed.

(** X1: the primary keys.  In every reachable state every tuple of the
    five tables has an [id] and no two tuples of a table share one; an
    INSERT whose [id] is already taken is rejected and changes nothing. *)
Theorem primary_keys_invariant :
  forall R (rel : relation R),
    (forall s r, reachable s -> r ∈ heap (table_of rel) s ->
       is_Some (relid (table_of rel) r))
    /\ (forall s key, reachable s ->
          (length (having (relid (table_of rel)) key (heap (table_of rel) s))
           <= 1)%nat)
    /\ (forall e s set r,
          r ∈ heap (table_of rel) s ->
          is_Some (relid (table_of rel) r) ->
          relid (table_of rel) (set (defaults (table_of rel) e))
          = relid (table_of rel) r ->
          (exists err, exec e (insert_into rel set) s = Rejected err)
          /\ run e (insert_into rel set) s = s).
Proof.
  intros R rel. split_and!.
  - intros s r Hs Hr. apply row_ok_id; [apply table_of_schema|].
    by apply (reachable_row_ok _ s); [apply table_of_schema|..].
  - intros s key Hs. apply having_at_most_one.
    apply (consistent_keys_ok (table_of rel) s); [apply table_of_schema|].
    by apply reachable_consistent.
  - intros e s set r Hin Hsome Heq.
    destruct (exec_insert_rejects_duplicate (table_of rel) e set s) as [err Herr].
    { by eapply unique_constraints_pkey; [apply table_of_schema|..]. }
    split; [by exists err|]. by eapply rejected_run.
Qed.

Lemma primary_keys_invariant_witness :
  (length (having (relid (table_of COURSES)) 11%N
             (heap (table_of COURSES) sample_db)) <= 1)%nat
  /\ run (owner 3000 11)
       (insert_into COURSES
          (courses_values "CS102" "Data Structures" "Computer Science" (Some 3)
             "Lists and trees")) sample_db
     = sample_db.
Proof.
  destruct (primary_keys_invariant _ COURSES) as (_ & Hkeys & Htaken).
  split.
  - apply Hkeys, reachable_sample_db.
  - apply (Htaken _ _ _
             (Courses.Row (Some 11%N) (Some "CS101")
                (Some "Introduction to Computer Science")
                (Some "Computer Science") (Some 3)
                (Some "Basic concepts of computer science and programming")
                (Some 1000) (Some 1000)));
      [apply list_elem_of_In; vm_compute; left; reflexivity
      |by eexists|reflexivity].
Defined.

Lemma profiles_row_ok_not_null r :
  row_ok profiles_t r ->
  is_Some (Profiles.user_id r) /\ is_Some (Profiles.name r)
  /\ is_Some (Profiles.email r) /\ is_Some (Profiles.role r).
Proof.
  unfold row_ok. cbn [row_constraints profiles_t].
  rewrite !first_violation_cons, !not_null_passes. tauto.
Qed.

Lemma classrooms_row_ok_not_null r :
  row_ok classrooms_t r ->
  is_Some (Classrooms.room_name r) /\ is_Some (Classrooms.capacity r)
  /\ is_Some (Classrooms.location r).
Proof.
  unfold row_ok. cbn [row_constraints classrooms_t].
  rewrite !first_violation_cons, !not_null_passes. tauto.
Qed.

Lemma courses_row_ok_not_null r :
  row_ok courses_t r ->
  is_Some (Courses.course_code r) /\ is_Some (Courses.course_name r)
  /\ is_Some (Courses.department r).
Proof.
  unfold row_ok. cbn [row_constraints courses_t].
  rewrite !first_violation_cons, !not_null_passes. tauto.
Qed.

Lemma timetable_row_ok_not_null r :
  row_ok timetable_t r ->
  is_Some (Timetable.course_id r) /\ is_Some (Timetable.faculty_id r)
  /\ is_Some (Timetable.room_id r) /\ is_Some (Timetable.day_of_week r)
  /\ is_Some (Timetable.start_time r) /\ is_Some (Timetable.end_time r)
  /\ is_Some (Timetable.semester r) /\ is_Some (Timetable.academic_year r).
Proof.
  unfold row_ok. cbn [row_constraints timetable_t].
  rewrite !first_violation_cons, !not_null_passes. tauto.
Qed.

Lemma feedback_row_ok_not_null r :
  row_ok feedback_t r ->
  is_Some (Feedback.user_id r) /\ is_Some (Feedback.title r)
  /\ is_Some (Feedback.message r).
Proof.
  unfold row_ok. cbn [row_constraints feedback_t].
  rewrite !first_violation_cons, !not_null_passes. tauto.
Qed.

(** X2: the NOT NULL columns.  In every reachable state no tuple holds
    NULL in a column declared NOT NULL: the owner, name, email and role of
    a profile; the name, capacity and location of a classroom; the code,
    name and department of a course; the three references, the day, the
    two times, the semester and the academic year of a timetable entry;
    the owner, title and message of a feedback note. *)
Theorem not_null_columns_invariant :
  forall s, reachable s ->
    (forall r, r ∈ profiles s ->
       is_Some (Profiles.user_id r) /\ is_Some (Profiles.name r)
       /\ is_Some (Profiles.email r) /\ is_Some (Profiles.role r))
    /\ (forall r, r ∈ classrooms s ->
          is_Some (Classrooms.room_name r) /\ is_Some (Classrooms.capacity r)
          /\ is_Some (Classrooms.location r))
    /\ (forall r, r ∈ courses s ->
          is_Some (Courses.course_code r) /\ is_Some (Courses.course_name r)
          /\ is_Some (Courses.department r))
    /\ (forall r, r ∈ timetable s ->
          is_Some (Timetable.course_id r) /\ is_Some (Timetable.faculty_id r)
          /\ is_Some (Timetable.room_id r) /\ is_Some (Timetable.day_of_week r)
          /\ is_Some (Timetable.start_time r) /\ is_Some (Timetable.end_time r)
          /\ is_Some (Timetable.semester r)
          /\ is_Some (Timetable.academic_year r))
    /\ (forall r, r ∈ feedback s ->
          is_Some (Feedback.user_id r) /\ is_Some (Feedback.title r)
          /\ is_Some (Feedback.message r)).
Proof.
  intros s Hs. split_and!; intros r Hr.
  - apply profiles_row_ok_not_null.
    by apply (reachable_row_ok profiles_t s); [constructor|..].
  - apply classrooms_row_ok_not_null.
    by apply (reachable_row_ok classrooms_t s); [constructor|..].
  - apply courses_row_ok_not_null.
    by apply (reachable_row_ok courses_t s); [constructor|..].
  - apply timetable_row_ok_not_null.
    by apply (reachable_row_ok timetable_t s); [constructor|..].
  - apply feedback_row_ok_not_null.
    by apply (reachable_row_ok feedback_t s); [constructor|..].
Qed.

Lemma not_null_columns_invariant_witness :
  is_Some (Some 102%N) /\ is_Some (Some "kim@example.edu")
  /\ is_Some (Some "kim@example.edu") /\ is_Some (Some student).
Proof.
  apply (proj1 (not_null_columns_invariant sample_db reachable_sample_db)
           (Profiles.Row (Some 202%N) (Some 102%N) (Some "kim@example.edu")
              (Some "kim@example.edu") (Some student) None None
              (Some 2100) (Some 2100))).
  apply list_elem_of_In. vm_compute. right. left. reflexivity.
Defined.

(** ** The closed lists: day of the week and feedback status *)

Lemma timetable_row_ok_day r :
  row_ok timetable_t r ->
  exists d, Timetable.day_of_week r = Some d /\ d ∈ week_days.
Proof.
  unfold row_ok. cbn [row_constraints timetable_t].
  rewrite !first_violation_cons, !not_null_passes, !check_passes.
  intros (_ & _ & _ & _ & [d Hd] & _ & _ & _ & _ & Hday & _).
  exists d. split; [done|]. rewrite Hd in Hday. simpl in Hday.
  destruct (decide (d ∈ week_days)) as [|Hno]; [done|].
  destruct Hday. f_equal. by apply bool_decide_eq_false.
Qed.

Lemma feedback_row_ok_status r st :
  row_ok feedback_t r -> Feedback.status r = Some st -> st ∈ feedback_statuses.
Proof.
  unfold row_ok. cbn [row_constraints feedback_t].
  rewrite !first_violation_cons, !not_null_passes, !check_passes.
  intros (_ & _ & _ & _ & Hst & _) Heq. rewrite Heq in Hst. simpl in Hst.
  destruct (decide (st ∈ feedback_statuses)) as [|Hno]; [done|].
  destruct Hst. f_equal. by apply bool_decide_eq_false.
Qed.

(** X3: [day_of_week].  In every reachable state the day of every
    timetable entry is one of the seven day names; an INSERT or UPDATE
    whose new tuple names anything else is rejected and changes nothing. *)
Theorem day_of_week_invariant :
  (forall s t, reachable s -> t ∈ timetable s ->
     exists d, Timetable.day_of_week t = Some d /\ d ∈ week_days)
  /\ (forall e s set d,
        Timetable.day_of_week (set (defaults timetable_t e)) = Some d ->
        d ∉ week_days ->
        (exists err, exec e (insert_into TIMETABLE set) s = Rejected err)
        /\ run e (insert_into TIMETABLE set) s = s)
  /\ (forall e s target set old d,
        target_row timetable_t UPDATE e s target = Some old ->
        Timetable.day_of_week (set old) = Some d ->
        d ∉ week_days ->
        (exists err, exec e (update TIMETABLE target set) s = Rejected err)
        /\ run e (update TIMETABLE target set) s = s).
Proof.
  split_and!.
  - intros s t Hs Ht. apply timetable_row_ok_day.
    by apply (reachable_row_ok timetable_t s); [constructor|..].
  - intros e s set d Hd Hno. apply (rejected_when_row_bad_insert TIMETABLE).
    intros (d' & Hd' & Hin)%timetable_row_ok_day.
    change (Timetable.day_of_week (set (defaults timetable_t e)) = Some d') in Hd'.
    rewrite Hd in Hd'. by injection Hd' as <-.
  - intros e s target set old d Hold Hd Hno.
    apply (rejected_when_row_bad_update TIMETABLE _ _ _ _ old); [done|].
    intros (d' & Hd' & Hin)%timetable_row_ok_day.
    change (Timetable.day_of_week (set old) = Some d') in Hd'.
    rewrite Hd in Hd'. by injection Hd' as <-.
Qed.

Lemma day_of_week_invariant_witness :
  (exists d, Some "Monday" = Some d /\ d ∈ week_days)
  /\ run (authenticated 101 3000 302)
       (insert_into TIMETABLE
          (timetable_values 11 201 1 "Mon" (o'clock 9) (o'clock 10)
             "Fall" "2025-2026")) sample_db
     = sample_db.
Proof.
  destruct day_of_week_invariant as (Hinv & Hins & _).
  split.
  - apply (Hinv sample_db
             (Timetable.Row (Some 301%N) (Some 11%N) (Some 201%N) (Some 1%N)
                (Some "Monday") (Some (o'clock 9)) (Some (o'clock 10))
                (Some "Fall") (Some "2025-2026") (Some 2300) (Some 2300))).
    + apply reachable_sample_db.
    + apply list_elem_of_In. vm_compute. left. reflexivity.
  - apply (Hins _ _ _ "Mon"); [reflexivity|by_computation].
Defined.

(** X4: [status].  In every reachable state the status of a feedback
    note is NULL or one of 'pending', 'reviewed', 'resolved'; an INSERT or
    UPDATE whose new tuple carries any other status is rejected and changes
    nothing. *)
Theorem feedback_status_invariant :
  (forall s f st, reachable s -> f ∈ feedback s ->
     Feedback.status f = Some st -> st ∈ feedback_statuses)
  /\ (forall e s set st,
        Feedback.status (set (defaults feedback_t e)) = Some st ->
        st ∉ feedback_statuses ->
        (exists err, exec e (insert_into FEEDBACK set) s = Rejected err)
        /\ run e (insert_into FEEDBACK set) s = s)
  /\ (forall e s target set old st,
        target_row feedback_t UPDATE e s target = Some old ->
        Feedback.status (set old) = Some st ->
        st ∉ feedback_statuses ->
        (exists err, exec e (update FEEDBACK target set) s = Rejected err)
        /\ run e (update FEEDBACK target set) s = s).
Proof.
  split_and!.
  - intros s f st Hs Hf. apply feedback_row_ok_status.
    by apply (reachable_row_ok feedback_t s); [constructor|..].
  - intros e s set st Hst Hno. apply (rejected_when_row_bad_insert FEEDBACK).
    intros Hok. apply Hno. by apply (feedback_row_ok_status _ st Hok).
  - intros e s target set old st Hold Hst Hno.
    apply (rejected_when_row_bad_update FEEDBACK _ _ _ _ old); [done|].
    intros Hok. apply Hno. by apply (feedback_row_ok_status _ st Hok).
Qed.

Lemma feedback_status_invariant_witness :
  "pending" ∈ feedback_statuses
  /\ run (owner 3000 0) (update FEEDBACK 401 (feedback_set_status (Some "closed")))
       sample_db
     = sample_db.
Proof.
  destruct feedback_status_invariant as (Hinv & _ & Hupd).
  split.
  - apply (Hinv sample_db
             (Feedback.Row (Some 401%N) (Some 102%N) (Some "Projector")
                (Some "The lamp is dim") (Some "pending") (Some 2600)
                (Some 2600)));
      [apply reachable_sample_db
      |apply list_elem_of_In; vm_compute; left; reflexivity|reflexivity].
  - eapply (Hupd _ _ _ _ _ "closed"); [vm_compute; reflexivity|reflexivity|].
    by_computation.
Defined.

(** ** Foreign keys: what a reference must point to *)

Lemma references_fails constraint v keys k :
  v = Some k -> Some k ∉ keys -> references constraint v keys <> None.
Proof.
  intros -> Hno Hpass. apply Hno.
  by apply (proj1 (references_passes constraint (Some k) keys) Hpass).
Qed.

Lemma exec_insert_rejects_reference {R} (T : table R) e set s :
  first_violation (foreign_keys T s (set (defaults T e))) <> None ->
  exists err, exec_insert T e set s = Rejected err.
Proof.
  intros Hbad. unfold exec_insert. cbv zeta.
  destruct (insert_allowed _ _ _ _); [|by eexists].
  destruct (first_violation (_ ++ _)) as [err|] eqn:Hfv; [by eexists|].
  apply first_violation_app in Hfv as [_ Hfv].
  apply first_violation_app in Hfv as [_ Hfk]. by destruct Hbad.
Qed.

Lemma exec_update_rejects_reference {R} (T : table R) e target set s old :
  target_row T UPDATE e s target = Some old ->
  first_violation (foreign_keys T s (before_update T e (set old))) <> None ->
  exists err, exec_update T e target set s = Rejected err.
Proof.
  intros Hold Hbad. unfold exec_update. rewrite Hold. cbv zeta.
  destruct (update_allowed _ _ _ _); [|by eexists].
  destruct (first_violation (_ ++ _)) as [err|] eqn:Hfv; [by eexists|].
  apply first_violation_app in Hfv as [_ Hfv].
  apply first_violation_app in Hfv as [_ Hfv].
  apply first_violation_app in Hfv as [Hfk _]. by destruct Hbad.
Qed.

Lemma timetable_foreign_keys_fail s r :
  (exists k, Timetable.course_id r = Some k
             /\ Some k ∉ map Courses.id (courses s))
  \/ (exists k, Timetable.faculty_id r = Some k
                /\ Some k ∉ map Profiles.id (profiles s))
  \/ (exists k, Timetable.room_id r = Some k
                /\ Some k ∉ map Classrooms.id (classrooms s)) ->
  first_violation (foreign_keys timetable_t s r) <> None.
Proof.
  cbn [foreign_keys timetable_t]. rewrite !first_violation_cons.
  intros [(k & Hk & Hno)|[(k & Hk & Hno)|(k & Hk & Hno)]] (H1 & H2 & H3 & _).
  - by apply (references_fails _ _ _ k Hk Hno) in H1.
  - by apply (references_fails _ _ _ k Hk Hno) in H2.
  - by apply (references_fails _ _ _ k Hk Hno) in H3.
Qed.

(** X5: the references of a timetable entry are checked when it is
    written.  An INSERT or UPDATE whose new tuple names a course, a faculty
    profile or a classroom that does not exist is rejected and changes
    nothing. *)
Theorem timetable_references_enforced :
  (forall e s set,
     (exists k, Timetable.course_id (set (defaults timetable_t e)) = Some k
                /\ Some k ∉ map Courses.id (courses s))
     \/ (exists k, Timetable.faculty_id (set (defaults timetable_t e)) = Some k
                   /\ Some k ∉ map Profiles.id (profiles s))
     \/ (exists k, Timetable.room_id (set (defaults timetable_t e)) = Some k
                   /\ Some k ∉ map Classrooms.id (classrooms s)) ->
     (exists err, exec e (insert_into TIMETABLE set) s = Rejected err)
     /\ run e (insert_into TIMETABLE set) s = s)
  /\ (forall e s target set old,
        target_row timetable_t UPDATE e s target = Some old ->
        (exists k, Timetable.course_id (set old) = Some k
                   /\ Some k ∉ map Courses.id (courses s))
        \/ (exists k, Timetable.faculty_id (set old) = Some k
                      /\ Some k ∉ map Profiles.id (profiles s))
        \/ (exists k, Timetable.room_id (set old) = Some k
                      /\ Some k ∉ map Classrooms.id (classrooms s)) ->
        (exists err, exec e (update TIMETABLE target set) s = Rejected err)
        /\ run e (update TIMETABLE target set) s = s).
Proof.
  split.
  - intros e s set Hbad.
    destruct (exec_insert_rejects_reference timetable_t e set s) as [err Herr].
    { by apply timetable_foreign_keys_fail. }
    split; [by exists err|]. by eapply rejected_run.
  - intros e s target set old Hold Hbad.
    destruct (exec_update_rejects_reference timetable_t e target set s old Hold)
      as [err Herr].
    { by apply timetable_foreign_keys_fail. }
    split; [by exists err|]. by eapply rejected_run.
Qed.

Lemma timetable_references_enforced_witness :
  run (authenticated 101 3000 302)
    (insert_into TIMETABLE
       (timetable_values 99 201 1 "Tuesday" (o'clock 9) (o'clock 10)
          "Fall" "2025-2026")) sample_db
  = sample_db.
Proof.
  apply (proj1 timetable_references_enforced).
  left. exists 99%N. split; [reflexivity|by_computation].
Defined.

(** ** Identities and what belongs to them *)

(** X6: profiles and feedback notes belong to identities.  In every
    reachable state the owner of every profile and of every feedback note
    is an existing identity; an INSERT of a profile or a note for an
    identity that does not exist is rejected; and deleting an identity
    deletes, in the same statement, its profile and its notes and nothing
    else of profiles, feedback, classrooms and courses. *)
Theorem identity_ownership :
  (forall s, reachable s ->
     (forall p, p ∈ profiles s -> Profiles.user_id p ∈ map Users.id (users s))
     /\ (forall f, f ∈ feedback s -> Feedback.user_id f ∈ map Users.id (users s)))
  /\ (forall e s set k,
        Profiles.user_id (set (defaults profiles_t e)) = Some k ->
        Some k ∉ map Users.id (users s) ->
        (exists err, exec e (insert_into PROFILES set) s = Rejected err)
        /\ run e (insert_into PROFILES set) s = s)
  /\ (forall e s set k,
        Feedback.user_id (set (defaults feedback_t e)) = Some k ->
        Some k ∉ map Users.id (users s) ->
        (exists err, exec e (insert_into FEEDBACK set) s = Rejected err)
        /\ run e (insert_into FEEDBACK set) s = s)
  /\ (forall e s target old,
        target_row users_t DELETE (security_definer e) s target = Some old ->
        exists s',
          exec e (delete_identity target) s = Done s' 1
          /\ users s' = without Users.id target (users s)
          /\ profiles s' = without Profiles.user_id target (profiles s)
          /\ feedback s' = without Feedback.user_id target (feedback s)
          /\ classrooms s' = classrooms s
          /\ courses s' = courses s
          /\ (Some target ∉ map Users.id (users s'))
          /\ (Some target ∉ map Profiles.user_id (profiles s'))
          /\ (Some target ∉ map Feedback.user_id (feedback s'))).
Proof.
  split_and!.
  - intros s Hs. pose proof (reachable_consistent s Hs) as Hc. split.
    + intros p Hp.
      apply (refs_ok_elem Profiles.user_id (profiles s)); [|done|].
      * apply (profiles_user_id_fkey s Hc).
      * apply profiles_row_ok_not_null.
        by apply (reachable_row_ok profiles_t s); [constructor|..].
    + intros f Hf.
      apply (refs_ok_elem Feedback.user_id (feedback s)); [|done|].
      * apply (feedback_user_id_fkey s Hc).
      * apply feedback_row_ok_not_null.
        by apply (reachable_row_ok feedback_t s); [constructor|..].
  - intros e s set k Hk Hno.
    destruct (exec_insert_rejects_reference profiles_t e set s) as [err Herr].
    { cbn [foreign_keys profiles_t]. rewrite first_violation_cons.
      intros [Hpass _]. by apply (references_fails _ _ _ k Hk Hno) in Hpass. }
    split; [by exists err|]. by eapply rejected_run.
  - intros e s set k Hk Hno.
    destruct (exec_insert_rejects_reference feedback_t e set s) as [err Herr].
    { cbn [foreign_keys feedback_t]. rewrite first_violation_cons.
      intros [Hpass _]. by apply (references_fails _ _ _ k Hk Hno) in Hpass. }
    split; [by exists err|]. by eapply rejected_run.
  - intros e s target old Hold. eexists. split.
    { simpl. by apply (exec_delete_found users_t _ target s old). }
    cbn [on_delete store heap relid users_t set_users]. unfold users_on_delete.
    cbn [users profiles classrooms courses feedback set_users].
    split_and!; try done; apply without_gone.
Qed.

Lemma identity_ownership_witness :
  Some 102%N ∈ map Users.id (users sample_db)
  /\ (exists s',
        exec (Env None 3000 0 true) (delete_identity 102) sample_db = Done s' 1
        /\ feedback s' = []
        /\ length (profiles s') = 1%nat).
Proof.
  destruct identity_ownership as (Hinv & _ & _ & Hdel).
  split.
  - apply (proj1 (Hinv sample_db reachable_sample_db)
             (Profiles.Row (Some 202%N) (Some 102%N) (Some "kim@example.edu")
                (Some "kim@example.edu") (Some student) None None
                (Some 2100) (Some 2100))).
    apply list_elem_of_In. vm_compute. right. left. reflexivity.
  - destruct (Hdel (Env None 3000 0%N true) sample_db 102%N kim)
      as (s' & Hex & _ & Hp & Hf & _); [vm_compute; reflexivity|].
    exists s'. split; [exact Hex|]. rewrite Hp, Hf. clear.
    vm_compute. split; reflexivity.
Defined.

(** ** Keys that are referred to cannot change *)

Lemma exec_update_rejects_referenced {R} (T : table R) e target set s old :
  target_row T UPDATE e s target = Some old ->
  relid T (before_update T e (set old)) <> Some target ->
  first_violation (referenced T s target) <> None ->
  exists err, exec_update T e target set s = Rejected err.
Proof.
  intros Hold Hid Hbad. unfold exec_update. rewrite Hold. cbv zeta.
  destruct (update_allowed _ _ _ _); [|by eexists].
  destruct (first_violation (_ ++ _)) as [err|] eqn:Hfv; [by eexists|].
  apply first_violation_app in Hfv as [_ Hfv].
  apply first_violation_app in Hfv as [_ Hfv].
  apply first_violation_app in Hfv as [_ Href].
  rewrite bool_decide_eq_false_2 in Href by done. by destruct Hbad.
Qed.

Lemma still_referenced_fails constraint key refs :
  Some key ∈ refs -> still_referenced constraint key refs <> None.
Proof. intros Hin Hpass. by apply still_referenced_passes in Hpass. Qed.

(** X7: the references to a table are declared without ON UPDATE, that
    is NO ACTION.  An UPDATE that changes the [id] of a course, a profile
    or a classroom to which a timetable entry refers is rejected and
    changes nothing. *)
Theorem referenced_keys_are_fixed :
  (forall e s target set old,
     target_row courses_t UPDATE e s target = Some old ->
     Courses.id (set old) <> Some target ->
     Some target ∈ map Timetable.course_id (timetable s) ->
     (exists err, exec e (update COURSES target set) s = Rejected err)
     /\ run e (update COURSES target set) s = s)
  /\ (forall e s target set old,
        target_row profiles_t UPDATE e s target = Some old ->
        Profiles.id (set old) <> Some target ->
        Some target ∈ map Timetable.faculty_id (timetable s) ->
        (exists err, exec e (update PROFILES target set) s = Rejected err)
        /\ run e (update PROFILES target set) s = s)
  /\ (forall e s target set old,
        target_row classrooms_t UPDATE e s target = Some old ->
        Classrooms.id (set old) <> Some target ->
        Some target ∈ map Timetable.room_id (timetable s) ->
        (exists err, exec e (update CLASSROOMS target set) s = Rejected err)
        /\ run e (update CLASSROOMS target set) s = s).
Proof.
  split_and!.
  - intros e s target set old Hold Hid Href.
    destruct (exec_update_rejects_referenced courses_t e target set s old Hold)
      as [err Herr]; [exact Hid| |].
    { cbn [referenced courses_t]. rewrite first_violation_cons.
      intros [Hpass _]. by apply still_referenced_fails in Hpass. }
    split; [by exists err|]. by eapply rejected_run.
  - intros e s target set old Hold Hid Href.
    destruct (exec_update_rejects_referenced profiles_t e target set s old Hold)
      as [err Herr]; [exact Hid| |].
    { cbn [referenced profiles_t]. rewrite first_violation_cons.
      intros [Hpass _]. by apply still_referenced_fails in Hpass. }
    split; [by exists err|]. by eapply rejected_run.
  - intros e s target set old Hold Hid Href.
    destruct (exec_update_rejects_referenced classrooms_t e target set s old Hold)
      as [err Herr]; [exact Hid| |].
    { cbn [referenced classrooms_t]. rewrite first_violation_cons.
      intros [Hpass _]. by apply still_referenced_fails in Hpass. }
    split; [by exists err|]. by eapply rejected_run.
Qed.

Lemma referenced_keys_are_fixed_witness :
  run (authenticated 101 3000 0) (update COURSES 11 (courses_set_id (Some 77%N)))
    sample_db
  = sample_db.
Proof.
  apply (proj1 referenced_keys_are_fixed _ _ _ _
           (Courses.Row (Some 11%N) (Some "CS101")
              (Some "Introduction to Computer Science")
              (Some "Computer Science") (Some 3)
              (Some "Basic concepts of computer science and programming")
              (Some 1000) (Some 1000))).
  - vm_compute. reflexivity.
  - discriminate.
  - by_computation.
Defined.

(** ** Policies of profiles *)

Lemma sql_eq_owner_true uid owner :
  is_true (sql_eq uid owner) = true <-> owns uid owner.
Proof.
  unfold owns. destruct uid as [u|], owner as [k|]; simpl;
    try case_bool_decide; split; try done;
    try (intros (u' & Hu & Hk); congruence).
  intros _. exists u. split; congruence.
Qed.

Lemma profiles_policies_permit uid profs r :
  using_permits profiles_policies SELECT uid profs r = true
  /\ (using_permits profiles_policies UPDATE uid profs r = true
      <-> owns uid (Profiles.user_id r))
  /\ (check_permits profiles_policies UPDATE uid profs r = true
      <-> owns uid (Profiles.user_id r))
  /\ (check_permits profiles_policies INSERT uid profs r = true
      <-> owns uid (Profiles.user_id r))
  /\ using_permits profiles_policies DELETE uid profs r = false.
Proof.
  unfold using_permits, check_permits, profiles_policies.
  cbn [existsb applies polcmd USING WITH_CHECK qual_for_wco eval_qual].
  rewrite !bool_decide_eq_true_2 by done.
  rewrite !bool_decide_eq_false_2 by done.
  rewrite ?andb_true_l, ?andb_false_l, ?orb_false_l, ?orb_false_r.
  split_and!; try done; apply sql_eq_owner_true.
Qed.

Lemma target_row_none {R} (T : table R) c e s target :
  (forall r, r ∈ heap T s -> relid T r = Some target -> visible T c e s r = false) ->
  target_row T c e s target = None.
Proof.
  unfold target_row. induction (heap T s) as [|r l IH]; [done|].
  intros Hhidden. simpl.
  destruct (bool_decide (relid T r = Some target)) eqn:Hid.
  - apply bool_decide_eq_true in Hid.
    rewrite (Hhidden r); [|left|done]. simpl. apply IH.
    intros r' Hr'. apply Hhidden. by right.
  - simpl. apply IH. intros r' Hr'. apply Hhidden. by right.
Qed.

Lemma target_row_found {R} (T : table R) c e s target old :
  keys_ok T s -> old ∈ heap T s -> relid T old = Some target ->
  visible T c e s old = true ->
  target_row T c e s target = Some old.
Proof.
  intros Hkeys Hin Hid Hvis. unfold target_row, keys_ok in *.
  apply list_elem_of_split in Hin as (l1 & l2 & Heq). rewrite Heq in *.
  rewrite map_app in Hkeys. simpl in Hkeys.
  apply NoDup_app in Hkeys as (_ & Hdisj & _).
  assert (Hskip : forall r, r ∈ l1 -> relid T r <> Some target).
  { intros r Hr Hrid. apply (Hdisj (relid T r)).
    - by apply (list_elem_of_fmap_2 (relid T)).
    - rewrite Hrid, <- Hid. left. }
  clear Hdisj Heq. induction l1 as [|r l1 IH]; simpl.
  - rewrite bool_decide_eq_true_2 by done. by rewrite Hvis.
  - rewrite bool_decide_eq_false_2; [|apply Hskip; left].
    simpl. apply IH. intros r' Hr'. apply Hskip. by right.
Qed.

(** X8: the policies of profiles.  Under row security every session,
    signed in or not, reads the whole table; nobody deletes a profile; an
    UPDATE touches nothing unless the requesting identity owns the profile;
    an INSERT is rejected unless the new profile names the requesting
    identity as its owner; and the owner's UPDATE is rejected when it would
    hand the profile to another identity. *)
Theorem profiles_policy :
  forall e s,
    row_security e = true ->
    select_from profiles_t e s = profiles s
    /\ (forall target, exec e (delete_from PROFILES target) s = Done s 0)
    /\ (forall target set,
          (forall p, p ∈ profiles s -> Profiles.id p = Some target ->
             ~ owns (auth_uid e) (Profiles.user_id p)) ->
          exec e (update PROFILES target set) s = Done s 0)
    /\ (forall set,
          ~ owns (auth_uid e) (Profiles.user_id (set (defaults profiles_t e))) ->
          exec e (insert_into PROFILES set) s
          = Rejected (insufficient_privilege "profiles"))
    /\ (forall target set old,
          target_row profiles_t UPDATE e s target = Some old ->
          ~ owns (auth_uid e) (Profiles.user_id (set old)) ->
          exec e (update PROFILES target set) s
          = Rejected (insufficient_privilege "profiles")).
Proof.
  intros e s Hrls. split_and!.
  - apply select_all_permitted. intros r.
    apply (profiles_policies_permit (auth_uid e) (profiles_seen e s) r).
  - intros target. simpl. unfold exec_delete.
    rewrite target_row_hidden; [done|]. intros r. unfold visible.
    rewrite Hrls. cbn [relpolicies profiles_t].
    destruct (profiles_policies_permit (auth_uid e) (profiles_seen e s) r)
      as (_ & _ & _ & _ & ->).
    apply andb_false_r.
  - intros target set Hothers. simpl. unfold exec_update.
    rewrite target_row_none; [done|]. intros r Hr Hid. unfold visible.
    rewrite Hrls. cbn [relpolicies profiles_t negb orb].
    destruct (profiles_policies_permit (auth_uid e) (profiles_seen e s) r)
      as (_ & Hupd & _).
    rewrite (not_true_is_false_iff _ _ Hupd); [apply andb_false_r|].
    by apply Hothers.
  - intros set Hother. simpl. unfold exec_insert, insert_allowed. cbv zeta.
    rewrite Hrls. cbn [relpolicies profiles_t relname negb orb].
    destruct (profiles_policies_permit (auth_uid e) (profiles_seen e s)
                (set (defaults profiles_t e))) as (_ & _ & _ & Hins & _).
    by rewrite (not_true_is_false_iff _ _ Hins).
  - intros target set old Hold Hother. simpl. unfold exec_update.
    rewrite Hold. cbv zeta. unfold update_allowed.
    rewrite Hrls. cbn [relpolicies profiles_t relname negb orb before_update].
    destruct (profiles_policies_permit (auth_uid e) (profiles_seen e s)
                (update_updated_at_column e (set old))) as (_ & _ & Hchk & _).
    by rewrite (not_true_is_false_iff _ _ Hchk).
Qed.

Lemma profiles_policy_witness :
  exec (authenticated 101 3000 0) (update PROFILES 202 (profiles_set_role faculty))
    sample_db
  = Done sample_db 0
  /\ exec (authenticated 102 3000 0)
       (update PROFILES 202 (profiles_set_user_id (Some 101%N))) sample_db
     = Rejected (insufficient_privilege "profiles").
Proof.
  split.
  - destruct (profiles_policy (authenticated 101 3000 0) sample_db eq_refl)
      as (_ & _ & Hupd & _).
    apply Hupd. intros p Hp Hid (u & Hu & Hk).
    apply list_elem_of_In in Hp. vm_compute in Hp.
    destruct Hp as [<-|[<-|[]]]; [discriminate Hid|].
    cbn in Hu, Hk. congruence.
  - destruct (profiles_policy (authenticated 102 3000 0) sample_db eq_refl)
      as (_ & _ & _ & _ & Hover).
    apply (Hover 202%N _
             (Profiles.Row (Some 202%N) (Some 102%N) (Some "kim@example.edu")
                (Some "kim@example.edu") (Some student) None None
                (Some 2100) (Some 2100))).
    + vm_compute. reflexivity.
    + intros (u & Hu & Hk). cbn in Hu, Hk. congruence.
Defined.

(** ** What the owner of a profile may change *)

Lemma NoDup_map_split_fresh {A B} (f : A -> B) l1 l2 x :
  NoDup (map f (l1 ++ x :: l2)) -> f x ∉ map f (l1 ++ l2).
Proof.
  rewrite !map_app. simpl. rewrite NoDup_app, NoDup_cons, elem_of_app.
  intros (_ & Hdisj & Hx & _) [Hin|Hin]; [|done].
  apply (Hdisj _ Hin). left.
Qed.

(** X9: the update policy of profiles looks at the owner only, not at
    the columns.  In every reachable state the identity that owns a profile
    can, under row security, set the role of that profile to any role,
    admin included; the update goes through, and from then on the identity
    holds that role, so that as admin it passes the write policy of
    classrooms. *)
Theorem profile_owner_sets_own_role :
  forall s u now fresh p k role,
    reachable s ->
    p ∈ profiles s -> Profiles.id p = Some k -> Profiles.user_id p = Some u ->
    exists s',
      exec (authenticated u now fresh) (update PROFILES k (profiles_set_role role)) s
      = Done s' 1
      /\ holds_role (Some u) (profiles s') [role]
      /\ (role = admin ->
          forall now' fresh' new,
            insert_allowed classrooms_t (authenticated u now' fresh') s' new = true).
Proof.
  intros s u now fresh p k role Hs Hp Hid Hown.
  pose proof (reachable_row_ok profiles_t s p schema_profiles Hs Hp) as Hrow.
  apply reachable_consistent in Hs.
  assert (Hperm : forall r, Profiles.user_id r = Some u ->
            using_permits profiles_policies SELECT (Some u)
              (profiles_seen (authenticated u now fresh) s) r = true
            /\ using_permits profiles_policies UPDATE (Some u)
                 (profiles_seen (authenticated u now fresh) s) r = true
            /\ check_permits profiles_policies UPDATE (Some u)
                 (profiles_seen (authenticated u now fresh) s) r = true).
  { intros r Hr.
    destruct (profiles_policies_permit (Some u)
                (profiles_seen (authenticated u now fresh) s) r)
      as (Hsel & Hupd & Hchk & _).
    split_and!; [done|apply Hupd|apply Hchk]; by exists u. }
  destruct (split_at_key Profiles.id k (profiles s) p
              (update_updated_at_column (authenticated u now fresh)
                 (profiles_set_role role p)))
    as (l1 & l2 & Heq & Hwo & Hmap); [apply (profiles_pkey s Hs)|done|done|].
  eexists. split; [|split].
  - simpl. apply (exec_update_accepts profiles_t _ k _ s p).
    + apply target_row_found; [apply (profiles_pkey s Hs)|done|done|].
      unfold visible. cbn [row_security authenticated relpolicies profiles_t
                           auth_uid negb orb].
      destruct (Hperm p Hown) as (-> & -> & _). done.
    + unfold update_allowed.
      cbn [row_security authenticated relpolicies profiles_t auth_uid negb orb].
      destruct (Hperm (before_update profiles_t (authenticated u now fresh)
                         (profiles_set_role role p)) Hown) as (-> & _ & ->).
      done.
    + revert Hrow. unfold row_ok.
      cbn [row_constraints profiles_t before_update update_updated_at_column
           set_updated_at profiles_updated_at profiles_set_role
           Profiles.id Profiles.user_id Profiles.name Profiles.email
           Profiles.role].
      rewrite !first_violation_cons, !not_null_passes.
      intros (? & ? & ? & ? & ? & ?). split_and!; try done.
    + cbn [unique_constraints profiles_t heap relid]. rewrite Hwo.
      rewrite !first_violation_cons, !unique_on_passes.
      split_and!; [| |done].
      * intros k' Hk'. cbn in Hk'. rewrite <- Hk', <- Hwo, Hid.
        apply without_gone.
      * intros k' Hk'. cbn in Hk'. rewrite <- Hk'.
        apply (NoDup_map_split_fresh Profiles.user_id l1 l2 p).
        rewrite <- Heq. apply (profiles_user_id_key s Hs).
    + cbn [foreign_keys profiles_t].
      rewrite first_violation_cons, references_passes. split; [|done].
      intros k' Hk'. cbn in Hk'. rewrite <- Hk'.
      apply (refs_ok_elem Profiles.user_id (profiles s)); [|done|by rewrite Hown].
      apply (profiles_user_id_fkey s Hs).
    + cbn. exact Hid.
  - cbn [store profiles_t set_profiles profiles heap relid].
    exists (update_updated_at_column (authenticated u now fresh)
              (profiles_set_role role p)), u, role.
    split_and!; try done; [|left].
    apply list_elem_of_fmap. exists p. split; [|done].
    by rewrite bool_decide_eq_true_2.
  - intros -> now' fresh' new. unfold insert_allowed.
    cbn [row_security authenticated negb orb relpolicies classrooms_t auth_uid].
    rewrite profiles_seen_all.
    apply (proj2 (classrooms_policies_write INSERT (Some u) _ new ltac:(done))).
    cbn [store profiles_t set_profiles profiles heap relid].
    exists (update_updated_at_column (authenticated u now fresh)
              (profiles_set_role admin p)), u, admin.
    split_and!; try done; [|left].
    apply list_elem_of_fmap. exists p. split; [|done].
    by rewrite bool_decide_eq_true_2.
Qed.

Lemma profile_owner_sets_own_role_witness :
  exists s',
    exec (authenticated 102 3000 0) (update PROFILES 202 (profiles_set_role admin))
      sample_db
    = Done s' 1
    /\ holds_role (Some 102%N) (profiles s') [admin]
    /\ (admin = admin ->
        forall now' fresh' new,
          insert_allowed classrooms_t (authenticated 102 now' fresh') s' new = true).
Proof.
  apply (profile_owner_sets_own_role sample_db 102%N 3000 0%N
           (Profiles.Row (Some 202%N) (Some 102%N) (Some "kim@example.edu")
              (Some "kim@example.edu") (Some student) None None
              (Some 2100) (Some 2100)) 202%N admin).
  - apply reachable_sample_db.
  - apply list_elem_of_In. vm_compute. right. left. reflexivity.
  - reflexivity.
  - reflexivity.
Defined.

(** ** Who may write classrooms, courses and timetable *)

Lemma managed_select_permits :
  (forall uid profs r, using_permits classrooms_policies SELECT uid profs r = true)
  /\ (forall uid profs r, using_permits courses_policies SELECT uid profs r = true)
  /\ (forall uid profs r, using_permits timetable_policies SELECT uid profs r = true).
Proof. split_and!; intros uid profs r; reflexivity. Qed.

(** X10: the write policies of classrooms, courses and timetable permit
    exactly the identities with the right role.  Under row security an
    INSERT passes the policy of classrooms or courses exactly when the
    requesting identity owns an admin profile, and that of timetable
    exactly when it owns an admin or a faculty profile; the same holds for
    the tuples an UPDATE or DELETE may touch and for the new tuple of an
    UPDATE. *)
Theorem managed_tables_writers :
  forall e s,
    row_security e = true ->
    (forall c r new, c = UPDATE \/ c = DELETE ->
       (insert_allowed classrooms_t e s new = true
        <-> holds_role (auth_uid e) (profiles s) [admin])
       /\ (visible classrooms_t c e s r = true
           <-> holds_role (auth_uid e) (profiles s) [admin])
       /\ (update_allowed classrooms_t e s new = true
           <-> holds_role (auth_uid e) (profiles s) [admin]))
    /\ (forall c r new, c = UPDATE \/ c = DELETE ->
          (insert_allowed courses_t e s new = true
           <-> holds_role (auth_uid e) (profiles s) [admin])
          /\ (visible courses_t c e s r = true
              <-> holds_role (auth_uid e) (profiles s) [admin])
          /\ (update_allowed courses_t e s new = true
              <-> holds_role (auth_uid e) (profiles s) [admin]))
    /\ (forall c r new, c = UPDATE \/ c = DELETE ->
          (insert_allowed timetable_t e s new = true
           <-> holds_role (auth_uid e) (profiles s) [admin; faculty])
          /\ (visible timetable_t c e s r = true
              <-> holds_role (auth_uid e) (profiles s) [admin; faculty])
          /\ (update_allowed timetable_t e s new = true
              <-> holds_role (auth_uid e) (profiles s) [admin; faculty])).
Proof.
  intros e s Hrls.
  destruct managed_select_permits as (Hcl & Hco & Htt).
  split_and!; intros c r new Hc;
    unfold insert_allowed, visible, update_allowed;
    rewrite Hrls, profiles_seen_all;
    cbn [negb orb relpolicies classrooms_t courses_t timetable_t];
    rewrite ?Hcl, ?Hco, ?Htt, ?andb_true_l, ?andb_true_r.
  - split_and!.
    + apply (classrooms_policies_write INSERT); done.
    + apply (classrooms_policies_write c); by destruct Hc as [-> | ->].
    + apply (classrooms_policies_write UPDATE); done.
  - split_and!.
    + apply (courses_policies_write INSERT); done.
    + apply (courses_policies_write c); by destruct Hc as [-> | ->].
    + apply (courses_policies_write UPDATE); done.
  - split_and!.
    + apply (timetable_policies_write INSERT); done.
    + apply (timetable_policies_write c); by destruct Hc as [-> | ->].
    + apply (timetable_policies_write UPDATE); done.
Qed.

Lemma managed_tables_writers_witness :
  (insert_allowed classrooms_t (authenticated 101 3000 7) sample_db
     (classrooms_values "Room C1" 20 [] "Building C" true "New"
        (defaults classrooms_t (authenticated 101 3000 7))) = true
   <-> holds_role (Some 101%N) (profiles sample_db) [admin])
  /\ (insert_allowed timetable_t (authenticated 102 3000 302) sample_db
        (timetable_values 12 202 2 "Friday" (o'clock 14) (o'clock 15)
           "Fall" "2025-2026" (defaults timetable_t (authenticated 102 3000 302)))
      = true
      <-> holds_role (Some 102%N) (profiles sample_db) [admin; faculty]).
Proof.
  split.
  - destruct (managed_tables_writers (authenticated 101 3000 7) sample_db eq_refl)
      as (Hcl & _).
    apply (Hcl UPDATE
             (defaults classrooms_t (authenticated 101 3000 7))
             (classrooms_values "Room C1" 20 [] "Building C" true "New"
                (defaults classrooms_t (authenticated 101 3000 7)))).
    by left.
  - destruct (managed_tables_writers (authenticated 102 3000 302) sample_db eq_refl)
      as (_ & _ & Htt).
    apply (Htt UPDATE
             (defaults timetable_t (authenticated 102 3000 302))
             (timetable_values 12 202 2 "Friday" (o'clock 14) (o'clock 15)
                "Fall" "2025-2026"
                (defaults timetable_t (authenticated 102 3000 302)))).
    by left.
Defined.

(** ** Filing feedback and reading it back *)

Lemma feedback_insert_permits uid profs r :
  check_permits feedback_policies INSERT uid profs r = true
  <-> owns uid (Feedback.user_id r).
Proof.
  unfold check_permits, feedback_policies.
  cbn [existsb applies polcmd USING WITH_CHECK qual_for_wco eval_qual].
  rewrite !bool_decide_eq_false_2 by done.
  rewrite bool_decide_eq_true_2 by done.
  rewrite ?andb_true_l, ?andb_false_l, ?orb_false_l, ?orb_false_r.
  apply sql_eq_owner_true.
Qed.

(** X11: the insert policy of feedback.  Under row security an INSERT of
    a feedback note is rejected with a policy error unless the note names
    the requesting identity as its owner; in particular a request without
    identity can file nothing. *)
Theorem feedback_insert_policy :
  forall e s set,
    row_security e = true ->
    ~ owns (auth_uid e) (Feedback.user_id (set (defaults feedback_t e))) ->
    exec e (insert_into FEEDBACK set) s
    = Rejected (insufficient_privilege "feedback")
    /\ run e (insert_into FEEDBACK set) s = s.
Proof.
  intros e s set Hrls Hother.
  assert (Hex : exec e (insert_into FEEDBACK set) s
                = Rejected (insufficient_privilege "feedback")).
  { simpl. unfold exec_insert, insert_allowed. cbv zeta.
    rewrite Hrls. cbn [relpolicies feedback_t relname negb orb].
    by rewrite (not_true_is_false_iff _ _
                  (feedback_insert_permits (auth_uid e) (profiles_seen e s)
                     (set (defaults feedback_t e)))). }
  split; [exact Hex|]. by eapply rejected_run.
Qed.

Lemma feedback_insert_policy_witness :
  exec (authenticated 101 3000 402)
    (insert_into FEEDBACK (feedback_values 102 "Noise" "Too loud")) sample_db
  = Rejected (insufficient_privilege "feedback")
  /\ run (authenticated 101 3000 402)
       (insert_into FEEDBACK (feedback_values 102 "Noise" "Too loud")) sample_db
     = sample_db.
Proof.
  apply feedback_insert_policy; [reflexivity|].
  intros (u & Hu & Hk). cbn in Hu, Hk. congruence.
Defined.

(** X12: filing a note and reading it back.  When an existing identity
    files a note for itself under row security, with a fresh key, the
    INSERT goes through and stores the note with status 'pending' and both
    timestamps at [NOW()]; the identity then finds the note in its SELECT,
    and so does nobody who is neither the owner nor an admin. *)
Theorem feedback_filed_and_read_back :
  forall s u now fresh title message,
    Some u ∈ map Users.id (users s) ->
    Some fresh ∉ map Feedback.id (feedback s) ->
    exists s',
      exec (authenticated u now fresh)
        (insert_into FEEDBACK (feedback_values u title message)) s
      = Done s' 1
      /\ feedback s'
         = feedback s
           ++ [Feedback.Row (Some fresh) (Some u) (Some title) (Some message)
                 (Some "pending") (Some now) (Some now)]
      /\ Feedback.Row (Some fresh) (Some u) (Some title) (Some message)
           (Some "pending") (Some now) (Some now)
         ∈ select_from feedback_t (authenticated u now fresh) s'
      /\ (forall v now' fresh',
            v <> u -> ~ holds_role (Some v) (profiles s) [admin] ->
            Feedback.Row (Some fresh) (Some u) (Some title) (Some message)
              (Some "pending") (Some now) (Some now)
            ∉ select_from feedback_t (authenticated v now' fresh') s').
Proof.
  intros s u now fresh title message Huser Hfresh. eexists.
  split; [|split; [|split]].
  - simpl. apply (exec_insert_accepts feedback_t).
    + unfold insert_allowed.
      cbn [row_security authenticated negb orb relpolicies feedback_t auth_uid].
      apply feedback_insert_permits. by exists u.
    + unfold row_ok.
      cbn [row_constraints feedback_t defaults feedback_values authenticated
           gen_random_uuid NOW Feedback.id Feedback.user_id Feedback.title
           Feedback.message Feedback.status].
      rewrite !first_violation_cons, !not_null_passes, check_passes.
      split_and!; try done; by eexists.
    + cbn [unique_constraints feedback_t heap].
      rewrite first_violation_cons, unique_on_passes. split; [|done].
      by intros k [= <-].
    + cbn [foreign_keys feedback_t].
      rewrite first_violation_cons, references_passes. split; [|done].
      by intros k [= <-].
  - reflexivity.
  - unfold select_from.
    cbn [row_security authenticated relpolicies heap feedback_t auth_uid store
         set_feedback feedback].
    apply elem_of_list_filter. split.
    + rewrite elem_of_app. right. left.
    + apply feedback_select_permits. left. by exists u.
  - intros v now' fresh' Hv Hno.
    unfold select_from.
    cbn [row_security authenticated relpolicies heap feedback_t auth_uid store
         set_feedback feedback].
    rewrite elem_of_list_filter, feedback_select_permits, profiles_seen_all.
    intros [_ [(w & [= <-] & [= Heq])|Hadm]]; [by destruct Hv|].
    by apply Hno.
Qed.

Lemma feedback_filed_and_read_back_witness :
  exists s',
    exec (authenticated 102 3000 402)
      (insert_into FEEDBACK (feedback_values 102 "Heating" "Room B201 is cold"))
      sample_db
    = Done s' 1
    /\ feedback s'
       = feedback sample_db
         ++ [Feedback.Row (Some 402%N) (Some 102%N) (Some "Heating")
               (Some "Room B201 is cold") (Some "pending") (Some 3000)
               (Some 3000)]
    /\ Feedback.Row (Some 402%N) (Some 102%N) (Some "Heating")
         (Some "Room B201 is cold") (Some "pending") (Some 3000) (Some 3000)
       ∈ select_from feedback_t (authenticated 102 3000 402) s'
    /\ (forall v now' fresh',
          v <> 102%N -> ~ holds_role (Some v) (profiles sample_db) [admin] ->
          Feedback.Row (Some 402%N) (Some 102%N) (Some "Heating")
            (Some "Room B201 is cold") (Some "pending") (Some 3000) (Some 3000)
          ∉ select_from feedback_t (authenticated v now' fresh') s').
Proof.
  apply (feedback_filed_and_read_back sample_db 102%N 3000 402%N
           "Heating" "Room B201 is cold"); by_computation.
Defined.

(** ** Sign-up, the insert policy of profiles, and the first page load *)

Lemma handle_new_user_values e NEW s :
  handle_new_user e NEW s
  = exec_insert profiles_t (security_definer e) (new_profile_values NEW) s.
Proof. reflexivity. Qed.

Lemma create_identity_Done e s NEW s' n :
  exec e (create_identity NEW) s = Done s' n ->
  s' = set_profiles
         (profiles s
          ++ [new_profile_values NEW (defaults profiles_t (security_definer e))])
         (set_users (users s ++ [NEW]) s)
  /\ n = 1%nat
  /\ (forall k, Users.id NEW = Some k -> Some k ∉ map Profiles.user_id (profiles s)).
Proof.
  unfold exec, exec_create_identity.
  destruct (exec_insert users_t _ _ s) as [s1 n1|] eqn:H1; [|done].
  rewrite handle_new_user_values.
  destruct (exec_insert profiles_t _ _ s1) as [s2 n2|] eqn:H2; [|done].
  intros [= <- <-].
  apply exec_insert_Done in H1 as (_ & _ & _ & _ & -> & ->).
  apply exec_insert_Done in H2 as (_ & _ & Huq & _ & -> & _).
  split_and!; try done.
  cbn [unique_constraints profiles_t heap store users_t set_users profiles] in Huq.
  apply first_violation_cons in Huq as [_ Huq].
  apply first_violation_cons in Huq as [Huq _].
  intros k Hk. by apply (proj1 (unique_on_passes _ _ _ _) Huq).
Qed.

Lemma create_identity_accepts e s NEW :
  consistent s ->
  is_Some (Users.id NEW) ->
  Users.id NEW ∉ map Users.id (users s) ->
  is_Some (Users.email NEW) ->
  Some (gen_random_uuid e) ∉ map Profiles.id (profiles s) ->
  exists s', exec e (create_identity NEW) s = Done s' 1.
Proof.
  intros Hs Hid Hfresh Hemail Hpid.
  unfold exec, exec_create_identity.
  rewrite (exec_insert_accepts users_t); cycle 1.
  - done.
  - unfold row_ok. cbn [row_constraints users_t].
    by rewrite first_violation_cons, not_null_passes.
  - cbn [unique_constraints users_t heap].
    rewrite first_violation_cons, unique_on_passes.
    split; [|done]. by intros k <-.
  - done.
  - rewrite handle_new_user_values.
    rewrite (exec_insert_accepts profiles_t); [by eexists|done|..].
    + unfold row_ok.
      cbn [row_constraints profiles_t defaults security_definer new_profile_values
           gen_random_uuid NOW Profiles.id Profiles.user_id Profiles.name
           Profiles.email Profiles.role].
      rewrite !first_violation_cons, !not_null_passes.
      split_and!; try done; try (by eexists).
      by apply COALESCE_is_Some.
    + cbn [unique_constraints profiles_t heap store users_t set_users
           profiles defaults security_definer gen_random_uuid new_profile_values].
      rewrite !first_violation_cons, !unique_on_passes.
      cbn [Profiles.id Profiles.user_id new_profile_values].
      split_and!; [by intros k [= <-]| |done].
      intros k Hk Hin. apply Hfresh. rewrite Hk.
      by apply (profiles_user_id_fkey s Hs).
    + cbn [foreign_keys profiles_t heap store users_t set_users users
           new_profile_values Profiles.user_id].
      rewrite first_violation_cons, references_passes.
      split; [|done]. intros k Hk. rewrite map_app, elem_of_app.
      right. simpl. by apply list_elem_of_singleton.
Qed.

(** X13: [handle_new_user] is SECURITY DEFINER.  In a session under row
    security that is not signed in as the new identity, creating the
    identity goes through: the identity is stored and the trigger has
    appended its profile, the tuple of [new_profile_values], to profiles;
    whereas the very INSERT of the trigger, issued by that session itself,
    is rejected by the insert policy of profiles and stores nothing. *)
Theorem signup_is_exempt_from_policy :
  forall e s NEW,
    row_security e = true ->
    ~ owns (auth_uid e) (Users.id NEW) ->
    reachable s ->
    is_Some (Users.id NEW) ->
    Users.id NEW ∉ map Users.id (users s) ->
    is_Some (Users.email NEW) ->
    Some (gen_random_uuid e) ∉ map Profiles.id (profiles s) ->
    (exists s',
       exec e (create_identity NEW) s = Done s' 1
       /\ users s' = users s ++ [NEW]
       /\ profiles s'
          = profiles s
            ++ [new_profile_values NEW (defaults profiles_t (security_definer e))]
       /\ Profiles.user_id
            (new_profile_values NEW (defaults profiles_t (security_definer e)))
          = Users.id NEW
       /\ Profiles.role
            (new_profile_values NEW (defaults profiles_t (security_definer e)))
          = Some student)
    /\ (forall s0,
          exec e (insert_into PROFILES (new_profile_values NEW)) s0
          = Rejected (insufficient_privilege "profiles")
          /\ run e (insert_into PROFILES (new_profile_values NEW)) s0 = s0).
Proof.
  intros e s NEW Hrls Hother Hs Hid Hfresh Hemail Hpid. split.
  - destruct (create_identity_accepts e s NEW) as [s' Hex]; try done.
    { by apply reachable_consistent. }
    exists s'. split; [exact Hex|].
    apply create_identity_Done in Hex as (-> & _ & _). by split_and!.
  - intros s0.
    assert (Hex : exec e (insert_into PROFILES (new_profile_values NEW)) s0
                  = Rejected (insufficient_privilege "profiles")).
    { simpl. unfold exec_insert, insert_allowed. cbv zeta.
      rewrite Hrls. cbn [relpolicies profiles_t relname negb orb].
      destruct (profiles_policies_permit (auth_uid e) (profiles_seen e s0)
                  (new_profile_values NEW (defaults profiles_t e)))
        as (_ & _ & _ & Hins & _).
      by rewrite (not_true_is_false_iff _ _ Hins). }
    split; [exact Hex|]. by eapply rejected_run.
Qed.

Lemma signup_is_exempt_from_policy_witness :
  (exists s',
     exec (Env None 3000 203 true)
       (create_identity (Users.Row (Some 103%N) (Some "ann@example.edu") None))
       sample_db = Done s' 1
     /\ users s'
        = users sample_db
          ++ [Users.Row (Some 103%N) (Some "ann@example.edu") None]
     /\ profiles s'
        = profiles sample_db
          ++ [new_profile_values
                (Users.Row (Some 103%N) (Some "ann@example.edu") None)
                (defaults profiles_t (security_definer (Env None 3000 203 true)))]
     /\ Profiles.user_id
          (new_profile_values
             (Users.Row (Some 103%N) (Some "ann@example.edu") None)
             (defaults profiles_t (security_definer (Env None 3000 203 true))))
        = Users.id (Users.Row (Some 103%N) (Some "ann@example.edu") None)
     /\ Profiles.role
          (new_profile_values
             (Users.Row (Some 103%N) (Some "ann@example.edu") None)
             (defaults profiles_t (security_definer (Env None 3000 203 true))))
        = Some student)
  /\ (forall s0,
        exec (Env None 3000 203 true)
          (insert_into PROFILES
             (new_profile_values
                (Users.Row (Some 103%N) (Some "ann@example.edu") None))) s0
        = Rejected (insufficient_privilege "profiles")
        /\ run (Env None 3000 203 true)
             (insert_into PROFILES
                (new_profile_values
                   (Users.Row (Some 103%N) (Some "ann@example.edu") None))) s0
           = s0).
Proof.
  apply signup_is_exempt_from_policy.
  - reflexivity.
  - intros (u & Hu & _). discriminate Hu.
  - apply reachable_sample_db.
  - by eexists.
  - by_computation.
  - by eexists.
  - by_computation.
Defined.

(** ** The profile the dashboard loads *)

Lemma having_app {R K} `{EqDecision K} (col : R -> option K) key l1 l2 :
  having col key (l1 ++ l2) = having col key l1 ++ having col key l2.
Proof. unfold having. apply List.filter_app. Qed.

Lemma elem_of_having {R K} `{EqDecision K} (col : R -> option K) key l r :
  r ∈ having col key l <-> r ∈ l /\ col r = Some key.
Proof.
  unfold having. rewrite elem_of_list_filter. by rewrite bool_decide_eq_true.
Qed.

Lemma select_from_profiles e s : select_from profiles_t e s = profiles s.
Proof.
  apply select_all_permitted. intros r.
  apply (profiles_policies_permit (auth_uid e) (profiles_seen e s) r).
Qed.

Lemma single_at_most_one {A} (rows : list A) :
  (length rows <= 1)%nat ->
  single rows = None <-> rows = [].
Proof.
  destruct rows as [|r [|r' rows]]; simpl; intros Hlen; split; try done; lia.
Qed.

Lemma role_label_badge r :
  getRoleColor (role_label r)
  = match r with
    | admin => "bg-destructive text-destructive-foreground"
    | faculty => "bg-accent text-accent-foreground"
    | student => "bg-primary text-primary-foreground"
    end.
Proof. by destruct r. Qed.

(** X14: the profile query of the dashboard.  In every reachable state
    the query of a signed-in user matches at most one profile, so it fails
    exactly when the user has no profile; what it returns is a profile of
    that user, whose badge takes one of the three role colours, never the
    default.  Right after the sign-up of an identity the query returns the
    profile the trigger made, a student's. *)
Theorem dashboard_profile_query :
  (forall s u, reachable s ->
     (fetch_profile u s = None
      <-> forall p, p ∈ profiles s -> Profiles.user_id p <> Some u)
     /\ (forall p, fetch_profile u s = Some p ->
           p ∈ profiles s /\ Profiles.user_id p = Some u
           /\ badge_class (Some p) <> "bg-secondary text-secondary-foreground"))
  /\ (forall e s NEW u s' n,
        Users.id NEW = Some u ->
        exec e (create_identity NEW) s = Done s' n ->
        exists p,
          fetch_profile u s' = Some p
          /\ Profiles.role p = Some student
          /\ Profiles.email p = Users.email NEW
          /\ badge_class (Some p) = "bg-primary text-primary-foreground").
Proof.
  split.
  - intros s u Hs. unfold fetch_profile. rewrite select_from_profiles.
    pose proof (having_at_most_one Profiles.user_id u (profiles s)
                  (profiles_user_id_key s (reachable_consistent s Hs))) as Hone.
    split.
    + rewrite (single_at_most_one _ Hone). split.
      * intros Hnone p Hp Hown.
        assert (Hin : p ∈ having Profiles.user_id u (profiles s))
          by by apply elem_of_having.
        rewrite Hnone in Hin. inversion Hin.
      * intros Hall.
        destruct (having Profiles.user_id u (profiles s)) as [|p l] eqn:Hh;
          [done|].
        assert (Hin : p ∈ having Profiles.user_id u (profiles s))
          by (rewrite Hh; left).
        apply elem_of_having in Hin as [Hp Hown]. by destruct (Hall p Hp).
    + intros p Hfetch.
      destruct (having Profiles.user_id u (profiles s)) as [|p' [|p'' l]] eqn:Hh;
        simpl in Hfetch; try done. injection Hfetch as ->.
      assert (Hin : p ∈ having Profiles.user_id u (profiles s))
        by (rewrite Hh; left).
      apply elem_of_having in Hin as [Hp Hown]. split_and!; try done.
      pose proof (reachable_row_ok profiles_t s p schema_profiles Hs Hp) as Hrow.
      apply profiles_row_ok_not_null in Hrow as (_ & _ & _ & [r Hr]).
      unfold badge_class. rewrite Hr, role_label_badge. by destruct r.
  - intros e s NEW u s' n Hu Hex.
    apply create_identity_Done in Hex as (-> & _ & Hnew).
    exists (new_profile_values NEW (defaults profiles_t (security_definer e))).
    split_and!; try done.
    unfold fetch_profile. rewrite select_from_profiles.
    cbn [profiles set_profiles]. rewrite having_app.
    rewrite (having_absent Profiles.user_id u (profiles s)) by by apply Hnew.
    unfold having. simpl. by rewrite Hu, bool_decide_eq_true_2.
Qed.

Lemma dashboard_profile_query_witness :
  (fetch_profile 103 sample_db = None
   <-> forall p, p ∈ profiles sample_db -> Profiles.user_id p <> Some 103%N)
  /\ (exists p,
        fetch_profile 101
          (run (Env None 2000 201 true) (create_identity dr_lee) seeded_db)
        = Some p
        /\ Profiles.role p = Some student
        /\ Profiles.email p = Users.email dr_lee
        /\ badge_class (Some p) = "bg-primary text-primary-foreground").
Proof.
  destruct dashboard_profile_query as (Hquery & Hsignup).
  split.
  - apply (Hquery sample_db 103%N reachable_sample_db).
  - apply (Hsignup (Env None 2000 201%N true) seeded_db dr_lee 101%N _ 1%nat);
      [reflexivity|vm_compute; reflexivity].
Defined.

(** ** The schedule the dashboard loads *)

Lemma select_from_open :
  (forall e s, select_from classrooms_t e s = classrooms s)
  /\ (forall e s, select_from courses_t e s = courses s)
  /\ (forall e s, select_from timetable_t e s = timetable s).
Proof.
  split_and!; intros e s; by apply select_all_permitted.
Qed.

Lemma find_referenced {R} (col : R -> option uuid) (l : list R) k :
  Some k ∈ map col l ->
  exists r, List.find (fun r => is_true (sql_eq (col r) (Some k))) l = Some r
            /\ r ∈ l /\ col r = Some k.
Proof.
  induction l as [|x l IH]; simpl; [by intros ?%elem_of_nil|].
  intros [Hx|Hin]%elem_of_cons.
  - exists x. rewrite <- Hx. simpl. rewrite bool_decide_eq_true_2 by done.
    split_and!; [done|left|done].
  - destruct (is_true (sql_eq (col x) (Some k))) eqn:Hm.
    + exists x. split_and!; [done|left|].
      destruct (col x) as [k'|]; [|done]. simpl in Hm.
      case_bool_decide; [by subst|done].
    + destruct (IH Hin) as (r & Hfind & Hr & Hk).
      exists r. split_and!; [done|by right|done].
Qed.

Lemma fetch_timetable_rows e s :
  fetch_timetable e s
  = map (fun t =>
           TimetableEntry.Entry
             (Timetable.id t) (Timetable.day_of_week t)
             (Timetable.start_time t) (Timetable.end_time t)
             (match List.find (fun c => is_true (sql_eq (Courses.id c)
                                                   (Timetable.course_id t)))
                      (courses s) with
              | Some c => Some (TimetableEntry.Course (Courses.course_code c)
                                  (Courses.course_name c))
              | None => None
              end)
             (match List.find (fun r => is_true (sql_eq (Classrooms.id r)
                                                   (Timetable.room_id t)))
                      (classrooms s) with
              | Some r => Some (TimetableEntry.Classroom (Classrooms.room_name r)
                                  (Classrooms.location r))
              | None => None
              end)
             (match List.find (fun p => is_true (sql_eq (Profiles.id p)
                                                   (Timetable.faculty_id t)))
                      (profiles s) with
              | Some p => Some (TimetableEntry.Profile (Profiles.name p))
              | None => None
              end))
        (take 10 (timetable s)).
Proof.
  destruct select_from_open as (Hcl & Hco & Htt).
  unfold fetch_timetable, referenced_row.
  by rewrite Hcl, Hco, Htt, select_from_profiles.
Qed.

(** X15: the timetable query of the dashboard.  It returns the first ten
    entries of the table, or all when there are fewer, and the same to
    every session, signed in as whoever: it filters neither by user nor by
    day.  In every reachable state each returned entry carries its id, day
    and times, and its course, classroom and faculty are found, with code,
    names and location present: the page never meets a missing join.  The
    schedule panel lists at most three entries and reports no classes
    exactly when the timetable is empty. *)
Theorem dashboard_timetable_query :
  (forall e e' s, fetch_timetable e s = fetch_timetable e' s)
  /\ (forall e s,
        length (fetch_timetable e s) = (length (timetable s) `min` 10)%nat
        /\ (length (schedule_shown (fetch_timetable e s)) <= 3)%nat
        /\ (schedule_shown (fetch_timetable e s) = [] <-> timetable s = []))
  /\ (forall e s entry,
        reachable s -> entry ∈ fetch_timetable e s ->
        is_Some (TimetableEntry.id entry)
        /\ is_Some (TimetableEntry.day_of_week entry)
        /\ is_Some (TimetableEntry.start_time entry)
        /\ is_Some (TimetableEntry.end_time entry)
        /\ (exists c, TimetableEntry.courses entry = Some c
                      /\ is_Some (TimetableEntry.course_code c)
                      /\ is_Some (TimetableEntry.course_name c))
        /\ (exists r, TimetableEntry.classrooms entry = Some r
                      /\ is_Some (TimetableEntry.room_name r)
                      /\ is_Some (TimetableEntry.location r))
        /\ (exists p, TimetableEntry.profiles entry = Some p
                      /\ is_Some (TimetableEntry.name p))).
Proof.
  split_and!.
  - intros e e' s. by rewrite !fetch_timetable_rows.
  - intros e s. rewrite fetch_timetable_rows. unfold schedule_shown.
    split_and!.
    + rewrite length_map, length_take. lia.
    + rewrite length_take. lia.
    + destruct (timetable s) as [|t l]; [done|]. simpl. split; discriminate.
  - intros e s entry Hs. rewrite fetch_timetable_rows.
    intros (t & -> & Htake)%list_elem_of_fmap.
    assert (Ht : t ∈ timetable s)
      by (eapply elem_of_sublist; [exact Htake|apply sublist_take]).
    pose proof (reachable_consistent s Hs) as Hc.
    pose proof (reachable_row_ok timetable_t s t schema_timetable Hs Ht) as Hrow.
    pose proof (row_ok_id timetable_t t schema_timetable Hrow) as Hid.
    apply timetable_row_ok_not_null in Hrow
      as ([kc Hkc] & [kf Hkf] & [kr Hkr] & Hday & Hstart & Hend & _).
    cbn [TimetableEntry.id TimetableEntry.day_of_week TimetableEntry.start_time
         TimetableEntry.end_time TimetableEntry.courses
         TimetableEntry.classrooms TimetableEntry.profiles].
    assert (Hrc : Some kc ∈ map Courses.id (courses s)).
    { apply (timetable_course_id_fkey s Hc). rewrite <- Hkc.
      by apply (list_elem_of_fmap_2 Timetable.course_id). }
    assert (Hrr : Some kr ∈ map Classrooms.id (classrooms s)).
    { apply (timetable_room_id_fkey s Hc). rewrite <- Hkr.
      by apply (list_elem_of_fmap_2 Timetable.room_id). }
    assert (Hrf : Some kf ∈ map Profiles.id (profiles s)).
    { apply (timetable_faculty_id_fkey s Hc). rewrite <- Hkf.
      by apply (list_elem_of_fmap_2 Timetable.faculty_id). }
    rewrite Hkc, Hkr, Hkf.
    split_and!; try done.
    + destruct (find_referenced Courses.id (courses s) kc Hrc)
        as (c & -> & Hin & _).
      eexists. split; [reflexivity|].
      pose proof (reachable_row_ok courses_t s c schema_courses Hs Hin) as Hok.
      apply courses_row_ok_not_null in Hok as (? & ? & _). by split.
    + destruct (find_referenced Classrooms.id (classrooms s) kr Hrr)
        as (r & -> & Hin & _).
      eexists. split; [reflexivity|].
      pose proof (reachable_row_ok classrooms_t s r schema_classrooms Hs Hin) as Hok.
      apply classrooms_row_ok_not_null in Hok as (? & _ & ?). by split.
    + destruct (find_referenced Profiles.id (profiles s) kf Hrf)
        as (p & -> & Hin & _).
      eexists. split; [reflexivity|].
      pose proof (reachable_row_ok profiles_t s p schema_profiles Hs Hin) as Hok.
      by apply profiles_row_ok_not_null in Hok as (_ & ? & _).
Qed.

Lemma dashboard_timetable_query_witness :
  is_Some (TimetableEntry.id sample_schedule_entry)
  /\ is_Some (TimetableEntry.day_of_week sample_schedule_entry)
  /\ is_Some (TimetableEntry.start_time sample_schedule_entry)
  /\ is_Some (TimetableEntry.end_time sample_schedule_entry)
  /\ (exists c, TimetableEntry.courses sample_schedule_entry = Some c
                /\ is_Some (TimetableEntry.course_code c)
                /\ is_Some (TimetableEntry.course_name c))
  /\ (exists r, TimetableEntry.classrooms sample_schedule_entry = Some r
                /\ is_Some (TimetableEntry.room_name r)
                /\ is_Some (TimetableEntry.location r))
  /\ (exists p, TimetableEntry.profiles sample_schedule_entry = Some p
                /\ is_Some (TimetableEntry.name p)).
Proof.
  apply (proj2 (proj2 dashboard_timetable_query) (session_of 102) sample_db
           sample_schedule_entry reachable_sample_db).
  apply list_elem_of_In. vm_compute. left. reflexivity.
Defined.

(** what the dashboard of the sample state receives *)
Example dashboard_sample :
  fetch_timetable (session_of 102) sample_db = [sample_schedule_entry]
  /\ fetch_profile 102 sample_db
     = Some (Profiles.Row (Some 202%N) (Some 102%N) (Some "kim@example.edu")
               (Some "kim@example.edu") (Some student) None None
               (Some 2100) (Some 2100)).
Proof. vm_compute. split; reflexivity. Qed.

(** ** Role colours *)

(** X16: [getRoleColor] and the roles of the database.  Each of the three
    labels of [user_role] has a colour of its own, none of them the
    default; every other string, in another case or empty, gets the
    default, which is therefore what the badge shows while no profile is
    loaded. *)
Theorem role_colours :
  (forall r r', getRoleColor (role_label r) = getRoleColor (role_label r') -> r = r')
  /\ (forall r,
        getRoleColor (role_label r) <> "bg-secondary text-secondary-foreground")
  /\ (forall str,
        (forall r, str <> role_label r) ->
        getRoleColor str = "bg-secondary text-secondary-foreground")
  /\ badge_class None = "bg-secondary text-secondary-foreground".
Proof.
  split_and!.
  - intros r r'. rewrite !role_label_badge. by destruct r, r'.
  - intros r. rewrite role_label_badge. by destruct r.
  - intros str Hnot. unfold getRoleColor.
    rewrite (bool_decide_eq_false_2 (str = "admin")) by apply (Hnot admin).
    rewrite (bool_decide_eq_false_2 (str = "faculty")) by apply (Hnot faculty).
    by rewrite (bool_decide_eq_false_2 (str = "student")) by apply (Hnot student).
  - reflexivity.
Qed.

Lemma role_colours_witness :
  getRoleColor "Admin" = "bg-secondary text-secondary-foreground".
Proof.
  apply (proj1 (proj2 (proj2 role_colours))). intros r. by destruct r.
Defined.

(** ** What an UPDATE can do to [updated_at], and what a statement leaves alone *)

Lemma before_update_overrides {R} (rel : relation R) e r r' :
  same_but_updated_at rel r r' ->
  before_update (table_of rel) e r = before_update (table_of rel) e r'.
Proof.
  destruct rel, r, r'; simpl; intros ?; destruct_and!; by subst.
Qed.

(** X17: an UPDATE cannot choose [updated_at].  Two UPDATE statements on
    the same tuple whose new tuples differ at most in the [updated_at] they
    submit have the same outcome: the trigger replaces whatever was
    submitted by [NOW()] before the policies and constraints see it. *)
Theorem update_cannot_set_updated_at :
  forall R (rel : relation R) e target set set' s,
    (forall r, same_but_updated_at rel (set r) (set' r)) ->
    exec e (update rel target set) s = exec e (update rel target set') s.
Proof.
  intros R rel e target set set' s Hsame. simpl. unfold exec_update.
  destruct (target_row _ _ _ _ _) as [old|]; [|done].
  cbv zeta. by rewrite (before_update_overrides rel e _ _ (Hsame old)).
Qed.

Lemma update_cannot_set_updated_at_witness :
  exec (authenticated 102 3000 0) (update PROFILES 202 (profiles_set_role faculty))
    sample_db
  = exec (authenticated 102 3000 0)
      (update PROFILES 202
         (fun r => set_updated_at (Some 1) (profiles_set_role faculty r)))
      sample_db.
Proof.
  apply (update_cannot_set_updated_at _ PROFILES).
  intros r. simpl. by split_and!.
Defined.

Lemma untouched_by_store {R} (rel : relation R) l s :
  untouched_outside rel s (store (table_of rel) l s).
Proof. by destruct rel. Qed.

(** X18: statements on a public table are local.  An INSERT adds one
    tuple to its table and an UPDATE keeps the number of tuples; neither
    changes [auth.users] or any other table.  A DELETE changes nothing
    outside its table except that timetable entries may go with it, and a
    DELETE on timetable or feedback changes nothing else at all. *)
Theorem statements_are_local :
  forall R (rel : relation R) e s s' n,
    (forall set,
       exec e (insert_into rel set) s = Done s' n ->
       untouched_outside rel s s'
       /\ length (heap (table_of rel) s') = S (length (heap (table_of rel) s)))
    /\ (forall target set,
          exec e (update rel target set) s = Done s' n ->
          untouched_outside rel s s'
          /\ length (heap (table_of rel) s') = length (heap (table_of rel) s))
    /\ (forall target,
          exec e (delete_from rel target) s = Done s' n ->
          untouched_but_timetable rel s s'
          /\ heap (table_of rel) s' `sublist_of` heap (table_of rel) s).
Proof.
  intros R rel e s s' n. split_and!.
  - intros set Hex. simpl in Hex.
    apply exec_insert_Done in Hex as (_ & _ & _ & _ & -> & _). split.
    + apply untouched_by_store.
    + destruct rel; simpl; rewrite length_app; simpl; lia.
  - intros target set Hex. simpl in Hex.
    apply exec_update_Done in Hex
      as [(_ & -> & _)|(old & _ & _ & _ & _ & _ & _ & -> & _)].
    + split; [|done]. by destruct rel.
    + split; [apply untouched_by_store|].
      destruct rel; simpl; by rewrite length_map.
  - intros target Hex. simpl in Hex.
    apply exec_delete_Done in Hex as [(_ & -> & _)|(_ & -> & _)].
    + split; [|done]. by destruct rel.
    + destruct rel; simpl; unfold untouched_but_timetable; simpl;
        split_and!; try done; apply without_sublist.
Qed.

Lemma statements_are_local_witness :
  untouched_but_timetable COURSES sample_db
    (run (authenticated 101 3000 0) (delete_from COURSES 11) sample_db)
  /\ heap (table_of COURSES)
       (run (authenticated 101 3000 0) (delete_from COURSES 11) sample_db)
     `sublist_of` heap (table_of COURSES) sample_db.
Proof.
  apply (proj2 (proj2 (statements_are_local _ COURSES (authenticated 101 3000 0)
                         sample_db
                         (run (authenticated 101 3000 0) (delete_from COURSES 11)
                            sample_db) 1%nat)) 11%N).
  vm_compute. reflexivity.
Defined.

(** ** The seed data *)

(** X19: the seed of the migration.  Run by the owner on the empty
    tables, at whatever time, all ten INSERT statements go through: the
    five classrooms and the five courses satisfy the constraints of their
    tables, and every tuple is stamped with that time.  Issued under row
    security instead, by whatever identity, none goes through: the empty
    database has no admin. *)
Theorem migration_seed_loads :
  forall now,
    map Classrooms.room_name (classrooms (run_script (migration_seed now) empty_db))
    = [Some "Room A101"; Some "Room B201"; Some "Lab C301";
       Some "Auditorium D001"; Some "Room A102"]
    /\ map Classrooms.capacity (classrooms (run_script (migration_seed now) empty_db))
       = [Some 50; Some 30; Some 25; Some 200; Some 40]
    /\ map Courses.course_code (courses (run_script (migration_seed now) empty_db))
       = [Some "CS101"; Some "MATH201"; Some "ENG101"; Some "PHYS201";
          Some "BIO101"]
    /\ map Courses.credits (courses (run_script (migration_seed now) empty_db))
       = [Some 3; Some 4; Some 3; Some 4; Some 3]
    /\ Forall (fun r => Classrooms.created_at r = Some now
                        /\ Classrooms.updated_at r = Some now)
         (classrooms (run_script (migration_seed now) empty_db))
    /\ Forall (fun r => Courses.created_at r = Some now
                        /\ Courses.updated_at r = Some now)
         (courses (run_script (migration_seed now) empty_db))
    /\ (forall uid,
          run_script (under_row_security uid (migration_seed now)) empty_db
          = empty_db).
Proof.
  intros now. split_and!.
  - vm_compute. reflexivity.
  - vm_compute. reflexivity.
  - vm_compute. reflexivity.
  - vm_compute. reflexivity.
  - vm_compute. repeat constructor.
  - vm_compute. repeat constructor.
  - intros uid. vm_compute. reflexivity.
Qed.

(** ** Writing a tuple and looking it up by its key *)

Lemma heap_after_delete {R} (rel : relation R) target s :
  heap (table_of rel)
    (on_delete (table_of rel) target
       (store (table_of rel)
          (without (relid (table_of rel)) target (heap (table_of rel) s)) s))
  = without (relid (table_of rel)) target (heap (table_of rel) s).
Proof.
  by destruct rel.
Qed.

(** X20: a tuple is found by its key exactly as long as it is there.  In
    a reachable state, for a session exempt from row security: after an
    INSERT that went through, the lookup of the new key returns the new
    tuple; after an UPDATE that went through and kept the key, the lookup
    returns the updated tuple, stamped; after a DELETE that found its
    tuple, the lookup of that key returns nothing. *)
Theorem lookup_after_write :
  forall R (rel : relation R) e e' c s,
    reachable s -> row_security e' = false ->
    (forall set s' n k,
       exec e (insert_into rel set) s = Done s' n ->
       relid (table_of rel) (set (defaults (table_of rel) e)) = Some k ->
       target_row (table_of rel) c e' s' k
       = Some (set (defaults (table_of rel) e)))
    /\ (forall target set s' old,
          exec e (update rel target set) s = Done s' 1 ->
          target_row (table_of rel) UPDATE e s target = Some old ->
          relid (table_of rel) (set old) = Some target ->
          target_row (table_of rel) c e' s' target
          = Some (before_update (table_of rel) e (set old)))
    /\ (forall target s' old,
          exec e (delete_from rel target) s = Done s' 1 ->
          target_row (table_of rel) DELETE e s target = Some old ->
          target_row (table_of rel) c e' s' target = None).
Proof.
  intros R rel e e' c s Hs Hrls. split_and!.
  - intros set s' n k Hex Hk.
    assert (Hs' : reachable s') by by eapply reachable_step.
    simpl in Hex. apply exec_insert_Done in Hex as (_ & _ & _ & _ & Heq & _).
    apply target_row_unrestricted; [done| | |done].
    + apply consistent_keys_ok; [apply table_of_schema|].
      by apply reachable_consistent.
    + rewrite Heq. destruct rel; simpl; rewrite elem_of_app; right; left.
  - intros target set s' old Hex Hold Hk.
    assert (Hs' : reachable s') by by eapply reachable_step.
    simpl in Hex. apply exec_update_Done in Hex
      as [(_ & _ & [=])|(old' & Hold' & _ & _ & _ & _ & _ & Heq & _)].
    rewrite Hold in Hold'. injection Hold' as <-.
    apply target_row_Some in Hold as (Hin & Hid & _).
    apply target_row_unrestricted; [done| | |].
    + apply consistent_keys_ok; [apply table_of_schema|].
      by apply reachable_consistent.
    + rewrite Heq.
      assert (Hnew : before_update (table_of rel) e (set old)
                     ∈ map (fun r => if bool_decide (relid (table_of rel) r
                                                     = Some target)
                                     then before_update (table_of rel) e (set old)
                                     else r) (heap (table_of rel) s)).
      { apply list_elem_of_fmap. exists old. split; [|done].
        by rewrite bool_decide_eq_true_2. }
      by destruct rel.
    + by destruct rel.
  - intros target s' old Hex Hold. simpl in Hex.
    apply exec_delete_Done in Hex as [(_ & _ & [=])|(_ & -> & _)].
    apply target_row_none. intros r Hr Hid. exfalso.
    rewrite heap_after_delete in Hr.
    by apply elem_of_without in Hr as [_ Hne].
Qed.

Lemma lookup_after_write_witness :
  target_row (table_of COURSES) SELECT (owner 4000 0)
    (run (authenticated 101 3000 0) (delete_from COURSES 11) sample_db) 11
  = None.
Proof.
  apply (proj2 (proj2 (lookup_after_write _ COURSES (authenticated 101 3000 0)
                         (owner 4000 0) SELECT sample_db reachable_sample_db
                         eq_refl)) 11%N _
           (Courses.Row (Some 11%N) (Some "CS101")
              (Some "Introduction to Computer Science")
              (Some "Computer Science") (Some 3)
              (Some "Basic concepts of computer science and programming")
              (Some 1000) (Some 1000))).
  - vm_compute. reflexivity.
  - vm_compute. reflexivity.
Defined.

(** ** Where the name of a new profile comes from *)

(** X21: the name [handle_new_user] gives a profile, by the shape of the
    signup metadata.  Without metadata, with metadata that is not an
    object, without a "name" member or with a JSON null for it, the name is
    the email of the identity.  A "name" that is a string is taken as it
    is, the empty string included: a blank name does not fall back to the
    email.  Any other JSON value is taken in its text form. *)
Theorem signup_name_source :
  forall e s NEW s' n,
    exec e (create_identity NEW) s = Done s' n ->
    exists p,
      profiles s' = profiles s ++ [p]
      /\ (Users.raw_user_meta_data NEW = None ->
          Profiles.name p = Users.email NEW)
      /\ (Users.raw_user_meta_data NEW = Some JNotObject ->
          Profiles.name p = Users.email NEW)
      /\ (forall members,
            Users.raw_user_meta_data NEW = Some (JObject members) ->
            (members !! "name" = None -> Profiles.name p = Users.email NEW)
            /\ (members !! "name" = Some JNull ->
                Profiles.name p = Users.email NEW)
            /\ (forall nm, members !! "name" = Some (JString nm) ->
                  Profiles.name p = Some nm)
            /\ (members !! "name" = Some (JString "") ->
                Profiles.name p = Some "")
            /\ (forall out, members !! "name" = Some (JOther out) ->
                  Profiles.name p = Some out)).
Proof.
  intros e s NEW s' n Hex.
  apply create_identity_Done in Hex as (-> & _ & _).
  eexists. split; [reflexivity|].
  cbn [new_profile_values Profiles.name].
  split_and!.
  - by intros ->.
  - by intros ->.
  - intros members ->. simpl.
    split_and!; try (by intros ->); intros ? Hm; by rewrite Hm.
Qed.

Lemma signup_name_source_witness :
  exists p,
    profiles (run (Env None 3000 203 true)
                (create_identity
                   (Users.Row (Some 103%N) (Some "ann@example.edu")
                      (Some (JObject {[ "name" := JString "" ]}))))
                sample_db)
    = profiles sample_db ++ [p]
    /\ Profiles.name p = Some "".
Proof.
  destruct (signup_name_source (Env None 3000 203%N true) sample_db
              (Users.Row (Some 103%N) (Some "ann@example.edu")
                 (Some (JObject {[ "name" := JString "" ]})))
              (run (Env None 3000 203%N true)
                 (create_identity
                    (Users.Row (Some 103%N) (Some "ann@example.edu")
                       (Some (JObject {[ "name" := JString "" ]}))))
                 sample_db) 1%nat)
    as (p & Hp & _ & _ & Hobj); [vm_compute; reflexivity|].
  exists p. split; [exact Hp|].
  destruct (Hobj {[ "name" := JString "" ]} eq_refl) as (_ & _ & _ & Hblank & _).
  apply Hblank. clear. vm_compute. reflexivity.
Defined.
